(** * QETL SDK: job lifecycle of the local runner and the job handle

    A shallow embedding of [qetl_sdk/exceptions.py], [qetl_sdk/job.py],
    [qetl_sdk/local_runner.py] and [QETLClient.submit_job] of
    [qetl_sdk/client.py], followed by the properties of the job lifecycle
    that the specification states about them.

    Conventions of the embedding:
    - Python [str] is [string]; the float literals of the source
      ([0.0], [10.0], ..., [100.0]) are all integral and are represented by
      their integer value in [Z]; [None] is [option]'s [None].
    - A Python [dict] whose iteration order matters is an association list
      in insertion order ([dict_set] overwrites in place, as Python does).
    - Code that raises returns a [result]; code that mutates [self] threads
      the object explicitly.
    - The wall clock, the file system, the subprocess, the uuid generator
      and PyYAML are inputs of the functions that consult them.
    - A path is the text of the [Path] object the code holds: an argument
      [yaml_file] or [yaml_path] stands for [str(Path(yaml_file))]. *)

From Stdlib Require Import List String Ascii ZArith Lia Bool Arith DecimalString.
Import ListNotations.

Open Scope string_scope.
Open Scope list_scope.

Infix "+++" := String.append (at level 60, right associativity).

(** ** Python dictionaries with insertion order *)

Section Dict.
Context {V : Type}.

Definition dict := list (string * V).

Fixpoint dict_get (k : string) (d : dict) : option V :=
  match d with
  | [] => None
  | (k', v) :: rest => if String.eqb k k' then Some v else dict_get k rest
  end.

(** [d[k] = v]: an existing key keeps its position, a new key goes last. *)
Fixpoint dict_set (k : string) (v : V) (d : dict) : dict :=
  match d with
  | [] => [(k, v)]
  | (k', v') :: rest =>
      if String.eqb k k' then (k, v) :: rest
      else (k', v') :: dict_set k v rest
  end.

Definition dict_mem (k : string) (d : dict) : bool :=
  match dict_get k d with Some _ => true | None => false end.

Definition dict_keys (d : dict) : list string := map fst d.

End Dict.

Arguments dict V : clear implicits.

(** ** String helpers used by the source's string operations *)

Module Str.

(** [pat in s] for Python strings. *)
Fixpoint contains (pat s : string) : bool :=
  if String.prefix pat s then true
  else match s with
       | EmptyString => false
       | String _ rest => contains pat rest
       end.

(** [s.split(sep)] for a one-character separator. *)
Fixpoint split_char (sep : ascii) (s : string) : list string :=
  match s with
  | EmptyString => [EmptyString]
  | String c rest =>
      if Ascii.eqb c sep then EmptyString :: split_char sep rest
      else match split_char sep rest with
           | [] => [String c EmptyString]
           | hd :: tl => String c hd :: tl
           end
  end.

Fixpoint drop (n : nat) (s : string) : string :=
  match n, s with
  | O, _ => s
  | S n', String _ rest => drop n' rest
  | S _, EmptyString => EmptyString
  end.

(** [s.split(pat)[1]] when [pat] (non-empty) occurs in [s]: the text
    between the first and the second occurrence of [pat]; [None] when
    [len(s.split(pat)) <= 1]. *)
Fixpoint before (pat s : string) : string :=
  if String.prefix pat s then EmptyString
  else match s with
       | EmptyString => EmptyString
       | String c rest => String c (before pat rest)
       end.

Fixpoint after (pat s : string) : option string :=
  if String.prefix pat s then Some (drop (String.length pat) s)
  else match s with
       | EmptyString => None
       | String _ rest => after pat rest
       end.

Definition split_second (pat s : string) : option string :=
  match after pat s with
  | Some tail => Some (before pat tail)
  | None => None
  end.

(** The characters [str.strip()] removes, within ASCII; the white space
    of Unicode outside ASCII is not represented. *)
Definition is_space (c : ascii) : bool :=
  let n := nat_of_ascii c in
  (((9 <=? n) && (n <=? 13)) || ((28 <=? n) && (n <=? 32)))%nat.

Fixpoint lstrip (s : string) : string :=
  match s with
  | String c rest => if is_space c then lstrip rest else s
  | EmptyString => EmptyString
  end.

Fixpoint rstrip (s : string) : string :=
  match s with
  | EmptyString => EmptyString
  | String c rest =>
      match rstrip rest with
      | EmptyString => if is_space c then EmptyString else String c EmptyString
      | r => String c r
      end
  end.

Definition strip (s : string) : string := rstrip (lstrip s).

(** [sep.join(parts)] *)
Fixpoint join (sep : string) (parts : list string) : string :=
  match parts with
  | [] => EmptyString
  | [p] => p
  | p :: rest => p +++ sep +++ join sep rest
  end.

(** [str(n)] for an [int]. *)
Definition of_Z (z : Z) : string := NilZero.string_of_int (Z.to_int z).

End Str.

(** ** exceptions.py *)

Module Exc.

(** The SDK's exception classes, and the built-in ones the modelled code
    can raise. *)
Inductive cls :=
| QETLError
| AuthenticationError
| AuthorizationError
| ValidationError
| JobExecutionError
| TimeoutError
| ConfigurationError
| ComponentNotFoundError
| JobNotFoundError
| NetworkError
| RateLimitError
| QuotaExceededError
| AttributeError
| TypeError
| KeyError
| FileNotFoundError
| IsADirectoryError
| PermissionError
| OSError
| YAMLError
| TimeoutExpired.

Definition cls_eqb (a b : cls) : bool :=
  match a, b with
  | QETLError, QETLError | AuthenticationError, AuthenticationError
  | AuthorizationError, AuthorizationError | ValidationError, ValidationError
  | JobExecutionError, JobExecutionError | TimeoutError, TimeoutError
  | ConfigurationError, ConfigurationError
  | ComponentNotFoundError, ComponentNotFoundError
  | JobNotFoundError, JobNotFoundError | NetworkError, NetworkError
  | RateLimitError, RateLimitError | QuotaExceededError, QuotaExceededError
  | AttributeError, AttributeError | TypeError, TypeError
  | KeyError, KeyError | FileNotFoundError, FileNotFoundError
  | IsADirectoryError, IsADirectoryError | PermissionError, PermissionError
  | OSError, OSError | YAMLError, YAMLError
  | TimeoutExpired, TimeoutExpired => true
  | _, _ => false
  end.

(** [type(e).__name__] *)
Definition name (c : cls) : string :=
  match c with
  | QETLError => "QETLError"
  | AuthenticationError => "AuthenticationError"
  | AuthorizationError => "AuthorizationError"
  | ValidationError => "ValidationError"
  | JobExecutionError => "JobExecutionError"
  | TimeoutError => "TimeoutError"
  | ConfigurationError => "ConfigurationError"
  | ComponentNotFoundError => "ComponentNotFoundError"
  | JobNotFoundError => "JobNotFoundError"
  | NetworkError => "NetworkError"
  | RateLimitError => "RateLimitError"
  | QuotaExceededError => "QuotaExceededError"
  | AttributeError => "AttributeError"
  | TypeError => "TypeError"
  | KeyError => "KeyError"
  | FileNotFoundError => "FileNotFoundError"
  | IsADirectoryError => "IsADirectoryError"
  | PermissionError => "PermissionError"
  | OSError => "OSError"
  | YAMLError => "YAMLError"
  | TimeoutExpired => "TimeoutExpired"
  end.

(** Every SDK class derives directly from [QETLError]; the built-in
    [FileNotFoundError], [IsADirectoryError] and [PermissionError] derive
    from [OSError]. *)
Definition is_sdk (c : cls) : bool :=
  match c with
  | AttributeError | TypeError | KeyError | FileNotFoundError
  | IsADirectoryError | PermissionError | OSError
  | YAMLError | TimeoutExpired => false
  | _ => true
  end.

(** [issubclass(c, base)] *)
Definition issubclass (c base : cls) : bool :=
  cls_eqb c base
  || match base with
     | QETLError => is_sdk c
     | OSError =>
         cls_eqb c FileNotFoundError || cls_eqb c IsADirectoryError
         || cls_eqb c PermissionError
     | _ => false
     end.

Record t := mk {
  klass : cls;
  message : string;                (* [self.message], or [args[0]] of a built-in *)
  error_code : option string;
  validation_errors : list string  (* [ValidationError.validation_errors] *)
}.

(** [isinstance(e, base)] *)
Definition isinstance (e : t) (base : cls) : bool := issubclass (klass e) base.

(** [QETLError.__str__]; a built-in prints its message. *)
Definition str (e : t) : string :=
  match error_code e with
  | Some code => "[" +++ code +++ "] " +++ message e
  | None => message e
  end.

(** The constructors of the classes the modelled code raises. *)
Definition QETLError_ (msg : string) : t := mk QETLError msg None [].
Definition ValidationError_ (msg : string) (errs : list string) : t :=
  mk ValidationError msg (Some "VALIDATION_ERROR") errs.
Definition JobExecutionError_ (msg : string) : t :=
  mk JobExecutionError msg (Some "JOB_EXECUTION_ERROR") [].
Definition JobNotFoundError_ (job_id : string) : t :=
  mk JobNotFoundError ("Job not found: " +++ job_id) (Some "JOB_NOT_FOUND") [].
Definition builtin (c : cls) (msg : string) : t := mk c msg None [].

End Exc.

(** The outcome of a call: a value or a raised exception. *)
Inductive result (A : Type) :=
| Ok (a : A)
| Raise (e : Exc.t).
Arguments Ok {A} a.
Arguments Raise {A} e.


(** ** job.py: JobState, JobStatus, JobResults *)

Inductive JobState :=
| SUBMITTED
| VALIDATING
| QUEUED
| INITIALIZING
| RUNNING
| COMPLETING
| COMPLETED
| FAILED
| CANCELLED.

Definition JobState_eqb (a b : JobState) : bool :=
  match a, b with
  | SUBMITTED, SUBMITTED | VALIDATING, VALIDATING | QUEUED, QUEUED
  | INITIALIZING, INITIALIZING | RUNNING, RUNNING | COMPLETING, COMPLETING
  | COMPLETED, COMPLETED | FAILED, FAILED | CANCELLED, CANCELLED => true
  | _, _ => false
  end.

(** [member.name] and [member.value] of the enumeration. *)
Definition JobState_name (s : JobState) : string :=
  match s with
  | SUBMITTED => "SUBMITTED" | VALIDATING => "VALIDATING" | QUEUED => "QUEUED"
  | INITIALIZING => "INITIALIZING" | RUNNING => "RUNNING"
  | COMPLETING => "COMPLETING" | COMPLETED => "COMPLETED"
  | FAILED => "FAILED" | CANCELLED => "CANCELLED"
  end.

Definition JobState_value (s : JobState) : string :=
  match s with
  | SUBMITTED => "submitted" | VALIDATING => "validating" | QUEUED => "queued"
  | INITIALIZING => "initializing" | RUNNING => "running"
  | COMPLETING => "completing" | COMPLETED => "completed"
  | FAILED => "failed" | CANCELLED => "cancelled"
  end.

(** The value of an attribute read, as far as the modelled code reads any. *)
Inductive attr_value :=
| AStr (s : string)
| ABool (b : bool).

(** Python truthiness of such a value. *)
Definition truthy (v : attr_value) : bool :=
  match v with
  | AStr s => negb (String.eqb s "")
  | ABool b => b
  end.

(** Attribute lookup on a [JobState] member.  [class JobState(Enum)]
    (job.py lines 16-26) declares the nine members and no property or
    method, so a member has [name] and [value] and nothing else of the
    SDK's: [is_terminal], [is_running] and [is_successful] are properties of
    [JobStatus], not of [JobState], and reading one on a member raises
    [AttributeError]. *)
Definition JobState_getattr (s : JobState) (attr : string) : result attr_value :=
  if String.eqb attr "value" then Ok (AStr (JobState_value s))
  else if String.eqb attr "name" then Ok (AStr (JobState_name s))
  else Raise (Exc.builtin Exc.AttributeError
                ("'JobState' object has no attribute '" +++ attr +++ "'")).

(** The terminal states of the specification. *)
Definition terminal (s : JobState) : bool :=
  match s with
  | COMPLETED | FAILED | CANCELLED => true
  | _ => false
  end.

Record JobStatus := mkJobStatus {
  st_job_id : string;
  st_state : JobState;
  st_progress : option Z;
  st_message : string;
  st_created_at : nat;
  st_updated_at : nat
}.

(** [JobStatus.is_terminal], [is_running], [is_successful] *)
Definition is_terminal (s : JobStatus) : bool :=
  match st_state s with
  | COMPLETED | FAILED | CANCELLED => true
  | _ => false
  end.

Definition is_running (s : JobStatus) : bool :=
  match st_state s with
  | RUNNING | INITIALIZING | COMPLETING => true
  | _ => false
  end.

Definition is_successful (s : JobStatus) : bool :=
  JobState_eqb (st_state s) COMPLETED.

Record JobResults := mkJobResults {
  res_job_id : string;
  res_outputs : dict string;
  res_execution_time : nat;
  res_logs : list string;
  res_metrics : dict string
}.

(** ** local_runner.py: the job table *)

(** The dictionary stored under [jobs[job_id]]["error"]. *)
Record ErrorInfo := mkErrorInfo {
  err_type : string;
  err_message : string;
  err_timestamp : nat
}.

(** One entry of [LocalRunner.jobs].  The keys [job_id], [yaml_path],
    [status], [created_at], [updated_at], [progress], [message] and [kwargs]
    are set at submission and never deleted; [progress] may hold [None];
    the keys [results] and [error] are absent until they are assigned. *)
Record JobData := mkJobData {
  jd_job_id : string;
  jd_yaml_path : string;
  jd_status : JobState;
  jd_created_at : nat;
  jd_updated_at : nat;
  jd_progress : option Z;
  jd_message : string;
  jd_kwargs : dict string;
  jd_results : option JobResults;
  jd_error : option ErrorInfo
}.

(** A status write to the job table: which job, which state, which progress.
    [None] as the last component is a write that does not touch [progress]. *)
Definition StatusWrite : Type := string * JobState * option (option Z).

(** [LocalRunner]: [qetl_home], [timeout] and the in-memory table [jobs].
    Two components are not attributes of the source object: [clock], the
    wall clock that [datetime.now] and [time.time] read (it advances at each
    reading), and [history], the log of the status writes made to [jobs],
    oldest first, kept to state in which order the table was written. *)
Record LocalRunner := mkLocalRunner {
  qetl_home : string;
  timeout : Z;
  jobs : dict JobData;
  clock : nat;
  history : list StatusWrite
}.

Definition with_jobs (j : dict JobData) (r : LocalRunner) : LocalRunner :=
  mkLocalRunner (qetl_home r) (timeout r) j (clock r) (history r).

Definition with_clock (c : nat) (r : LocalRunner) : LocalRunner :=
  mkLocalRunner (qetl_home r) (timeout r) (jobs r) c (history r).

Definition record_write (w : StatusWrite) (r : LocalRunner) : LocalRunner :=
  mkLocalRunner (qetl_home r) (timeout r) (jobs r) (clock r) (history r ++ [w]).

(** ** Calls on the runner: state and exceptions *)

Definition M (A : Type) : Type := LocalRunner -> result A * LocalRunner.

Definition ret {A} (a : A) : M A := fun r => (Ok a, r).

Definition raise {A} (e : Exc.t) : M A := fun r => (Raise e, r).

Definition bind {A B} (m : M A) (k : A -> M B) : M B :=
  fun r =>
    match m r with
    | (Ok a, r') => k a r'
    | (Raise e, r') => (Raise e, r')
    end.

(** [try: m  except Exception as e: h e] *)
Definition try_except {A} (m : M A) (h : Exc.t -> M A) : M A :=
  fun r =>
    match m r with
    | (Ok a, r') => (Ok a, r')
    | (Raise e, r') => h e r'
    end.

Notation "x <- m ;; k" := (bind m (fun x => k))
  (at level 61, m at next level, right associativity).
Notation "m ;;; k" := (bind m (fun _ => k))
  (at level 61, right associativity).

(** [datetime.now(timezone.utc)] and [time.time()] *)
Definition datetime_now : M nat :=
  fun r => (Ok (clock r), with_clock (S (clock r)) r).

Definition lift {A} (x : result A) : M A := fun r => (x, r).

(** ** The collaborators of the runner *)

(** A parsed YAML document, as far as [validate_yaml] looks into it: the
    kind of the top-level value, the keys of a mapping and the items of a
    sequence, each either a string or something that no string equals. *)
Inductive YamlItem :=
| IStr (s : string)
| IOther.

Inductive Yaml :=
| YNull
| YBool (b : bool)
| YNum (z : Z)
| YStr (s : string)
| YSeq (items : list YamlItem)
| YMap (keys : list YamlItem).

(** What [open(yaml_path)] followed by [yaml.safe_load] does.  A path is
    the text of the [Path] object the code holds, [str(path)]. *)
Inductive FileRead :=
| FileMissing                    (* [FileNotFoundError] *)
| FileUnreadable (c : Exc.cls) (msg : string)
    (* another exception of [open], of class [c] and with text [msg]:
       [IsADirectoryError], [PermissionError], another [OSError] *)
| FileBadYaml (msg : string)     (* [yaml.YAMLError] *)
| FileYaml (config : Yaml).

(** What [subprocess.run(..., timeout=...)] does. *)
Inductive ProcOutcome :=
| ProcTimeout                                       (* [subprocess.TimeoutExpired] *)
| ProcError (e : Exc.t)                             (* any other exception *)
| ProcDone (returncode : Z) (stdout stderr : string).

Record Env := mkEnv {
  read_yaml : string -> FileRead;
  path_repr : string -> string;   (* [repr] of a file name, as the text of
                                     an [OSError] shows it *)
  sys_executable : string;
  subprocess_run : list string -> ProcOutcome;  (* by command line *)
  subprocess_elapsed : nat                      (* seconds the call takes *)
}.

(** ** job.py: the Job handle (data) *)

(** A callback is user code; the model identifies it by a number and
    records each call made to it (see [Event] below). *)
Definition Callback : Type := nat.

(** [Job]: the attributes [job_id], [_status], [_results],
    [_completion_callbacks] and [_status_callbacks].  The attribute
    [_backend] is a reference to the shared runner: the operations on a job
    take the runner's current state and return its new state. *)
Record Job := mkJob {
  job_id : string;
  _status : option JobStatus;
  _results : option JobResults;
  _completion_callbacks : list Callback;
  _status_callbacks : list Callback
}.

(** [Job(job_id, backend, initial_status)] *)
Definition Job_init (id : string) (initial_status : option JobStatus) : Job :=
  mkJob id initial_status None [] [].

(** ** local_runner.py: validation and submission *)

Definition required_fields : list string :=
  ["pipeline_name"; "input_sources"; "transformations"].

Definition item_is (field : string) (i : YamlItem) : bool :=
  match i with
  | IStr s => String.eqb s field
  | IOther => false
  end.

(** [field in config], by the type of [config]: key membership for a
    mapping, item membership for a sequence, substring for a string, and
    [TypeError] for a value that is not a container. *)
Definition yaml_contains (field : string) (config : Yaml) : result bool :=
  match config with
  | YMap keys => Ok (existsb (item_is field) keys)
  | YSeq items => Ok (existsb (item_is field) items)
  | YStr s => Ok (Str.contains field s)
  | YNull =>
      Raise (Exc.builtin Exc.TypeError "argument of type 'NoneType' is not iterable")
  | YBool _ =>
      Raise (Exc.builtin Exc.TypeError "argument of type 'bool' is not iterable")
  | YNum _ =>
      Raise (Exc.builtin Exc.TypeError "argument of type 'int' is not iterable")
  end.

(** The loop of [validate_yaml] over [required_fields], collecting
    [errors] in order. *)
Fixpoint missing_fields (fields : list string) (config : Yaml)
  : result (list string) :=
  match fields with
  | [] => Ok []
  | field :: rest =>
      match yaml_contains field config with
      | Raise e => Raise e
      | Ok present =>
          match missing_fields rest config with
          | Raise e => Raise e
          | Ok errors =>
              Ok (if present then errors
                  else ("Missing required field: " +++ field) :: errors)
          end
      end
  end.

(** [LocalRunner.validate_yaml]; the returned dictionary is represented by
    its [config] entry. *)
Definition validate_yaml (env : Env) (yaml_path : string) : result Yaml :=
  match read_yaml env yaml_path with
  | FileMissing =>
      Raise (Exc.ValidationError_ ("YAML file not found: " +++ yaml_path) [])
  | FileUnreadable c msg =>
      let e := Exc.builtin c msg in
      if Exc.isinstance e Exc.YAMLError then
        Raise (Exc.ValidationError_ ("Invalid YAML format: " +++ Exc.str e) [])
      else if Exc.isinstance e Exc.FileNotFoundError then
        Raise (Exc.ValidationError_ ("YAML file not found: " +++ yaml_path) [])
      else Raise e
  | FileBadYaml msg =>
      Raise (Exc.ValidationError_ ("Invalid YAML format: " +++ msg) [])
  | FileYaml config =>
      match missing_fields required_fields config with
      | Raise e => Raise e
      | Ok [] => Ok config
      | Ok errors => Raise (Exc.ValidationError_ "YAML validation failed" errors)
      end
  end.

(** The result of [LocalRunner.submit_job]: the job handle, and the
    background thread started for it, named by the argument of its target
    [_execute_job]. *)
Record Submitted := mkSubmitted {
  sub_job : Job;
  sub_thread : string
}.

(** [LocalRunner.submit_job]; [new_id] is the value of [str(uuid.uuid4())]. *)
Definition submit_job (env : Env) (yaml_path : string) (new_id : string)
  (kwargs : dict string) : M Submitted :=
  match validate_yaml env yaml_path with
  | Raise e => raise e
  | Ok _ =>
      created_at <- datetime_now ;;
      updated_at <- datetime_now ;;
      let job_data :=
        mkJobData new_id yaml_path SUBMITTED created_at updated_at
                  (Some 0%Z) "Job submitted" kwargs None None in
      (fun r => (Ok tt,
                 record_write (new_id, SUBMITTED, Some (Some 0%Z))
                   (with_jobs (dict_set new_id job_data (jobs r)) r))) ;;;
      status_updated_at <- datetime_now ;;
      let initial_status :=
        mkJobStatus new_id SUBMITTED (Some 0%Z) "Job submitted"
                    created_at status_updated_at in
      ret (mkSubmitted (Job_init new_id (Some initial_status)) new_id)
  end.

(** ** local_runner.py: status writes *)

(** [LocalRunner._update_job_status] *)
Definition _update_job_status (id : string) (state : JobState)
  (progress : option Z) (message : string) : M unit :=
  fun r =>
    match dict_get id (jobs r) with
    | Some jd =>
        let now := clock r in
        let jd' :=
          mkJobData (jd_job_id jd) (jd_yaml_path jd) state (jd_created_at jd)
                    now progress message (jd_kwargs jd) (jd_results jd)
                    (jd_error jd) in
        (Ok tt,
         record_write (id, state, Some progress)
           (with_clock (S now) (with_jobs (dict_set id jd' (jobs r)) r)))
    | None => (Ok tt, r)
    end.

(** [LocalRunner.cancel_job] *)
Definition cancel_job (id : string) : M bool :=
  fun r =>
    match dict_get id (jobs r) with
    | None => (Ok false, r)
    | Some job_data =>
        match JobState_getattr (jd_status job_data) "is_terminal" with
        | Raise e => (Raise e, r)
        | Ok t =>
            if truthy t then (Ok false, r)
            else
              let now := clock r in
              let jd' :=
                mkJobData (jd_job_id job_data) (jd_yaml_path job_data)
                          CANCELLED (jd_created_at job_data) now
                          (jd_progress job_data) "Job cancelled by user"
                          (jd_kwargs job_data) (jd_results job_data)
                          (jd_error job_data) in
              (Ok true,
               record_write (id, CANCELLED, None)
                 (with_clock (S now) (with_jobs (dict_set id jd' (jobs r)) r)))
        end
    end.

(** ** local_runner.py: lookups *)

Definition not_found (id : string) : Exc.t :=
  Exc.QETLError_ ("Job not found: " +++ id).

(** The [JobStatus] that [get_job_status] and [list_jobs] build from an
    entry; [job_data.get("progress", 0.0)] is the stored value, as the key
    is always present. *)
Definition status_of (id : string) (jd : JobData) : JobStatus :=
  mkJobStatus id (jd_status jd) (jd_progress jd) (jd_message jd)
              (jd_created_at jd) (jd_updated_at jd).

(** [LocalRunner.get_job_status] *)
Definition get_job_status (id : string) (r : LocalRunner) : result JobStatus :=
  match dict_get id (jobs r) with
  | None => Raise (not_found id)
  | Some job_data => Ok (status_of id job_data)
  end.

(** [LocalRunner.get_job_results] *)
Definition get_job_results (id : string) (r : LocalRunner) : result JobResults :=
  match dict_get id (jobs r) with
  | None => Raise (not_found id)
  | Some job_data =>
      match jd_results job_data with
      | None => Raise (Exc.QETLError_ ("Results not available for job " +++ id))
      | Some results => Ok results
      end
  end.

(** [LocalRunner.get_job_logs] *)
Definition get_job_logs (id : string) (follow : bool) (r : LocalRunner)
  : result (list string) :=
  match dict_get id (jobs r) with
  | None => Raise (not_found id)
  | Some job_data =>
      match jd_results job_data with
      | Some results => Ok (res_logs results)
      | None => Ok [jd_message job_data]
      end
  end.

(** [LocalRunner.get_job] *)
Definition get_job (id : string) (r : LocalRunner) : result Job :=
  match get_job_status id r with
  | Raise e => Raise e
  | Ok status => Ok (Job_init id (Some status))
  end.

(** The loop of [list_jobs] over [list(self.jobs.items())]; [acc] is the
    list [jobs] built so far.  [status] is falsy when it is [None] or the
    empty string. *)
Fixpoint list_jobs_loop (status : option string) (limit : Z)
  (items : list (string * JobData)) (acc : list Job) : list Job :=
  match items with
  | [] => acc
  | (id, job_data) :: rest =>
      let skip :=
        match status with
        | None => false
        | Some s =>
            negb (String.eqb s "")
            && negb (String.eqb (JobState_value (jd_status job_data)) s)
        end in
      if skip then list_jobs_loop status limit rest acc
      else
        let acc' := acc ++ [Job_init id (Some (status_of id job_data))] in
        if (Z.of_nat (List.length acc') >=? limit)%Z then acc'
        else list_jobs_loop status limit rest acc'
  end.

(** [LocalRunner.list_jobs] *)
Definition list_jobs (status : option string) (limit : Z) (r : LocalRunner)
  : list Job :=
  list_jobs_loop status limit (jobs r) [].

(** ** local_runner.py: running the pipeline *)

Definition newline : ascii := ascii_of_nat 10.

(** The loop of [_parse_pipeline_outputs] over the lines of [stdout]. *)
Fixpoint parse_lines (lines : list string) (outputs : dict string) : dict string :=
  match lines with
  | [] => outputs
  | line :: rest =>
      let outputs' :=
        if Str.contains "Processing complete" line then
          dict_set "status" "completed" outputs
        else if Str.contains "Results saved to" line then
          match Str.split_second "Results saved to" line with
          | Some part => dict_set "result_path" (Str.strip part) outputs
          | None => outputs
          end
        else outputs in
      parse_lines rest outputs'
  end.

(** [LocalRunner._parse_pipeline_outputs] *)
Definition _parse_pipeline_outputs (stdout : string) : dict string :=
  if String.eqb stdout "" then []
  else
    match parse_lines (Str.split_char newline stdout) [] with
    | [] => [("status", "completed");
             ("message", "Pipeline execution completed");
             ("stdout", stdout)]
    | outputs => outputs
    end.

(** The dictionary [_run_yaml_pipeline] returns.  The values of [metrics]
    are an [int] and a [str] in the source; they are kept as text. *)
Record PipelineResult := mkPipelineResult {
  pr_outputs : dict string;
  pr_logs : list string;
  pr_metrics : dict string
}.

(** The command line of the YAML pipeline runner. *)
Definition pipeline_cmd (env : Env) (r : LocalRunner) (yaml_path id : string)
  : list string :=
  [sys_executable env; qetl_home r +++ "/yaml_pipeline_runner/main.py";
   "--config"; yaml_path; "--job-id"; id].

(** The [try] block of [_run_yaml_pipeline]. *)
Definition run_pipeline_try (env : Env) (r : LocalRunner) (yaml_path id : string)
  : result PipelineResult :=
  let cmd := pipeline_cmd env r yaml_path id in
  match subprocess_run env cmd with
  | ProcTimeout => Raise (Exc.builtin Exc.TimeoutExpired "Command timed out")
  | ProcError e => Raise e
  | ProcDone returncode stdout stderr =>
      if negb (returncode =? 0)%Z then
        Raise (Exc.JobExecutionError_ ("Pipeline execution failed: " +++ stderr))
      else
        Ok (mkPipelineResult
              (_parse_pipeline_outputs stdout)
              (if String.eqb stdout "" then [] else Str.split_char newline stdout)
              [("return_code", Str.of_Z returncode);
               ("execution_command", Str.join " " cmd)])
  end.

(** [LocalRunner._run_yaml_pipeline]: the [try] block under its two
    handlers, [except subprocess.TimeoutExpired] and [except Exception]. *)
Definition _run_yaml_pipeline (env : Env) (yaml_path id : string)
  : M PipelineResult :=
  fun r =>
    let r' := with_clock (clock r + subprocess_elapsed env) r in
    match run_pipeline_try env r yaml_path id with
    | Ok result => (Ok result, r')
    | Raise e =>
        if Exc.isinstance e Exc.TimeoutExpired then
          (Raise (Exc.JobExecutionError_
                    ("Pipeline execution timed out after "
                     +++ Str.of_Z (timeout r) +++ " seconds")), r')
        else
          (Raise (Exc.JobExecutionError_
                    ("Failed to execute pipeline: " +++ Exc.str e)), r')
    end.

(** ** local_runner.py: the background thread *)

(** [open(yaml_path)] and [yaml.safe_load(f)] in [_execute_job].  The
    text of the [FileNotFoundError] ends with the [repr] of the file name,
    which the environment supplies. *)
Definition load_yaml (env : Env) (yaml_path : string) : result Yaml :=
  match read_yaml env yaml_path with
  | FileMissing =>
      Raise (Exc.builtin Exc.FileNotFoundError
               ("[Errno 2] No such file or directory: "
                +++ path_repr env yaml_path))
  | FileUnreadable c msg => Raise (Exc.builtin c msg)
  | FileBadYaml msg => Raise (Exc.builtin Exc.YAMLError msg)
  | FileYaml config => Ok config
  end.

(** [self.jobs[job_id]], which raises [KeyError] for an unknown id; the
    text of a [KeyError] is the [repr] of the key. *)
Definition jobs_getitem (id : string) : M JobData :=
  fun r =>
    match dict_get id (jobs r) with
    | Some jd => (Ok jd, r)
    | None => (Raise (Exc.builtin Exc.KeyError ("'" +++ id +++ "'")), r)
    end.

(** [self.jobs[job_id]["results"] = job_results] *)
Definition set_results (id : string) (job_results : JobResults) : M unit :=
  jd <- jobs_getitem id ;;
  fun r =>
    let jd' :=
      mkJobData (jd_job_id jd) (jd_yaml_path jd) (jd_status jd)
                (jd_created_at jd) (jd_updated_at jd) (jd_progress jd)
                (jd_message jd) (jd_kwargs jd) (Some job_results) (jd_error jd) in
    (Ok tt, with_jobs (dict_set id jd' (jobs r)) r).

(** [self.jobs[job_id]["error"] = {...}] *)
Definition set_error (id : string) (error : ErrorInfo) : M unit :=
  jd <- jobs_getitem id ;;
  fun r =>
    let jd' :=
      mkJobData (jd_job_id jd) (jd_yaml_path jd) (jd_status jd)
                (jd_created_at jd) (jd_updated_at jd) (jd_progress jd)
                (jd_message jd) (jd_kwargs jd) (jd_results jd) (Some error) in
    (Ok tt, with_jobs (dict_set id jd' (jobs r)) r).

(** The [try] block of [_execute_job]. *)
Definition execute_job_try (env : Env) (id : string) : M unit :=
  job_data <- jobs_getitem id ;;
  let yaml_path := jd_yaml_path job_data in
  _update_job_status id VALIDATING (Some 10%Z) "Validating configuration" ;;;
  config <- lift (load_yaml env yaml_path) ;;
  _update_job_status id QUEUED (Some 20%Z) "Job queued for execution" ;;;
  _update_job_status id INITIALIZING (Some 30%Z)
                     "Initializing execution environment" ;;;
  _update_job_status id RUNNING (Some 40%Z) "Executing pipeline" ;;;
  start_time <- datetime_now ;;
  result <- _run_yaml_pipeline env yaml_path id ;;
  end_time <- datetime_now ;;
  let execution_time := end_time - start_time in
  _update_job_status id COMPLETING (Some 90%Z) "Processing results" ;;;
  let job_results :=
    mkJobResults id (pr_outputs result) execution_time (pr_logs result)
                 (pr_metrics result) in
  set_results id job_results ;;;
  _update_job_status id COMPLETED (Some 100%Z) "Job completed successfully".

(** The [except Exception as e] block of [_execute_job]. *)
Definition execute_job_except (id : string) (e : Exc.t) : M unit :=
  _update_job_status id FAILED None (Exc.str e) ;;;
  timestamp <- datetime_now ;;
  set_error id (mkErrorInfo (Exc.name (Exc.klass e)) (Exc.str e) timestamp).

(** [LocalRunner._execute_job], the target of the background thread. *)
Definition _execute_job (env : Env) (id : string) : M unit :=
  try_except (execute_job_try env id) (execute_job_except id).

(** ** local_runner.py: the background thread, statement by statement *)

(** Where the thread of a job stands in [_execute_job]: the statement it
    executes next, with the local variables that are set by then. *)
Inductive Pc :=
| at_job_data            (* [job_data = self.jobs[job_id].copy()] *)
| at_validating (yaml_path : string)
| at_load (yaml_path : string)
| at_queued (yaml_path : string)
| at_initializing (yaml_path : string)
| at_running (yaml_path : string)
| at_start_time (yaml_path : string)
| at_pipeline (yaml_path : string) (start_time : nat)
| at_end_time (result : PipelineResult) (start_time : nat)
| at_completing (result : PipelineResult) (execution_time : nat)
| at_results (job_results : JobResults)
| at_completed
| at_failed (e : Exc.t)  (* [except Exception as e:], before the FAILED write *)
| at_timestamp (e : Exc.t)
| at_error (e : Exc.t) (timestamp : nat)
| finished
| died (e : Exc.t).      (* an exception raised in the handler ends the thread *)

(** A statement of the [try] block: an exception takes the thread to the
    handler.  A statement of the handler: an exception ends the thread. *)
Definition in_try (m : M Pc) (r : LocalRunner) : Pc * LocalRunner :=
  match m r with
  | (Ok pc, r') => (pc, r')
  | (Raise e, r') => (at_failed e, r')
  end.

Definition in_except (m : M Pc) (r : LocalRunner) : Pc * LocalRunner :=
  match m r with
  | (Ok pc, r') => (pc, r')
  | (Raise e, r') => (died e, r')
  end.

(** One statement of [_execute_job], in the order of the source. *)
Definition thread_step (env : Env) (id : string) (pc : Pc)
  : LocalRunner -> Pc * LocalRunner :=
  match pc with
  | at_job_data =>
      in_try (job_data <- jobs_getitem id ;;
              ret (at_validating (jd_yaml_path job_data)))
  | at_validating yaml_path =>
      in_try (_update_job_status id VALIDATING (Some 10%Z)
                                 "Validating configuration" ;;;
              ret (at_load yaml_path))
  | at_load yaml_path =>
      in_try (config <- lift (load_yaml env yaml_path) ;;
              ret (at_queued yaml_path))
  | at_queued yaml_path =>
      in_try (_update_job_status id QUEUED (Some 20%Z)
                                 "Job queued for execution" ;;;
              ret (at_initializing yaml_path))
  | at_initializing yaml_path =>
      in_try (_update_job_status id INITIALIZING (Some 30%Z)
                                 "Initializing execution environment" ;;;
              ret (at_running yaml_path))
  | at_running yaml_path =>
      in_try (_update_job_status id RUNNING (Some 40%Z) "Executing pipeline" ;;;
              ret (at_start_time yaml_path))
  | at_start_time yaml_path =>
      in_try (start_time <- datetime_now ;;
              ret (at_pipeline yaml_path start_time))
  | at_pipeline yaml_path start_time =>
      in_try (result <- _run_yaml_pipeline env yaml_path id ;;
              ret (at_end_time result start_time))
  | at_end_time result start_time =>
      in_try (end_time <- datetime_now ;;
              ret (at_completing result (end_time - start_time)))
  | at_completing result execution_time =>
      in_try (_update_job_status id COMPLETING (Some 90%Z)
                                 "Processing results" ;;;
              ret (at_results
                     (mkJobResults id (pr_outputs result) execution_time
                                   (pr_logs result) (pr_metrics result))))
  | at_results job_results =>
      in_try (set_results id job_results ;;; ret at_completed)
  | at_completed =>
      in_try (_update_job_status id COMPLETED (Some 100%Z)
                                 "Job completed successfully" ;;;
              ret finished)
  | at_failed e =>
      in_except (_update_job_status id FAILED None (Exc.str e) ;;;
                 ret (at_timestamp e))
  | at_timestamp e =>
      in_except (timestamp <- datetime_now ;; ret (at_error e timestamp))
  | at_error e timestamp =>
      in_except (set_error id (mkErrorInfo (Exc.name (Exc.klass e))
                                           (Exc.str e) timestamp) ;;;
                 ret finished)
  | finished => fun r => (finished, r)
  | died e => fun r => (died e, r)
  end.

(** [n] statements of the thread, and the runner after each of them. *)
Fixpoint thread_run (env : Env) (id : string) (n : nat) (pc : Pc)
  (r : LocalRunner) : Pc * LocalRunner :=
  match n with
  | O => (pc, r)
  | S n' =>
      let (pc', r') := thread_step env id pc r in
      thread_run env id n' pc' r'
  end.

Fixpoint thread_trace (env : Env) (id : string) (n : nat) (pc : Pc)
  (r : LocalRunner) : list LocalRunner :=
  match n with
  | O => []
  | S n' =>
      let (pc', r') := thread_step env id pc r in
      r' :: thread_trace env id n' pc' r'
  end.

(** What the table holds for a job: its state, its progress, and whether
    it has results. *)
Definition has_results (jd : JobData) : bool :=
  match jd_results jd with Some _ => true | None => false end.

Definition stored (id : string) (r : LocalRunner)
  : option (JobState * option Z * bool) :=
  match dict_get id (jobs r) with
  | Some jd => Some (jd_status jd, jd_progress jd, has_results jd)
  | None => None
  end.

(** The thread has no status write ahead of it. *)
Definition quiet_pc (pc : Pc) : bool :=
  match pc with
  | at_timestamp _ | at_error _ _ | finished | died _ => true
  | _ => false
  end.

(** ** The runner with its threads *)

(** A runner together with the background threads it has started, each
    under the id of its job and at its current statement. *)
Record System := mkSystem {
  sys_runner : LocalRunner;
  sys_threads : dict Pc
}.

(** What changes a runner: a call of [submit_job], one statement of the
    thread of a job, a call of [cancel_job].  The other methods
    ([get_job_status], [get_job_results], [get_job_logs], [get_job],
    [list_jobs], [get_instance_info]) only read the table. *)
Inductive Op :=
| op_submit (env : Env) (yaml_path new_id : string) (kwargs : dict string)
| op_thread (env : Env) (id : string)
| op_cancel (id : string).

(** One operation.  [str(uuid.uuid4())] is taken to draw an id that is not
    in the table: a submission with an id in use does not happen.
    [submit_job] starts the thread of the new job, which it does after it
    has stored the entry; a thread runs [_execute_job] once. *)
Definition do_op (op : Op) (s : System) : System :=
  match op with
  | op_submit env yaml_path new_id kwargs =>
      if dict_mem new_id (jobs (sys_runner s)) then s
      else
        match submit_job env yaml_path new_id kwargs (sys_runner s) with
        | (Ok sub, r') =>
            mkSystem r' (dict_set (sub_thread sub) at_job_data (sys_threads s))
        | (Raise _, r') => mkSystem r' (sys_threads s)
        end
  | op_thread env id =>
      match dict_get id (sys_threads s) with
      | Some pc =>
          let (pc', r') := thread_step env id pc (sys_runner s) in
          mkSystem r' (dict_set id pc' (sys_threads s))
      | None => s
      end
  | op_cancel id =>
      mkSystem (snd (cancel_job id (sys_runner s))) (sys_threads s)
  end.

(** A sequence of operations, in any interleaving of calls and threads. *)
Definition run_ops (ops : list Op) (s : System) : System :=
  fold_left (fun s op => do_op op s) ops s.

(** ** client.py: QETLClient.submit_job in local mode *)

(** [yaml_path.exists()] *)
Definition path_exists (env : Env) (yaml_path : string) : bool :=
  match read_yaml env yaml_path with
  | FileMissing => false
  | _ => true
  end.

(** [QETLClient.submit_job], with [LocalRunner] as [self._backend];
    [yaml_file] is the text of [Path(yaml_file)], which is what the runner
    stores under [yaml_path]. *)
Definition client_submit_job (env : Env) (yaml_file : string) (new_id : string)
  (kwargs : dict string) : M Submitted :=
  if negb (path_exists env yaml_file) then
    raise (Exc.QETLError_ ("YAML file not found: " +++ yaml_file))
  else
    try_except (submit_job env yaml_file new_id kwargs)
               (fun e => raise (Exc.QETLError_ ("Job submission failed: " +++ Exc.str e))).

(** ** job.py: the operations of the Job handle *)

(** A call made to a user callback, with its argument. *)
Inductive Event :=
| StatusCall (cb : Callback) (status : JobStatus)
| CompletionCall (cb : Callback) (results : option JobResults).

(** What a thread that uses a job handle sees: the handle, the shared
    runner behind it, the calls made to callbacks so far (oldest first), the
    number of [time.sleep(1)] calls it has made and the number of
    [self._backend.get_job_status] calls it has made. *)
Record World := mkWorld {
  w_job : Job;
  w_backend : LocalRunner;
  w_events : list Event;
  w_sleeps : nat;
  w_polls : nat
}.

(** The outcome of an operation that may loop: the loops and the mutual
    recursion of job.py are unfolded a bounded number of times, and [Fuel]
    is the outcome of a call that has not returned within the bound. *)
Inductive outcome (A : Type) :=
| Ret (a : A)
| Exn (e : Exc.t)
| Fuel.
Arguments Ret {A} a.
Arguments Exn {A} e.
Arguments Fuel {A}.

Definition JM (A : Type) : Type := World -> outcome A * World.

Definition jret {A} (a : A) : JM A := fun w => (Ret a, w).

Definition jraise {A} (e : Exc.t) : JM A := fun w => (Exn e, w).

Definition jdiverge {A} : JM A := fun w => (Fuel, w).

Definition jbind {A B} (m : JM A) (k : A -> JM B) : JM B :=
  fun w =>
    match m w with
    | (Ret a, w') => k a w'
    | (Exn e, w') => (Exn e, w')
    | (Fuel, w') => (Fuel, w')
    end.

(** [try: m  except Exception as e: h e] *)
Definition jtry {A} (m : JM A) (h : Exc.t -> JM A) : JM A :=
  fun w =>
    match m w with
    | (Exn e, w') => h e w'
    | other => other
    end.

Notation "x <~ m ;; k" := (jbind m (fun x => k))
  (at level 61, m at next level, right associativity).
Notation "m ~>> k" := (jbind m (fun _ => k))
  (at level 61, right associativity).

Definition set_job (j : Job) (w : World) : World :=
  mkWorld j (w_backend w) (w_events w) (w_sleeps w) (w_polls w).

Definition set_backend (r : LocalRunner) (w : World) : World :=
  mkWorld (w_job w) r (w_events w) (w_sleeps w) (w_polls w).

Definition get_self : JM Job := fun w => (Ret (w_job w), w).

(** [self._status = v] and [self._results = v] *)
Definition assign_status (v : option JobStatus) : JM unit :=
  fun w =>
    let j := w_job w in
    (Ret tt, set_job (mkJob (job_id j) v (_results j)
                            (_completion_callbacks j) (_status_callbacks j)) w).

Definition assign_results (v : option JobResults) : JM unit :=
  fun w =>
    let j := w_job w in
    (Ret tt, set_job (mkJob (job_id j) (_status j) v
                            (_completion_callbacks j) (_status_callbacks j)) w).

(** A read-only call on the backend. *)
Definition backend_read {A} (f : LocalRunner -> result A) : JM A :=
  fun w =>
    match f (w_backend w) with
    | Ok a => (Ret a, w)
    | Raise e => (Exn e, w)
    end.

(** A call on the backend that may change it. *)
Definition backend_call {A} (f : M A) : JM A :=
  fun w =>
    match f (w_backend w) with
    | (Ok a, r) => (Ret a, set_backend r w)
    | (Raise e, r) => (Exn e, set_backend r w)
    end.

(** [try: callback(arg)  except Exception: pass], for each callback of a
    list in order: the call is recorded, whatever it raises is dropped. *)
Definition call_all (mk : Callback -> Event) (cbs : list Callback) : JM unit :=
  fun w =>
    (Ret tt, mkWorld (w_job w) (w_backend w) (w_events w ++ map mk cbs)
                     (w_sleeps w) (w_polls w)).

Section JobOperations.

(** What the other threads do to the runner while this one sleeps: the
    effect on the runner of the [k]-th [time.sleep(1)]. *)
Variable others : nat -> LocalRunner -> LocalRunner.

(** [time.sleep(1)] *)
Definition sleep : JM unit :=
  fun w =>
    (Ret tt, mkWorld (w_job w) (others (w_sleeps w) (w_backend w))
                     (w_events w) (S (w_sleeps w)) (w_polls w)).

(** [self._backend.get_job_status(self.job_id)], counted. *)
Definition poll_status : JM JobStatus :=
  fun w =>
    backend_read (get_job_status (job_id (w_job w)))
      (mkWorld (w_job w) (w_backend w) (w_events w) (w_sleeps w) (S (w_polls w))).

(** [Job.get_status], given [_trigger_completion_callbacks]. *)
Definition get_status_body (trigger : JM unit) : JM JobStatus :=
  jtry
    (self <~ get_self ;;
     s <~ poll_status ;;
     assign_status (Some s) ~>>
     call_all (fun cb => StatusCall cb s) (_status_callbacks self) ~>>
     (if is_terminal s && negb (Nat.eqb (List.length (_completion_callbacks self)) 0)
      then trigger else jret tt) ~>>
     jret s)
    (fun e => jraise (Exc.QETLError_ ("Failed to get job status: " +++ Exc.str e))).

(** The property [Job.status], given [get_status]. *)
Definition status_body (get_status : JM JobStatus) : JM JobStatus :=
  self <~ get_self ;;
  match _status self with
  | None => get_status
  | Some s => jret s
  end.

(** [Job.get_results] after its wait loop. *)
Definition get_results_tail (status : JM JobStatus) : JM JobResults :=
  s <~ status ;;
  if negb (is_successful s) then
    s' <~ status ;;
    self <~ get_self ;;
    jraise (Exc.QETLError_ ("Job " +++ job_id self +++ " failed: " +++ st_message s'))
  else
    self <~ get_self ;;
    match _results self with
    | Some results => jret results
    | None =>
        results <~ jtry (backend_read (get_job_results (job_id self)))
                        (fun e => jraise (Exc.QETLError_
                                    ("Failed to get job results: " +++ Exc.str e))) ;;
        assign_results (Some results) ~>>
        jret results
    end.

(** [Job.get_results]: one evaluation of the condition of
    [while not self.status.is_terminal: time.sleep(1)]; [again] is the rest
    of the call after one more iteration. *)
Definition get_results_body (status : JM JobStatus) (again : JM JobResults)
  : JM JobResults :=
  s <~ status ;;
  if negb (is_terminal s) then sleep ~>> again
  else get_results_tail status.

(** [Job._trigger_completion_callbacks], given [status] and [get_results]. *)
Definition trigger_body (status : JM JobStatus) (get_results : JM JobResults)
  : JM unit :=
  self <~ get_self ;;
  match _completion_callbacks self with
  | [] => jret tt
  | _ =>
      jtry
        (s <~ status ;;
         results <~ (if is_successful s
                     then (r <~ get_results ;; jret (Some r))
                     else jret None) ;;
         self' <~ get_self ;;
         call_all (fun cb => CompletionCall cb results) (_completion_callbacks self'))
        (fun _ =>
           self' <~ get_self ;;
           call_all (fun cb => CompletionCall cb None) (_completion_callbacks self'))
  end.

(** The four mutually recursive operations, unfolded [n] times. *)
Record JobOps := mkJobOps {
  op_get_status : JM JobStatus;
  op_status : JM JobStatus;
  op_get_results : JM JobResults;
  op_trigger : JM unit
}.

Fixpoint job_ops (n : nat) : JobOps :=
  match n with
  | O => mkJobOps jdiverge jdiverge jdiverge jdiverge
  | S n' =>
      let inner := job_ops n' in
      let get_status_ := get_status_body (op_trigger inner) in
      let status_ := status_body get_status_ in
      let get_results_ := get_results_body status_ (op_get_results inner) in
      let trigger_ := trigger_body status_ get_results_ in
      mkJobOps get_status_ status_ get_results_ trigger_
  end.

Definition get_status (n : nat) : JM JobStatus := op_get_status (job_ops n).
Definition status (n : nat) : JM JobStatus := op_status (job_ops n).
Definition get_results (n : nat) : JM JobResults := op_get_results (job_ops n).
Definition _trigger_completion_callbacks (n : nat) : JM unit :=
  op_trigger (job_ops n).

(** [Job.cancel] *)
Definition cancel : JM bool :=
  jtry
    (self <~ get_self ;;
     result <~ backend_call (cancel_job (job_id self)) ;;
     assign_status None ~>>
     jret result)
    (fun e => jraise (Exc.QETLError_ ("Failed to cancel job: " +++ Exc.str e))).

(** [Job.get_logs] *)
Definition get_logs (follow : bool) : JM (list string) :=
  jtry
    (self <~ get_self ;;
     backend_read (get_job_logs (job_id self) follow))
    (fun e => jraise (Exc.QETLError_ ("Failed to get job logs: " +++ Exc.str e))).

(** [Job.on_completion] *)
Definition on_completion (n : nat) (callback : Callback) : JM unit :=
  (fun w =>
     let j := w_job w in
     (Ret tt, set_job (mkJob (job_id j) (_status j) (_results j)
                             (_completion_callbacks j ++ [callback])
                             (_status_callbacks j)) w)) ~>>
  s <~ status n ;;
  if is_terminal s then _trigger_completion_callbacks n else jret tt.

(** [Job.on_status_change] *)
Definition on_status_change (callback : Callback) : JM unit :=
  fun w =>
    let j := w_job w in
    (Ret tt, set_job (mkJob (job_id j) (_status j) (_results j)
                            (_completion_callbacks j)
                            (_status_callbacks j ++ [callback])) w).

End JobOperations.

(** ** Concrete scenarios *)

Module Scenario.

(** A configuration with the three required sections, and one without
    [transformations]. *)
Definition good_config : Yaml :=
  YMap [IStr "pipeline_name"; IStr "input_sources"; IStr "transformations";
        IStr "outputs"].

Definition bad_config : Yaml :=
  YMap [IStr "pipeline_name"; IStr "input_sources"].

Definition files (path : string) : FileRead :=
  if String.eqb path "good.yaml" then FileYaml good_config
  else if String.eqb path "bad.yaml" then FileYaml bad_config
  else if String.eqb path "empty.yaml" then FileYaml YNull
  else FileMissing.

(** [repr] of a file name that holds no quote, no backslash and no
    control character, as the names of the scenarios do. *)
Definition quoted (path : string) : string := "'" +++ path +++ "'".

(** An executor that succeeds, one that exits with status 1 and one that
    exceeds the timeout. *)
Definition env_ok : Env :=
  mkEnv files quoted "python3"
        (fun _ => ProcDone 0 "Processing complete" "") 3.

Definition env_fail : Env :=
  mkEnv files quoted "python3" (fun _ => ProcDone 1 "" "boom") 3.

Definition env_timeout : Env :=
  mkEnv files quoted "python3" (fun _ => ProcTimeout) 2.

(** A freshly constructed runner. *)
Definition runner0 : LocalRunner := mkLocalRunner "/opt/qetl" 300 [] 0 [].

(** The runner after [submit_job] of [good.yaml] under the id [J1]. *)
Definition runner1 : LocalRunner :=
  snd (submit_job env_ok "good.yaml" "J1" [] runner0).

(** The runner after the background thread of [J1] has run, with each of
    the three executors. *)
Definition runner_completed : LocalRunner := snd (_execute_job env_ok "J1" runner1).
Definition runner_failed : LocalRunner := snd (_execute_job env_fail "J1" runner1).
Definition runner_timed_out : LocalRunner :=
  snd (_execute_job env_timeout "J1" runner1).

(** The submission of [J1] followed by the twelve statements of its
    thread, and some operations that may come after: a cancellation
    request for [J1], the submission of [J2], and a statement of each of
    the two threads. *)
Definition run_J1 : list Op :=
  op_submit env_ok "good.yaml" "J1" [] :: repeat (op_thread env_ok "J1") 12.

Definition later_operations : list Op :=
  [op_cancel "J1"; op_submit env_ok "good.yaml" "J2" [];
   op_thread env_ok "J2"; op_thread env_ok "J1"].

(** The entry of [J1] once its thread has run with [env_ok]. *)
Definition completed_J1 : JobData :=
  mkJobData "J1" "good.yaml" COMPLETED 0 13 (Some 100%Z)
    "Job completed successfully" []
    (Some (mkJobResults "J1" [("status", "completed")] 4
             ["Processing complete"]
             [("return_code", "0");
              ("execution_command",
               "python3 /opt/qetl/yaml_pipeline_runner/main.py --config good.yaml --job-id J1")]))
    None.

(** A table that holds [J1] with the record that [cancel_job] is written
    to store: status CANCELLED, message "Job cancelled by user", the other
    keys as submitted.  No operation of the code as it stands produces
    this table, since [cancel_job] raises before its write; it serves to
    evaluate the job handle on a CANCELLED snapshot. *)
Definition runner_cancelled : LocalRunner :=
  mkLocalRunner "/opt/qetl" 300
    [("J1", mkJobData "J1" "good.yaml" CANCELLED 0 3 (Some 0%Z)
                      "Job cancelled by user" [] None None)]
    4 [("J1", SUBMITTED, Some (Some 0%Z)); ("J1", CANCELLED, None)].

(** Five jobs submitted in the order J1 .. J5. *)
Definition runner5 : LocalRunner :=
  fold_left (fun r id => snd (submit_job env_ok "good.yaml" id [] r))
            ["J1"; "J2"; "J3"; "J4"; "J5"] runner0.

(** No other thread touches the runner. *)
Definition quiet : nat -> LocalRunner -> LocalRunner := fun _ r => r.

(** The handle that [get_job] returns for [J1] on a runner. *)
Definition handle (r : LocalRunner) : World :=
  match get_job "J1" r with
  | Ok j => mkWorld j r [] 0 0
  | Raise _ => mkWorld (Job_init "J1" None) r [] 0 0
  end.

End Scenario.

(** ** The specification's wording of some properties

    Definitions that follow the words of the specification, to be compared
    with the code. *)


(** The specification's [list(filterByState, limit)]: the jobs in insertion
    order, those in the given state only when a filter is given, and at
    most [limit] of them. *)
Definition job_of (item : string * JobData) : Job :=
  Job_init (fst item) (Some (status_of (fst item) (snd item))).

Definition status_filter (status : option string) (item : string * JobData)
  : bool :=
  match status with
  | None => true
  | Some s =>
      String.eqb s "" || String.eqb (JobState_value (jd_status (snd item))) s
  end.

Definition list_spec (status : option string) (limit : Z) (r : LocalRunner)
  : list Job :=
  firstn (Z.to_nat limit) (map job_of (filter (status_filter status) (jobs r))).

(** The number of calls made to a completion callback. *)
Definition is_completion_call (cb : Callback) (e : Event) : bool :=
  match e with
  | CompletionCall cb' _ => Nat.eqb cb cb'
  | StatusCall _ _ => false
  end.

Definition completion_calls (cb : Callback) (events : list Event) : nat :=
  List.length (filter (is_completion_call cb) events).

(** The exception that reading [is_terminal] on a [JobState] member raises. *)
Definition no_is_terminal : Exc.t :=
  Exc.builtin Exc.AttributeError "'JobState' object has no attribute 'is_terminal'".

(** ** local_runner.py: instance information *)

(** The dictionary [get_instance_info] returns. *)
Record InstanceInfo := mkInstanceInfo {
  ii_mode : string;
  ii_qetl_home : string;
  ii_python_version : string;
  ii_active_jobs : nat;
  ii_total_jobs : nat
}.

(** [[j for j in self.jobs.values() if not j["status"].is_terminal]]: the
    condition reads [is_terminal] on the stored [JobState] of each entry in
    turn. *)
Fixpoint active_jobs (items : list (string * JobData)) : result (list JobData) :=
  match items with
  | [] => Ok []
  | (_, j) :: rest =>
      match JobState_getattr (jd_status j) "is_terminal" with
      | Raise e => Raise e
      | Ok t =>
          match active_jobs rest with
          | Raise e => Raise e
          | Ok others => Ok (if truthy t then others else j :: others)
          end
      end
  end.

(** [LocalRunner.get_instance_info]; [python_version] is [sys.version]. *)
Definition get_instance_info (python_version : string) (r : LocalRunner)
  : result InstanceInfo :=
  match active_jobs (jobs r) with
  | Raise e => Raise e
  | Ok active =>
      Ok (mkInstanceInfo "local" (qetl_home r) python_version
                         (List.length active) (List.length (jobs r)))
  end.

(** ** client.py: the other operations of QETLClient in local mode *)

(** [QETLClient.validate_yaml] *)
Definition client_validate_yaml (env : Env) (yaml_file : string) : result Yaml :=
  if negb (path_exists env yaml_file) then
    Raise (Exc.builtin Exc.FileNotFoundError ("YAML file not found: " +++ yaml_file))
  else
    match validate_yaml env yaml_file with
    | Ok v => Ok v
    | Raise e =>
        Raise (Exc.ValidationError_ ("YAML validation failed: " +++ Exc.str e) [])
    end.

(** [QETLClient.get_job] *)
Definition client_get_job (id : string) (r : LocalRunner) : result Job :=
  match get_job id r with
  | Ok j => Ok j
  | Raise e =>
      Raise (Exc.QETLError_ ("Failed to get job " +++ id +++ ": " +++ Exc.str e))
  end.

(** [QETLClient.get_instance_info] *)
Definition client_get_instance_info (python_version : string) (r : LocalRunner)
  : result InstanceInfo :=
  match get_instance_info python_version r with
  | Ok i => Ok i
  | Raise e =>
      Raise (Exc.QETLError_ ("Failed to get instance info: " +++ Exc.str e))
  end.

(** ** The shapes of a run of the background thread *)

(** The three shapes of the status history of a run. *)
Definition writes_load_failure (id : string) : list StatusWrite :=
  [(id, VALIDATING, Some (Some 10%Z)); (id, FAILED, Some None)].

Definition writes_executor_failure (id : string) : list StatusWrite :=
  [(id, VALIDATING, Some (Some 10%Z)); (id, QUEUED, Some (Some 20%Z));
   (id, INITIALIZING, Some (Some 30%Z)); (id, RUNNING, Some (Some 40%Z));
   (id, FAILED, Some None)].

Definition writes_success (id : string) : list StatusWrite :=
  [(id, VALIDATING, Some (Some 10%Z)); (id, QUEUED, Some (Some 20%Z));
   (id, INITIALIZING, Some (Some 30%Z)); (id, RUNNING, Some (Some 40%Z));
   (id, COMPLETING, Some (Some 90%Z)); (id, COMPLETED, Some (Some 100%Z))].

Definition failed_record (jd jd2 : JobData) : Prop :=
  jd_status jd2 = FAILED /\
  jd_progress jd2 = None /\
  jd_results jd2 = jd_results jd /\
  exists err, jd_error jd2 = Some err /\ err_message err = jd_message jd2.

Definition completed_record (jd jd2 : JobData) : Prop :=
  jd_status jd2 = COMPLETED /\
  jd_progress jd2 = Some 100%Z /\
  jd_error jd2 = jd_error jd /\
  exists results, jd_results jd2 = Some results.


(** ** Vocabulary for the properties of validation and listing *)

(** The required fields that are not among the keys of a mapping, in the
    order of [required_fields]. *)
Definition missing_in (keys : list YamlItem) : list string :=
  filter (fun field => negb (existsb (item_is field) keys)) required_fields.

(** A document that is not a mapping, a sequence or a string. *)
Definition not_a_container (config : Yaml) : bool :=
  match config with
  | YNull | YBool _ | YNum _ => true
  | _ => false
  end.

(** ** job.py: waiting with a timeout *)

(** [TimeoutError(message)] of exceptions.py. *)
Definition TimeoutError_ (msg : string) : Exc.t :=
  Exc.mk Exc.TimeoutError msg (Some "TIMEOUT_ERROR") [].

(** Truthiness of the argument [timeout: Optional[int]]: [None] and [0]
    are falsy. *)
Definition timeout_set (timeout : option Z) : bool :=
  match timeout with
  | Some t => negb (t =? 0)%Z
  | None => false
  end.

(** [time.time()], read on the wall clock of the model. *)
Definition time_time : JM nat := backend_call datetime_now.

Section Waiting.

Variable others : nat -> LocalRunner -> LocalRunner.

(** The test [timeout and (time.time() - start_time) > timeout] and the
    [raise] under it. *)
Definition check_timeout (start_time : nat) (timeout : option Z) : JM unit :=
  match timeout with
  | Some t =>
      if negb (t =? 0)%Z then
        now <~ time_time ;;
        if (Z.of_nat now - Z.of_nat start_time >? t)%Z then
          self <~ get_self ;;
          jraise (TimeoutError_ ("Job " +++ job_id self +++ " timed out after "
                                 +++ Str.of_Z t +++ " seconds"))
        else jret tt
      else jret tt
  | None => jret tt
  end.

(** The loop of [Job.wait_until_complete] and the [return self.status]
    after it, unfolded [n] times. *)
Fixpoint wait_loop (n : nat) (start_time : nat) (timeout : option Z)
  : JM JobStatus :=
  match n with
  | O => jdiverge
  | S n' =>
      s <~ status others (S n') ;;
      if negb (is_terminal s) then
        check_timeout start_time timeout ~>>
        sleep others ~>>
        get_status others (S n') ~>>
        wait_loop n' start_time timeout
      else status others (S n')
  end.

(** [Job.wait_until_complete] *)
Definition wait_until_complete (n : nat) (timeout : option Z) : JM JobStatus :=
  start_time <~ time_time ;;
  wait_loop n start_time timeout.

End Waiting.

(** ** Vocabulary for the properties of the job handle *)

(** A relation between the world before and after an operation holds for
    every run of the operation. *)
Definition preserves {A} (P : World -> World -> Prop) (m : JM A) : Prop :=
  forall w o w', m w = (o, w') -> P w w'.

(** The handle after [self._results = results]. *)
Definition cache_results (results : JobResults) (w : World) : World :=
  set_job (mkJob (job_id (w_job w)) (_status (w_job w)) (Some results)
                 (_completion_callbacks (w_job w)) (_status_callbacks (w_job w))) w.

(** The world after a successful refresh of the snapshot, before any
    completion callback is called: the snapshot is cached, the poll is
    counted and each status callback has been called with the snapshot. *)
Definition refreshed (s : JobStatus) (w : World) : World :=
  mkWorld (mkJob (job_id (w_job w)) (Some s) (_results (w_job w))
                 (_completion_callbacks (w_job w)) (_status_callbacks (w_job w)))
          (w_backend w)
          (w_events w ++ map (fun cb => StatusCall cb s) (_status_callbacks (w_job w)))
          (w_sleeps w) (S (w_polls w)).

(** The world after the calls to the completion callbacks. *)
Definition completion_called (arg : option JobResults) (w : World) : World :=
  mkWorld (w_job w) (w_backend w)
          (w_events w ++ map (fun cb => CompletionCall cb arg)
                             (_completion_callbacks (w_job w)))
          (w_sleeps w) (w_polls w).

(** The handle is as it was, except perhaps for the cached results; the
    backend has not been asked for the status. *)
Definition handle_kept (w w' : World) : Prop :=
  job_id (w_job w') = job_id (w_job w) /\
  _status (w_job w') = _status (w_job w) /\
  _completion_callbacks (w_job w') = _completion_callbacks (w_job w) /\
  _status_callbacks (w_job w') = _status_callbacks (w_job w) /\
  w_polls w' = w_polls w.

(** The argument the completion callbacks receive when a refresh finds the
    job in the terminal snapshot [s]: the results of a COMPLETED job, from
    the handle's cache or else from the runner, and [None] when the job
    did not succeed or its results cannot be had. *)
Definition completion_arg (s : JobStatus) (w : World) : option JobResults :=
  if is_successful s then
    match _results (w_job w) with
    | Some results => Some results
    | None =>
        match get_job_results (job_id (w_job w)) (w_backend w) with
        | Ok results => Some results
        | Raise _ => None
        end
    end
  else None.

(** The calls a refresh makes: every status callback with the snapshot,
    then, for a terminal snapshot, every completion callback. *)
Definition refresh_calls (s : JobStatus) (w : World) : list Event :=
  map (fun cb => StatusCall cb s) (_status_callbacks (w_job w)) ++
  (if is_terminal s
   then map (fun cb => CompletionCall cb (completion_arg s w))
            (_completion_callbacks (w_job w))
   else []).

(** The runner's table and its write log are as they were. *)
Definition table_kept (w w' : World) : Prop :=
  jobs (w_backend w') = jobs (w_backend w) /\
  history (w_backend w') = history (w_backend w) /\
  qetl_home (w_backend w') = qetl_home (w_backend w) /\
  timeout (w_backend w') = timeout (w_backend w).

(** ** Vocabulary for the properties of the output parser *)

(** The dictionary [_parse_pipeline_outputs] falls back to. *)
Definition default_outputs (stdout : string) : dict string :=
  [("status", "completed"); ("message", "Pipeline execution completed");
   ("stdout", stdout)].

(** ** builder.py: JobBuilder *)

Module Builder.

(** A value of a configuration dictionary ([Dict[str, Any]]): a list, whose
    items are taken to be strings as the annotation [List[str]] of
    [dependencies] has it, or any other value, kept as its text. *)
Inductive CfgValue :=
| CText (text : string)
| CList (items : list string).

Definition Config : Type := dict CfgValue.

(** The dictionaries appended to [input_sources], [transformations] and
    [outputs]; an optional key is [None] when it is absent. *)
Record Source := mkSource {
  src_name : string;
  src_path : string;
  src_type : option string;
  src_config : option Config
}.

Record Transformation := mkTransformation {
  tr_component : string;
  tr_name : option string;
  tr_config : option Config;
  tr_dependencies : option (list string)
}.

Record Output := mkOutput {
  out_name : string;
  out_path : string;
  out_format : string;
  out_config : option Config
}.

(** [_execution_params] once [set_execution_params] has been called. *)
Record ExecutionParams := mkExecutionParams {
  ep_priority : Z;
  ep_timeout : Z;
  ep_notifications : option (list string)
}.

(** The list objects that builders refer to.  [_config.copy()] copies the
    dictionary but not the three lists in it, so two builders can hold the
    same list: a list is named by its address in the heap. *)
Record Heap := mkHeap {
  h_sources : list (list Source);
  h_transformations : list (list Transformation);
  h_outputs : list (list Output)
}.

Definition empty_heap : Heap := mkHeap [] [] [].

(** [JobBuilder]: the entries of [_config] (the three lists by address)
    and [_execution_params], [None] for the empty dictionary. *)
Record JobBuilder := mkJobBuilder {
  pipeline_name : string;
  version : string;
  description : option string;
  input_sources : nat;
  transformations : nat;
  outputs : nat;
  _execution_params : option ExecutionParams
}.

(** The list at an address, and [list.append] at an address. *)
Definition deref {A} (cells : list (list A)) (ref : nat) : list A :=
  nth ref cells [].

Fixpoint append_at {A} (cells : list (list A)) (ref : nat) (x : A)
  : list (list A) :=
  match cells, ref with
  | [], _ => []
  | l :: rest, O => (l ++ [x]) :: rest
  | l :: rest, S ref' => l :: append_at rest ref' x
  end.

(** [JobBuilder(client)]: three new empty lists. *)
Definition init (h : Heap) : Heap * JobBuilder :=
  (mkHeap (h_sources h ++ [[]]) (h_transformations h ++ [[]]) (h_outputs h ++ [[]]),
   mkJobBuilder "Programmatic Pipeline" "1.0" None
                (List.length (h_sources h)) (List.length (h_transformations h))
                (List.length (h_outputs h)) None).

Definition set_name (name : string) (b : JobBuilder) : JobBuilder :=
  mkJobBuilder name (version b) (description b) (input_sources b)
               (transformations b) (outputs b) (_execution_params b).

Definition set_version (v : string) (b : JobBuilder) : JobBuilder :=
  mkJobBuilder (pipeline_name b) v (description b) (input_sources b)
               (transformations b) (outputs b) (_execution_params b).

Definition set_description (d : string) (b : JobBuilder) : JobBuilder :=
  mkJobBuilder (pipeline_name b) (version b) (Some d) (input_sources b)
               (transformations b) (outputs b) (_execution_params b).

(** [if name:], [if config:], [if dependencies:] on optional arguments:
    the key is stored only for a value that is not [None] and not empty. *)
Definition nonempty_str (o : option string) : option string :=
  match o with
  | Some s => if String.eqb s "" then None else Some s
  | None => None
  end.

Definition nonempty_list {A} (o : option (list A)) : option (list A) :=
  match o with
  | Some (x :: l) => Some (x :: l)
  | _ => None
  end.

(** [add_input_source(name, path, source_type, config)] *)
Definition add_input_source (name path source_type : string)
  (config : option Config) (h : Heap) (b : JobBuilder) : Heap :=
  let source :=
    mkSource name path
             (if String.eqb source_type "auto" then None else Some source_type)
             (nonempty_list config) in
  mkHeap (append_at (h_sources h) (input_sources b) source)
         (h_transformations h) (h_outputs h).

(** [add_transformation(component, config, name, dependencies)] *)
Definition add_transformation (component : string) (config : option Config)
  (name : option string) (dependencies : option (list string))
  (h : Heap) (b : JobBuilder) : Heap :=
  let transformation :=
    mkTransformation component (nonempty_str name) (nonempty_list config)
                     (nonempty_list dependencies) in
  mkHeap (h_sources h)
         (append_at (h_transformations h) (transformations b) transformation)
         (h_outputs h).

(** [add_output(name, path, format, config)] *)
Definition add_output (name path format : string) (config : option Config)
  (h : Heap) (b : JobBuilder) : Heap :=
  let output := mkOutput name path format (nonempty_list config) in
  mkHeap (h_sources h) (h_transformations h)
         (append_at (h_outputs h) (outputs b) output).

(** [set_execution_params(priority, timeout, notifications)] *)
Definition set_execution_params (priority timeout : Z)
  (notifications : option (list string)) (b : JobBuilder) : JobBuilder :=
  mkJobBuilder (pipeline_name b) (version b) (description b) (input_sources b)
               (transformations b) (outputs b)
               (Some (mkExecutionParams priority timeout
                                        (nonempty_list notifications))).

(** [{first entries, **kwargs}] *)
Definition with_kwargs (first : Config) (kwargs : Config) : Config :=
  fold_left (fun d kv => dict_set (fst kv) (snd kv) d) kwargs first.

(** The convenience methods. *)
Definition add_quantum_homology_analyzer (dimensions : Z) (precision : string)
  (name : option string) (kwargs : Config) (h : Heap) (b : JobBuilder) : Heap :=
  add_transformation "quantum_homology_analyzer"
    (Some (with_kwargs [("dimensions", CText (Str.of_Z dimensions));
                        ("precision", CText precision)] kwargs))
    name None h b.

Definition add_williams_pebbler (optimization_level : Z) (name : option string)
  (kwargs : Config) (h : Heap) (b : JobBuilder) : Heap :=
  add_transformation "williams_pebbler"
    (Some (with_kwargs [("optimization_level", CText (Str.of_Z optimization_level))]
                       kwargs))
    name None h b.

Definition add_holographic_grover (search_iterations : Z) (name : option string)
  (dependencies : option (list string)) (kwargs : Config)
  (h : Heap) (b : JobBuilder) : Heap :=
  add_transformation "holographic_grover"
    (Some (with_kwargs [("search_iterations", CText (Str.of_Z search_iterations))]
                       kwargs))
    name dependencies h b.

Definition add_wave_encoder (encoding_type : string) (name : option string)
  (kwargs : Config) (h : Heap) (b : JobBuilder) : Heap :=
  add_transformation "wave_encoder"
    (Some (with_kwargs [("encoding_type", CText encoding_type)] kwargs))
    name None h b.

Definition add_wave_decoder (decoding_type : string) (name : option string)
  (kwargs : Config) (h : Heap) (b : JobBuilder) : Heap :=
  add_transformation "wave_decoder"
    (Some (with_kwargs [("decoding_type", CText decoding_type)] kwargs))
    name None h b.

(** [clone()]: a new builder whose [_config] is a shallow copy, so it
    refers to the same three lists. *)
Definition clone (b : JobBuilder) : JobBuilder :=
  mkJobBuilder (pipeline_name b) (version b) (description b) (input_sources b)
               (transformations b) (outputs b) (_execution_params b).

(** [get_config()]: the copy of [_config] with [execution] added; its three
    lists are the builder's own list objects, shown by their contents. *)
Record ConfigView := mkConfigView {
  cv_pipeline_name : string;
  cv_version : string;
  cv_description : option string;
  cv_input_sources : list Source;
  cv_transformations : list Transformation;
  cv_outputs : list Output;
  cv_execution : option ExecutionParams
}.

Definition get_config (h : Heap) (b : JobBuilder) : ConfigView :=
  mkConfigView (pipeline_name b) (version b) (description b)
               (deref (h_sources h) (input_sources b))
               (deref (h_transformations h) (transformations b))
               (deref (h_outputs h) (outputs b))
               (_execution_params b).

(** The names in [transformation_names]. *)
Fixpoint transformation_names (ts : list Transformation) : list string :=
  match ts with
  | [] => []
  | t :: rest =>
      match tr_name t with
      | Some n => n :: transformation_names rest
      | None => transformation_names rest
      end
  end.

Definition mem (x : string) (l : list string) : bool :=
  existsb (String.eqb x) l.

(** The errors of one list of dependencies. *)
Definition dependency_errors (names deps : list string) : list string :=
  map (fun dep => "Unknown dependency: " +++ dep)
      (filter (fun dep => negb (mem dep names)) deps).

(** [transform.get("config", {}).get("dependencies", [])], when it is a
    list. *)
Definition config_dependencies (t : Transformation) : list string :=
  match tr_config t with
  | Some config =>
      match dict_get "dependencies" config with
      | Some (CList deps) => deps
      | _ => []
      end
  | None => []
  end.

Definition own_dependencies (t : Transformation) : list string :=
  match tr_dependencies t with
  | Some deps => deps
  | None => []
  end.

(** The list [errors] that [validate] builds. *)
Definition validation_errors (h : Heap) (b : JobBuilder) : list string :=
  let ts := deref (h_transformations h) (transformations b) in
  let names := transformation_names ts in
  (if String.eqb (pipeline_name b) "" then ["Pipeline name is required"] else [])
  ++ (match deref (h_sources h) (input_sources b) with
      | [] => ["At least one input source is required"]
      | _ => []
      end)
  ++ (match ts with
      | [] => ["At least one transformation is required"]
      | _ => []
      end)
  ++ flat_map (fun t => dependency_errors names (own_dependencies t)
                        ++ dependency_errors names (config_dependencies t)) ts.

(** [validate()] *)
Definition validate (h : Heap) (b : JobBuilder) : result bool :=
  match validation_errors h b with
  | [] => Ok true
  | errors => Raise (Exc.ValidationError_ (Str.join "; " errors) [])
  end.

(** The text [yaml.dump] returns, represented by what [yaml.safe_load]
    makes of a file that holds it: a document, or a [yaml.YAMLError] with
    its text. *)
Inductive YamlText :=
| Loads (doc : Yaml)
| Refused (msg : string).

(** PyYAML is not modelled.  What
    [yaml.dump(config, default_flow_style=False, sort_keys=False)] does
    with a configuration is an input: it raises, or it returns a text,
    which [safe_load] may refuse (a value written under a Python tag, such
    as a tuple). *)
Definition Dumper : Type := ConfigView -> result YamlText.

(** The keys of the dictionary that [to_yaml] dumps, in order. *)
Definition config_keys (config : ConfigView) : list YamlItem :=
  [IStr "pipeline_name"; IStr "version"; IStr "input_sources";
   IStr "transformations"; IStr "outputs"]
  ++ (match cv_description config with
      | Some _ => [IStr "description"]
      | None => []
      end)
  ++ (match cv_execution config with
      | Some _ => [IStr "execution"]
      | None => []
      end).

(** [to_yaml()]: [config] is what [get_config] returns. *)
Definition to_yaml (dump : Dumper) (h : Heap) (b : JobBuilder)
  : result YamlText :=
  dump (get_config h b).

(** The dumped text of this builder's configuration is one that
    [safe_load] reads back as the mapping with the keys of the
    configuration, as it is when the values the builder holds are
    strings, numbers, booleans, [None], and lists and dictionaries of
    these. *)
Definition round_trips (dump : Dumper) (h : Heap) (b : JobBuilder) : Prop :=
  to_yaml dump h b = Ok (Loads (YMap (config_keys (get_config h b)))).

(** A dumper that writes every configuration so. *)
Definition plain_dumper : Dumper :=
  fun config => Ok (Loads (YMap (config_keys config))).

(** Writing a text to a file that can be written, and removing a file. *)
Definition write_file (path : string) (text : YamlText) (env : Env) : Env :=
  mkEnv (fun p =>
           if String.eqb p path then
             match text with
             | Loads doc => FileYaml doc
             | Refused msg => FileBadYaml msg
             end
           else read_yaml env p)
        (path_repr env) (sys_executable env) (subprocess_run env)
        (subprocess_elapsed env).

Definition unlink (path : string) (env : Env) : Env :=
  mkEnv (fun p => if String.eqb p path then FileMissing else read_yaml env p)
        (path_repr env) (sys_executable env) (subprocess_run env)
        (subprocess_elapsed env).

(** An empty file: [safe_load] returns [None]. *)
Definition empty_text : YamlText := Loads YNull.

(** [save_yaml(filepath)]: [open(filepath, 'w')] creates or empties the
    file, then [to_yaml()] is evaluated and its text written; when
    [to_yaml()] raises, the file stays empty. *)
Definition save_yaml (dump : Dumper) (filepath : string) (h : Heap)
  (b : JobBuilder) (env : Env) : result unit * Env :=
  match to_yaml dump h b with
  | Raise e => (Raise e, write_file filepath empty_text env)
  | Ok text => (Ok tt, write_file filepath text env)
  end.

(** [**self._execution_params], the values kept as text. *)
Definition submit_kwargs (b : JobBuilder) : dict string :=
  match _execution_params b with
  | None => []
  | Some p =>
      [("priority", Str.of_Z (ep_priority p)); ("timeout", Str.of_Z (ep_timeout p))]
      ++ (match ep_notifications p with
          | Some l => [("notifications", Str.join "," l)]
          | None => []
          end)
  end.

(** [submit()], with a client in local mode; [temp_path] is the name of
    the temporary file and [new_id] the id the runner draws.  The
    temporary file is created, [to_yaml()] is evaluated and its text
    written (when [to_yaml()] raises, the empty file is left behind); then
    the client is called, and the file is removed whether the client
    returned or raised. *)
Definition submit (dump : Dumper) (h : Heap) (b : JobBuilder)
  (temp_path new_id : string) (env : Env) (r : LocalRunner)
  : result Submitted * Env * LocalRunner :=
  match validate h b with
  | Raise e => (Raise e, env, r)
  | Ok _ =>
      match to_yaml dump h b with
      | Raise e => (Raise e, write_file temp_path empty_text env, r)
      | Ok text =>
          let env1 := write_file temp_path text env in
          let (res, r1) :=
            client_submit_job env1 temp_path new_id (submit_kwargs b) r in
          (res, unlink temp_path env1, r1)
      end
  end.

(** The builder's references are addresses of lists of the heap. *)
Definition well_formed (h : Heap) (b : JobBuilder) : Prop :=
  input_sources b < List.length (h_sources h) /\
  transformations b < List.length (h_transformations h) /\
  outputs b < List.length (h_outputs h).

(** A builder with one input source and one transformation. *)
Definition demo : JobBuilder := snd (init empty_heap).

Definition demo_heap : Heap :=
  add_transformation "wave_encoder" None (Some "enc") None
    (add_input_source "in" "/data.csv" "csv" None (fst (init empty_heap)) demo)
    demo.

End Builder.

(** ** cli.py: the commands on one job *)

Module Cli.

(** [--mode], which argparse restricts to [choices=["local", "cloud"]]. *)
Inductive Mode := mode_local | mode_cloud.

(** How a command ends: it returns an exit status, having printed lines on
    standard output and on standard error; an exception leaves it; or it
    is still waiting when the fuel of the model runs out. *)
Inductive Ended :=
| Returned (code : Z) (stdout stderr : list string)
| Uncaught (e : Exc.t)
| Waiting.

(** [AuthenticationError(message)] of exceptions.py. *)
Definition AuthenticationError_ (message : string) : Exc.t :=
  Exc.mk Exc.AuthenticationError message (Some "AUTH_ERROR") [].

(** [not api_key] for an [Optional[str]]. *)
Definition falsy (s : option string) : bool :=
  match s with
  | None => true
  | Some s => String.eqb s ""
  end.

(** What a command finds in the process it runs in and on the machine.
    The look-ups in the file system are inputs: [home] is the outcome of
    [Path(qetl_home) if qetl_home else self._find_qetl_home()] in
    [LocalRunner.__init__] (the directory, or what [_find_qetl_home]
    raises), [installation] the outcome of [_validate_installation].  The
    texts printed for a status and for results, and the outcome of
    [JobResults.save_to_file], are inputs as well. *)
Record Process := mkProcess {
  home : result string;
  installation : result unit;
  started : nat;
  threads : nat -> LocalRunner -> LocalRunner;
  fuel : nat;
  show_status : Job -> JobStatus -> bool -> list string;
  show_results : JobResults -> list string;
  save_to_file : string -> JobResults -> result unit
}.

(** [LocalRunner.__init__]: the job table of a new runner is empty. *)
Definition LocalRunner_init (p : Process) (timeout : Z) : result LocalRunner :=
  match home p with
  | Raise e => Raise e
  | Ok qetl_home =>
      match installation p with
      | Raise e => Raise e
      | Ok _ => Ok (mkLocalRunner qetl_home timeout [] (started p) [])
      end
  end.

(** [QETLClient(mode=args.mode, api_key=args.api_key,
    qetl_home=args.qetl_home)], the call every command starts with:
    [instance_id] keeps its default [None] and [timeout] its default 300.
    In cloud mode the constructor therefore ends at one of its two [raise]
    statements, and a client that is returned holds a [LocalRunner]. *)
Definition QETLClient_init (p : Process) (mode : Mode) (api_key : option string)
  : result LocalRunner :=
  match mode with
  | mode_local => LocalRunner_init p 300
  | mode_cloud =>
      if falsy api_key then
        Raise (AuthenticationError_ "API key is required for cloud mode")
      else
        Raise (AuthenticationError_ "Instance ID is required for cloud mode")
  end.

(** [except QETLError as e: print(f"Error: {e}", file=sys.stderr); return 1];
    any other exception leaves the command. *)
Definition except_QETLError (e : Exc.t) : Ended :=
  if Exc.isinstance e Exc.QETLError then
    Returned 1 [] ["Error: " +++ Exc.str e]
  else Uncaught e.

(** The handle [client.get_job] returned, with the runner of the client. *)
Definition handle_of (job : Job) (r : LocalRunner) : World :=
  mkWorld job r [] 0 0.

(** The end of a command whose body ran on a handle. *)
Definition ended (o : outcome Ended * World) : Ended :=
  match fst o with
  | Ret e => e
  | Exn e => except_QETLError e
  | Fuel => Waiting
  end.

(** [Job.is_complete] and [Job.is_successful] *)
Definition is_complete (p : Process) : JM bool :=
  s <~ status (threads p) (fuel p) ;; jret (is_terminal s).

Definition job_is_successful (p : Process) : JM bool :=
  s <~ status (threads p) (fuel p) ;; jret (is_successful s).

(** The frame the four commands share: [client] is the outcome of the
    first statement, the construction of the client; [client.get_job]
    follows, then the body of the command on the handle; [except
    QETLError] is around all of it. *)
Definition with_job (client : result LocalRunner) (job_id : string)
  (body : Job -> JM Ended) : Ended :=
  match client with
  | Raise e => except_QETLError e
  | Ok r =>
      match client_get_job job_id r with
      | Raise e => except_QETLError e
      | Ok job => ended (body job (handle_of job r))
      end
  end.

(** [cmd_status] *)
Definition cmd_status (p : Process) (client : result LocalRunner)
  (job_id : string) (json : bool) : Ended :=
  with_job client job_id
    (fun job =>
       s <~ status (threads p) (fuel p) ;;
       jret (Returned 0 (show_status p job s json) [])).

(** [cmd_results]; [output_file] is falsy when it is [None] or empty. *)
Definition cmd_results (p : Process) (client : result LocalRunner)
  (job_id : string) (output_file : option string) : Ended :=
  with_job client job_id
    (fun job =>
       complete <~ is_complete p ;;
       if negb complete then
         jret (Returned 1 [] ["Job " +++ job_id +++ " is not yet complete"])
       else
         successful <~ job_is_successful p ;;
         if negb successful then
           s <~ status (threads p) (fuel p) ;;
           jret (Returned 1 []
                   ["Job " +++ job_id +++ " failed: " +++ st_message s])
         else
           results <~ get_results (threads p) (fuel p) ;;
           match output_file with
           | Some f =>
               if String.eqb f "" then
                 jret (Returned 0 (show_results p results) [])
               else
                 match save_to_file p f results with
                 | Raise e => jraise e
                 | Ok _ => jret (Returned 0 ["Results saved to " +++ f] [])
                 end
           | None => jret (Returned 0 (show_results p results) [])
           end).

(** [cmd_cancel] *)
Definition cmd_cancel (client : result LocalRunner) (job_id : string) : Ended :=
  with_job client job_id
    (fun job =>
       cancelled <~ cancel ;;
       if cancelled then
         jret (Returned 0 ["Job " +++ job_id +++ " cancelled successfully"] [])
       else
         jret (Returned 1
                 ["Could not cancel job " +++ job_id
                  +++ " (may already be complete)"] [])).

(** [cmd_logs] *)
Definition cmd_logs (client : result LocalRunner)
  (job_id : string) (follow : bool) : Ended :=
  with_job client job_id
    (fun job =>
       logs <~ get_logs follow ;;
       jret (Returned 0 logs [])).

(** What the four commands print and return once [client.get_job] has
    failed to find the job. *)
Definition job_not_found (job_id : string) : Ended :=
  Returned 1 []
    ["Error: Failed to get job " +++ job_id +++ ": Job not found: " +++ job_id].

(** The command returned exit status 0. *)
Definition succeeded (e : Ended) : bool :=
  match e with
  | Returned code _ _ => (code =? 0)%Z
  | _ => false
  end.

End Cli.

(** * Properties *)

(** ** Dictionaries *)

Lemma dict_get_set_same {V} (k : string) (v : V) (d : dict V) :
  dict_get k (dict_set k v d) = Some v.
Proof.
  induction d as [|[k' v'] rest IH]; simpl.
  - now rewrite String.eqb_refl.
  - destruct (String.eqb k k') eqn:E; simpl.
    + now rewrite String.eqb_refl.
    + now rewrite E.
Qed.

Lemma dict_get_set_other {V} (k k' : string) (v : V) (d : dict V) :
  k <> k' -> dict_get k' (dict_set k v d) = dict_get k' d.
Proof.
  intros Hne. induction d as [|[k0 v0] rest IH]; simpl.
  - destruct (String.eqb k' k) eqn:E; [|reflexivity].
    apply String.eqb_eq in E. congruence.
  - destruct (String.eqb k k0) eqn:E; simpl.
    + apply String.eqb_eq in E. subst k0.
      destruct (String.eqb k' k) eqn:E'; [|reflexivity].
      apply String.eqb_eq in E'. congruence.
    + destruct (String.eqb k' k0); [reflexivity | exact IH].
Qed.

(** Assigning to a key that is present keeps the order of the keys. *)
Lemma dict_keys_set_present {V} (k : string) (v : V) (d : dict V) :
  dict_mem k d = true -> dict_keys (dict_set k v d) = dict_keys d.
Proof.
  unfold dict_mem, dict_keys.
  induction d as [|[k' v'] rest IH]; simpl; [discriminate|].
  destruct (String.eqb k k') eqn:E; simpl; intros H.
  - apply String.eqb_eq in E. now subst.
  - now rewrite IH.
Qed.

(** ** Status writes *)

(** What [_update_job_status] does to a job that is in the table: the
    entry takes the given state, progress and message, whatever state it
    was in. *)
Lemma update_present (id : string) (state : JobState) (progress : option Z)
  (message : string) (r : LocalRunner) (jd : JobData) :
  dict_get id (jobs r) = Some jd ->
  _update_job_status id state progress message r =
  (Ok tt,
   mkLocalRunner (qetl_home r) (timeout r)
     (dict_set id
        (mkJobData (jd_job_id jd) (jd_yaml_path jd) state (jd_created_at jd)
                   (clock r) progress message (jd_kwargs jd) (jd_results jd)
                   (jd_error jd))
        (jobs r))
     (S (clock r)) (history r ++ [(id, state, Some progress)])).
Proof.
  intros H. unfold _update_job_status. now rewrite H.
Qed.

Lemma update_absent (id : string) (state : JobState) (progress : option Z)
  (message : string) (r : LocalRunner) :
  dict_get id (jobs r) = None ->
  _update_job_status id state progress message r = (Ok tt, r).
Proof.
  intros H. unfold _update_job_status. now rewrite H.
Qed.

(** A successful validation has read a document. *)
Lemma validate_ok_read (env : Env) (yaml_path : string) (config : Yaml) :
  validate_yaml env yaml_path = Ok config ->
  read_yaml env yaml_path = FileYaml config.
Proof.
  unfold validate_yaml.
  destruct (read_yaml env yaml_path) as [|c msg|msg|config0]; try discriminate.
  - cbv zeta. destruct (Exc.isinstance _ Exc.YAMLError); [discriminate|].
    destruct (Exc.isinstance _ Exc.FileNotFoundError); discriminate.
  - destruct (missing_fields required_fields config0) as [[|]|];
      try discriminate.
    now intros [= ->].
Qed.

Lemma dict_set_set {V} (k : string) (v v' : V) (d : dict V) :
  dict_set k v (dict_set k v' d) = dict_set k v d.
Proof.
  induction d as [|[k0 v0] rest IH]; simpl.
  - now rewrite String.eqb_refl.
  - destruct (String.eqb k k0) eqn:E; simpl.
    + now rewrite String.eqb_refl.
    + now rewrite E, IH.
Qed.

(** ** The background thread *)

(** Evaluation of a run of the thread on a symbolic table: the string
    functions stay folded, repeated assignments to one key collapse. *)
Ltac run_step :=
  cbn -[_parse_pipeline_outputs Str.split_char Str.join Str.of_Z String.append
        String.eqb Nat.sub Nat.add dict_set dict_get Exc.str];
  rewrite ?dict_get_set_same, ?dict_set_set.

Ltac run_thread :=
  unfold _execute_job, try_except, execute_job_try, execute_job_except,
    set_error, lift, load_yaml, _update_job_status, set_results, jobs_getitem,
    bind, datetime_now, _run_yaml_pipeline, run_pipeline_try, with_jobs,
    with_clock, record_write, pipeline_cmd in *.

(** A run of [_execute_job] whose YAML file loads and whose executor exits
    with status 0, from any entry of the table, in whatever state it is. *)
Lemma execute_job_success (env : Env) (r : LocalRunner) (id : string)
  (jd : JobData) (config : Yaml) (stdout stderr : string) :
  dict_get id (jobs r) = Some jd ->
  read_yaml env (jd_yaml_path jd) = FileYaml config ->
  subprocess_run env (pipeline_cmd env r (jd_yaml_path jd) id) =
    ProcDone 0 stdout stderr ->
  exists r2 jd2 results,
    _execute_job env id r = (Ok tt, r2) /\
    history r2 =
      history r ++
      [(id, VALIDATING, Some (Some 10%Z)); (id, QUEUED, Some (Some 20%Z));
       (id, INITIALIZING, Some (Some 30%Z)); (id, RUNNING, Some (Some 40%Z));
       (id, COMPLETING, Some (Some 90%Z)); (id, COMPLETED, Some (Some 100%Z))] /\
    dict_get id (jobs r2) = Some jd2 /\
    jd_status jd2 = COMPLETED /\
    jd_progress jd2 = Some 100%Z /\
    jd_results jd2 = Some results /\
    jd_error jd2 = jd_error jd /\
    res_job_id results = id /\
    res_outputs results = _parse_pipeline_outputs stdout.
Proof.
  intros Hj Hr Hp. run_thread.
  rewrite Hj. run_step. rewrite Hj, Hr. repeat run_step.
  rewrite Hp. repeat run_step.
  do 3 eexists. split; [reflexivity|].
  cbn [history jobs]. rewrite dict_get_set_same, <- !app_assoc.
  repeat split; reflexivity.
Qed.

(** ** The thread, statement by statement *)

Ltac step_thread :=
  unfold thread_step, in_try, in_except, ret; run_thread.

(** Run to its end, statement by statement, the thread does what
    [_execute_job] does: the two descriptions of the thread agree. *)
Lemma thread_run_execute_job (env : Env) (id : string) (r : LocalRunner) :
  thread_run env id 12 at_job_data r =
  (match fst (_execute_job env id r) with
   | Ok _ => finished
   | Raise e => died e
   end,
   snd (_execute_job env id r)).
Proof.
  unfold thread_run. step_thread.
  destruct (dict_get id (jobs r)) as [jd|] eqn:Hj.
  - run_step. rewrite Hj. run_step.
    destruct (read_yaml env (jd_yaml_path jd)) as [|c msg|msg|config];
      repeat run_step; try reflexivity.
    destruct (subprocess_run env _) as [|e|rc so se]; repeat run_step;
      try reflexivity.
    + destruct (Exc.isinstance e Exc.TimeoutExpired); repeat run_step;
        reflexivity.
    + destruct (rc =? 0)%Z; repeat run_step; reflexivity.
  - run_step. rewrite Hj. run_step. rewrite Hj. reflexivity.
Qed.

(** ** What one statement of a thread does to the table *)

Ltac case_outcomes :=
  repeat match goal with
  | |- context [match read_yaml ?e ?p with _ => _ end] =>
      destruct (read_yaml e p)
  | |- context [match subprocess_run ?e ?c with _ => _ end] =>
      destruct (subprocess_run e c)
  | |- context [if Exc.isinstance ?e Exc.TimeoutExpired then _ else _] =>
      destruct (Exc.isinstance e Exc.TimeoutExpired)
  | |- context [(?rc =? 0)%Z] => destruct (rc =? 0)%Z; cbn [negb]
  end.

(** The statements of the thread of a job leave the other jobs alone. *)
Lemma thread_step_other (env : Env) (id id' : string) (pc : Pc) (r : LocalRunner) :
  id' <> id ->
  dict_get id' (jobs (snd (thread_step env id pc r))) = dict_get id' (jobs r).
Proof.
  intros Hne.
  assert (Hset : forall jd, dict_get id' (dict_set id jd (jobs r)) = dict_get id' (jobs r))
    by (intros; apply dict_get_set_other; congruence).
  destruct pc; step_thread; case_outcomes; try reflexivity;
    destruct (dict_get id (jobs r)) as [jd|]; cbn [fst snd jobs];
    try reflexivity; apply Hset.
Qed.

(** They create no entry. *)
Lemma thread_step_absent (env : Env) (id : string) (pc : Pc) (r : LocalRunner) :
  dict_get id (jobs r) = None ->
  dict_get id (jobs (snd (thread_step env id pc r))) = None.
Proof.
  intros Hj.
  destruct pc; step_thread; case_outcomes; rewrite ?Hj; cbn [fst snd jobs];
    exact Hj.
Qed.

(** On the entry of its own job: a thread with no status write ahead
    keeps the state; a state written by any statement is not CANCELLED;
    and a statement that makes the state terminal leaves the thread with
    no status write ahead. *)
Lemma thread_step_own (env : Env) (id : string) (pc : Pc) (r : LocalRunner)
  (jd : JobData) :
  dict_get id (jobs r) = Some jd ->
  exists jd',
    dict_get id (jobs (snd (thread_step env id pc r))) = Some jd' /\
    (quiet_pc pc = true ->
     jd_status jd' = jd_status jd /\
     quiet_pc (fst (thread_step env id pc r)) = true) /\
    (JobState_eqb (jd_status jd) CANCELLED = false ->
     JobState_eqb (jd_status jd') CANCELLED = false) /\
    (terminal (jd_status jd) = false ->
     terminal (jd_status jd') = true ->
     quiet_pc (fst (thread_step env id pc r)) = true).
Proof.
  intros Hj.
  destruct pc; step_thread; case_outcomes; rewrite ?Hj; cbn [fst snd jobs];
    rewrite ?dict_get_set_same;
    (eexists; split; [first [reflexivity | exact Hj]|]; cbn;
     repeat split; intros; try reflexivity; try assumption; congruence).
Qed.

(** ** The table during a successful run *)

Lemma stored_entry (id : string) (r : LocalRunner) (jd : JobData) :
  dict_get id (jobs r) = Some jd ->
  stored id r = Some (jd_status jd, jd_progress jd, has_results jd).
Proof. intros H. unfold stored. now rewrite H. Qed.

(** A statement that leaves the table as it is. *)
Lemma trace_keep (env : Env) (id : string) (n : nat) (pc next : Pc)
  (r r' : LocalRunner) (jd : JobData) (o : JobState * option Z * bool)
  (rest : list (option (JobState * option Z * bool))) :
  thread_step env id pc r = (next, r') ->
  jobs r' = jobs r ->
  dict_get id (jobs r) = Some jd ->
  (jd_status jd, jd_progress jd, has_results jd) = o ->
  map (stored id) (thread_trace env id n next r') = rest ->
  map (stored id) (thread_trace env id (S n) pc r) = Some o :: rest.
Proof.
  intros Hs Hj Hg Ho Hr. cbn [thread_trace]. rewrite Hs. cbn [map].
  rewrite Hr, <- Ho. f_equal. apply stored_entry. now rewrite Hj.
Qed.

(** A status write, followed by the rest of the run on whatever runner it
    leaves. *)
Lemma trace_update (env : Env) (id : string) (n : nat) (pc next : Pc)
  (state : JobState) (progress : option Z) (message : string)
  (r : LocalRunner) (jd : JobData) (b : bool)
  (rest : list (option (JobState * option Z * bool))) :
  thread_step env id pc r =
    in_try (_update_job_status id state progress message ;;; ret next) r ->
  dict_get id (jobs r) = Some jd ->
  has_results jd = b ->
  (forall r' jd',
     dict_get id (jobs r') = Some jd' ->
     jd_status jd' = state -> jd_progress jd' = progress ->
     has_results jd' = b ->
     qetl_home r' = qetl_home r ->
     map (stored id) (thread_trace env id n next r') = rest) ->
  map (stored id) (thread_trace env id (S n) pc r) =
  Some (state, progress, b) :: rest.
Proof.
  intros Hs Hg Hb Hrest. cbn [thread_trace]. rewrite Hs.
  unfold in_try, bind, ret. rewrite (update_present _ _ _ _ _ _ Hg).
  cbn [map]. f_equal.
  - unfold stored. cbn [jobs]. rewrite dict_get_set_same.
    cbn [jd_status jd_progress jd_results]. now rewrite <- Hb.
  - eapply Hrest;
      [cbn [jobs]; apply dict_get_set_same | reflexivity | reflexivity
       | exact Hb | reflexivity].
Qed.

(** The entries the table holds for a job while its thread runs to
    COMPLETED, after each statement of the thread. *)
Lemma success_trace (env : Env) (r : LocalRunner) (id : string) (jd : JobData)
  (config : Yaml) (stdout stderr : string) :
  dict_get id (jobs r) = Some jd ->
  jd_results jd = None ->
  read_yaml env (jd_yaml_path jd) = FileYaml config ->
  subprocess_run env (pipeline_cmd env r (jd_yaml_path jd) id) =
    ProcDone 0 stdout stderr ->
  map (stored id) (thread_trace env id 12 at_job_data r) =
  [Some (jd_status jd, jd_progress jd, false);
   Some (VALIDATING, Some 10%Z, false);
   Some (VALIDATING, Some 10%Z, false);
   Some (QUEUED, Some 20%Z, false);
   Some (INITIALIZING, Some 30%Z, false);
   Some (RUNNING, Some 40%Z, false);
   Some (RUNNING, Some 40%Z, false);
   Some (RUNNING, Some 40%Z, false);
   Some (RUNNING, Some 40%Z, false);
   Some (COMPLETING, Some 90%Z, false);
   Some (COMPLETING, Some 90%Z, true);
   Some (COMPLETED, Some 100%Z, true)].
Proof.
  intros Hj Hres Hr Hp.
  assert (Hno : has_results jd = false) by (unfold has_results; now rewrite Hres).
  (* job_data = self.jobs[job_id].copy() *)
  eapply trace_keep; [| reflexivity | exact Hj | now rewrite Hno |].
  { cbn [thread_step]. unfold in_try, bind, ret, jobs_getitem. now rewrite Hj. }
  (* VALIDATING *)
  eapply trace_update; [reflexivity | exact Hj | exact Hno |].
  intros r1 jd1 Hj1 Hs1 Hp1 Hno1 Hq1.
  (* open and load *)
  eapply trace_keep; [| reflexivity | exact Hj1 | now rewrite Hs1, Hp1, Hno1 |].
  { cbn [thread_step]. unfold in_try, bind, ret, lift, load_yaml.
    now rewrite Hr. }
  (* QUEUED, INITIALIZING, RUNNING *)
  eapply trace_update; [reflexivity | exact Hj1 | exact Hno1 |].
  intros r2 jd2 Hj2 Hs2 Hp2 Hno2 Hq2.
  eapply trace_update; [reflexivity | exact Hj2 | exact Hno2 |].
  intros r3 jd3 Hj3 Hs3 Hp3 Hno3 Hq3.
  eapply trace_update; [reflexivity | exact Hj3 | exact Hno3 |].
  intros r4 jd4 Hj4 Hs4 Hp4 Hno4 Hq4.
  (* start_time = time.time() *)
  eapply trace_keep;
    [reflexivity | reflexivity | exact Hj4 | now rewrite Hs4, Hp4, Hno4 |].
  (* the executor *)
  eapply trace_keep; [| | exact Hj4 | now rewrite Hs4, Hp4, Hno4 |].
  { cbn [thread_step].
    unfold in_try, bind, ret, _run_yaml_pipeline, run_pipeline_try, with_clock.
    cbn [qetl_home timeout jobs clock history].
    replace (pipeline_cmd env
               (mkLocalRunner (qetl_home r4) (timeout r4) (jobs r4)
                              (S (clock r4)) (history r4))
               (jd_yaml_path jd) id)
      with (pipeline_cmd env r (jd_yaml_path jd) id)
      by (unfold pipeline_cmd; cbn [qetl_home]; now rewrite Hq4, Hq3, Hq2, Hq1).
    rewrite Hp. cbn [Z.eqb negb]. reflexivity. }
  { reflexivity. }
  (* end time *)
  eapply trace_keep;
    [reflexivity | reflexivity | exact Hj4 | now rewrite Hs4, Hp4, Hno4 |].
  (* COMPLETING *)
  eapply trace_update; [reflexivity | exact Hj4 | exact Hno4 |].
  intros r5 jd5 Hj5 Hs5 Hp5 Hno5 Hq5.
  (* results *)
  cbn [thread_trace thread_step].
  unfold set_results, jobs_getitem, in_try, bind, ret, with_jobs.
  rewrite Hj5. cbn [map]. f_equal.
  { unfold stored. cbn [jobs]. rewrite dict_get_set_same.
    cbn [jd_status jd_progress jd_results]. now rewrite Hs5, Hp5. }
  (* COMPLETED *)
  cbn [thread_trace thread_step].
  unfold in_try, bind, ret, _update_job_status. cbn [jobs].
  rewrite dict_get_set_same. cbn [map]. f_equal.
  unfold stored, record_write, with_clock, with_jobs. cbn [jobs].
  now rewrite dict_get_set_same.
Qed.

(** C3. A job that is submitted from a valid file and whose executor
    succeeds is stored as SUBMITTED (progress 0); then, statement by
    statement of its thread, the table holds for it VALIDATING (10),
    QUEUED (20), INITIALIZING (30), RUNNING (40), COMPLETING (90) and
    COMPLETED (100), in that order and nothing else; its results are
    absent up to the COMPLETING write and present in the COMPLETED entry.
    The log of status writes shows the same seven writes and no other. *)
Theorem successful_job_sequence (env : Env) (r : LocalRunner)
  (yaml_path id : string) (kwargs : dict string) (config : Yaml)
  (stdout stderr : string) :
  validate_yaml env yaml_path = Ok config ->
  subprocess_run env (pipeline_cmd env r yaml_path id) = ProcDone 0 stdout stderr ->
  exists sub r1 r2 jd2 results,
    submit_job env yaml_path id kwargs r = (Ok sub, r1) /\
    sub_thread sub = id /\
    map (stored id) (r1 :: thread_trace env id 12 at_job_data r1) =
      [Some (SUBMITTED, Some 0%Z, false);
       Some (SUBMITTED, Some 0%Z, false);
       Some (VALIDATING, Some 10%Z, false);
       Some (VALIDATING, Some 10%Z, false);
       Some (QUEUED, Some 20%Z, false);
       Some (INITIALIZING, Some 30%Z, false);
       Some (RUNNING, Some 40%Z, false);
       Some (RUNNING, Some 40%Z, false);
       Some (RUNNING, Some 40%Z, false);
       Some (RUNNING, Some 40%Z, false);
       Some (COMPLETING, Some 90%Z, false);
       Some (COMPLETING, Some 90%Z, true);
       Some (COMPLETED, Some 100%Z, true)] /\
    thread_run env id 12 at_job_data r1 = (finished, r2) /\
    _execute_job env id r1 = (Ok tt, r2) /\
    history r2 =
      history r ++
      [(id, SUBMITTED, Some (Some 0%Z)); (id, VALIDATING, Some (Some 10%Z));
       (id, QUEUED, Some (Some 20%Z)); (id, INITIALIZING, Some (Some 30%Z));
       (id, RUNNING, Some (Some 40%Z)); (id, COMPLETING, Some (Some 90%Z));
       (id, COMPLETED, Some (Some 100%Z))] /\
    dict_get id (jobs r2) = Some jd2 /\
    jd_status jd2 = COMPLETED /\
    jd_progress jd2 = Some 100%Z /\
    jd_results jd2 = Some results /\
    get_job_results id r2 = Ok results /\
    res_job_id results = id /\
    res_outputs results = _parse_pipeline_outputs stdout.
Proof.
  intros Hv Hp.
  pose proof (validate_ok_read _ _ _ Hv) as Hr.
  set (jd1 := mkJobData id yaml_path SUBMITTED (clock r) (S (clock r))
                        (Some 0%Z) "Job submitted" kwargs None None).
  set (r1 := mkLocalRunner (qetl_home r) (timeout r) (dict_set id jd1 (jobs r))
                           (S (S (S (clock r))))
                           (history r ++ [(id, SUBMITTED, Some (Some 0%Z))])).
  assert (Hsub : submit_job env yaml_path id kwargs r =
                 (Ok (mkSubmitted
                        (Job_init id
                           (Some (mkJobStatus id SUBMITTED (Some 0%Z)
                                    "Job submitted" (clock r) (S (S (clock r))))))
                        id), r1)).
  { unfold submit_job. rewrite Hv. reflexivity. }
  assert (Hj1 : dict_get id (jobs r1) = Some jd1)
    by (cbn [jobs r1]; apply dict_get_set_same).
  assert (Hp1 : subprocess_run env (pipeline_cmd env r1 (jd_yaml_path jd1) id) =
                ProcDone 0 stdout stderr) by exact Hp.
  destruct (execute_job_success env r1 id jd1 config stdout stderr Hj1 Hr Hp1)
    as (r2 & jd2 & results & Hrun & Hhist & Hget & Hst & Hpr & Hres & _ & Hid & Hout).
  eexists. exists r1, r2, jd2, results.
  split; [exact Hsub|]. split; [reflexivity|].
  split.
  { cbn [map]. f_equal.
    - unfold stored. now rewrite Hj1.
    - exact (success_trace env r1 id jd1 config stdout stderr Hj1 eq_refl Hr Hp1). }
  split.
  { rewrite thread_run_execute_job, Hrun. reflexivity. }
  split; [exact Hrun|].
  split. { rewrite Hhist. cbn [history r1]. now rewrite <- app_assoc. }
  repeat (split; [assumption|]).
  split. { unfold get_job_results. now rewrite Hget, Hres. }
  split; assumption.
Qed.

Lemma successful_job_sequence_witness :
  validate_yaml Scenario.env_ok "good.yaml" = Ok Scenario.good_config /\
  subprocess_run Scenario.env_ok
    (pipeline_cmd Scenario.env_ok Scenario.runner0 "good.yaml" "J1") =
    ProcDone 0 "Processing complete" "" /\
  exists sub r1 r2 jd2 results,
    submit_job Scenario.env_ok "good.yaml" "J1" [] Scenario.runner0 = (Ok sub, r1) /\
    sub_thread sub = "J1" /\
    map (stored "J1") (r1 :: thread_trace Scenario.env_ok "J1" 12 at_job_data r1) =
      [Some (SUBMITTED, Some 0%Z, false);
       Some (SUBMITTED, Some 0%Z, false);
       Some (VALIDATING, Some 10%Z, false);
       Some (VALIDATING, Some 10%Z, false);
       Some (QUEUED, Some 20%Z, false);
       Some (INITIALIZING, Some 30%Z, false);
       Some (RUNNING, Some 40%Z, false);
       Some (RUNNING, Some 40%Z, false);
       Some (RUNNING, Some 40%Z, false);
       Some (RUNNING, Some 40%Z, false);
       Some (COMPLETING, Some 90%Z, false);
       Some (COMPLETING, Some 90%Z, true);
       Some (COMPLETED, Some 100%Z, true)] /\
    thread_run Scenario.env_ok "J1" 12 at_job_data r1 = (finished, r2) /\
    _execute_job Scenario.env_ok "J1" r1 = (Ok tt, r2) /\
    history r2 =
      history Scenario.runner0 ++
      [("J1", SUBMITTED, Some (Some 0%Z)); ("J1", VALIDATING, Some (Some 10%Z));
       ("J1", QUEUED, Some (Some 20%Z)); ("J1", INITIALIZING, Some (Some 30%Z));
       ("J1", RUNNING, Some (Some 40%Z)); ("J1", COMPLETING, Some (Some 90%Z));
       ("J1", COMPLETED, Some (Some 100%Z))] /\
    dict_get "J1" (jobs r2) = Some jd2 /\
    jd_status jd2 = COMPLETED /\
    jd_progress jd2 = Some 100%Z /\
    jd_results jd2 = Some results /\
    get_job_results "J1" r2 = Ok results /\
    res_job_id results = "J1" /\
    res_outputs results = _parse_pipeline_outputs "Processing complete".
Proof.
  split; [reflexivity|]. split; [reflexivity|].
  apply (successful_job_sequence Scenario.env_ok Scenario.runner0 "good.yaml" "J1"
           [] Scenario.good_config "Processing complete" ""); reflexivity.
Defined.

(** [_update_job_status] has no guard on the state it replaces: the entry
    takes the new state also when the old one is terminal. *)
Lemma status_write_unguarded (id : string) (state : JobState)
  (progress : option Z) (message : string) (r : LocalRunner) (jd : JobData) :
  dict_get id (jobs r) = Some jd ->
  terminal (jd_status jd) = true ->
  option_map jd_status
    (dict_get id (jobs (snd (_update_job_status id state progress message r)))) =
  Some state.
Proof.
  intros Hj _. rewrite (update_present _ _ _ _ _ _ Hj). cbn.
  now rewrite dict_get_set_same.
Qed.

(** ** Calls on the runner *)

(** As the code stands, [cancel_job] never writes: it returns [False] for
    an unknown id and raises on the first attribute read for a known one. *)
Lemma cancel_job_writes_nothing (id : string) (r : LocalRunner) :
  snd (cancel_job id r) = r.
Proof.
  unfold cancel_job. destruct (dict_get id (jobs r)); reflexivity.
Qed.

(** [submit_job] either raises and leaves the table as it is, or adds one
    SUBMITTED entry under the new id and starts its thread. *)
Lemma submit_job_table (env : Env) (yaml_path new_id : string)
  (kwargs : dict string) (r : LocalRunner) :
  (exists e r', submit_job env yaml_path new_id kwargs r = (Raise e, r') /\
                jobs r' = jobs r) \/
  (exists sub r' jd,
     submit_job env yaml_path new_id kwargs r = (Ok sub, r') /\
     sub_thread sub = new_id /\
     jobs r' = dict_set new_id jd (jobs r) /\
     jd_status jd = SUBMITTED).
Proof.
  unfold submit_job.
  destruct (validate_yaml env yaml_path) as [config|e].
  - right. unfold bind, datetime_now, ret, with_jobs, with_clock, record_write.
    cbn. do 3 eexists. repeat split.
  - left. exists e, r. split; reflexivity.
Qed.

(** ** Terminal states in the runner with its threads *)

(** No entry is CANCELLED, and the thread of a job whose entry is terminal
    has no status write ahead of it. *)
Definition settled (s : System) : Prop :=
  forall id jd,
    dict_get id (jobs (sys_runner s)) = Some jd ->
    JobState_eqb (jd_status jd) CANCELLED = false /\
    (terminal (jd_status jd) = true ->
     forall pc, dict_get id (sys_threads s) = Some pc -> quiet_pc pc = true).

Lemma settled_initially (r : LocalRunner) :
  jobs r = [] -> settled (mkSystem r []).
Proof. intros H id jd. cbn. rewrite H. discriminate. Qed.

Lemma dict_mem_false {V} (k : string) (d : dict V) :
  dict_mem k d = false -> dict_get k d = None.
Proof. unfold dict_mem. now destruct (dict_get k d). Qed.

Lemma settled_do_op (op : Op) (s : System) :
  settled s -> settled (do_op op s).
Proof.
  intros Hs. destruct op as [env yaml_path new_id kwargs|env id0|id0].
  - cbn [do_op].
    destruct (dict_mem new_id (jobs (sys_runner s))) eqn:Hm; [exact Hs|].
    apply dict_mem_false in Hm.
    destruct (submit_job_table env yaml_path new_id kwargs (sys_runner s))
      as [(e & r' & Hsub & Hjobs)|(sub & r' & jd0 & Hsub & Hth & Hjobs & Hst)];
      rewrite Hsub.
    + intros id jd. cbn. rewrite Hjobs. apply Hs.
    + intros id jd. cbn. rewrite Hjobs, Hth.
      destruct (String.eqb_spec new_id id) as [->|Hne].
      * rewrite dict_get_set_same. intros [= <-]. rewrite Hst.
        split; [reflexivity|discriminate].
      * rewrite !dict_get_set_other by exact Hne. apply Hs.
  - cbn [do_op].
    destruct (dict_get id0 (sys_threads s)) as [pc0|] eqn:Hth; [|exact Hs].
    destruct (thread_step env id0 pc0 (sys_runner s)) as [pc' r'] eqn:Hstep.
    assert (Hr' : r' = snd (thread_step env id0 pc0 (sys_runner s)))
      by now rewrite Hstep.
    assert (Hpc' : pc' = fst (thread_step env id0 pc0 (sys_runner s)))
      by now rewrite Hstep.
    intros id jd'. cbn.
    destruct (String.eqb_spec id0 id) as [->|Hne].
    + rewrite dict_get_set_same.
      destruct (dict_get id (jobs (sys_runner s))) as [jd|] eqn:Hj.
      * destruct (thread_step_own env id pc0 (sys_runner s) jd Hj)
          as (jd2 & Hget & Hquiet & Hcan & Hterm).
        rewrite Hr', Hget. intros [= <-].
        destruct (Hs id jd Hj) as [Hc Hq].
        split; [now apply Hcan|].
        intros Ht pc [= <-]. rewrite Hpc'.
        destruct (quiet_pc pc0) eqn:Hq0.
        -- now apply Hquiet.
        -- apply Hterm; [|exact Ht].
           destruct (terminal (jd_status jd)) eqn:Htj; [|reflexivity].
           rewrite (Hq eq_refl pc0 Hth) in Hq0. discriminate.
      * rewrite Hr', (thread_step_absent env id pc0 (sys_runner s) Hj).
        discriminate.
    + rewrite Hr', thread_step_other by congruence.
      rewrite dict_get_set_other by exact Hne. apply Hs.
  - cbn [do_op]. rewrite cancel_job_writes_nothing. destruct s. exact Hs.
Qed.

Lemma settled_run_ops (ops : list Op) (s : System) :
  settled s -> settled (run_ops ops s).
Proof.
  revert s. induction ops as [|op ops IH]; intros s Hs; [exact Hs|].
  cbn. apply IH. now apply settled_do_op.
Qed.

(** One operation on a system leaves the state of a terminal entry as it
    is. *)
Lemma terminal_kept_do_op (op : Op) (s : System) (id : string) (jd : JobData) :
  settled s ->
  dict_get id (jobs (sys_runner s)) = Some jd ->
  terminal (jd_status jd) = true ->
  exists jd',
    dict_get id (jobs (sys_runner (do_op op s))) = Some jd' /\
    jd_status jd' = jd_status jd.
Proof.
  intros Hs Hj Ht. destruct op as [env yaml_path new_id kwargs|env id0|id0].
  - cbn [do_op].
    destruct (dict_mem new_id (jobs (sys_runner s))) eqn:Hm;
      [exists jd; now split|].
    apply dict_mem_false in Hm.
    assert (Hne : new_id <> id) by (intros ->; congruence).
    destruct (submit_job_table env yaml_path new_id kwargs (sys_runner s))
      as [(e & r' & Hsub & Hjobs)|(sub & r' & jd0 & Hsub & Hth & Hjobs & Hst)];
      rewrite Hsub; cbn; rewrite Hjobs.
    + exists jd; now split.
    + rewrite dict_get_set_other by exact Hne. exists jd; now split.
  - cbn [do_op].
    destruct (dict_get id0 (sys_threads s)) as [pc0|] eqn:Hth;
      [|exists jd; now split].
    destruct (thread_step env id0 pc0 (sys_runner s)) as [pc' r'] eqn:Hstep.
    assert (Hr' : r' = snd (thread_step env id0 pc0 (sys_runner s)))
      by now rewrite Hstep.
    cbn. rewrite Hr'.
    destruct (String.eqb_spec id0 id) as [->|Hne].
    + destruct (thread_step_own env id pc0 (sys_runner s) jd Hj)
        as (jd2 & Hget & Hquiet & _).
      exists jd2. split; [exact Hget|].
      destruct (Hs id jd Hj) as [_ Hq].
      now apply Hquiet, (Hq Ht).
    + rewrite thread_step_other by congruence. exists jd; now split.
  - cbn [do_op]. rewrite cancel_job_writes_nothing. exists jd; now split.
Qed.

(** C1. Take a runner from its construction, where the table is empty,
    through any sequence of submissions, cancellation requests and
    statements of the background threads, in any interleaving.  Whenever
    the entry of a job is in a terminal state, it is in that same state
    after any further such sequence.  The state is COMPLETED or FAILED:
    no entry is ever CANCELLED, because [cancel_job] never reaches its
    write. *)
Theorem terminal_states_absorbing (r0 : LocalRunner) (before after : list Op)
  (id : string) (jd : JobData) :
  jobs r0 = [] ->
  dict_get id (jobs (sys_runner (run_ops before (mkSystem r0 [])))) = Some jd ->
  terminal (jd_status jd) = true ->
  exists jd',
    dict_get id
      (jobs (sys_runner (run_ops after (run_ops before (mkSystem r0 [])))))
      = Some jd' /\
    jd_status jd' = jd_status jd /\
    JobState_eqb (jd_status jd) CANCELLED = false.
Proof.
  intros H0 Hj Ht.
  pose proof (settled_run_ops before _ (settled_initially r0 H0)) as Hs.
  set (s := run_ops before (mkSystem r0 [])) in *.
  assert (Hc : JobState_eqb (jd_status jd) CANCELLED = false)
    by apply (Hs id jd Hj).
  clearbody s. revert s jd Hs Hj Ht Hc.
  induction after as [|op ops IH]; intros s jd Hs Hj Ht Hc.
  - exists jd. now repeat split.
  - cbn [run_ops fold_left].
    destruct (terminal_kept_do_op op s id jd Hs Hj Ht) as (jd1 & Hj1 & Hst1).
    destruct (IH (do_op op s) jd1) as (jd' & Hj' & Hst' & _).
    + now apply settled_do_op.
    + exact Hj1.
    + now rewrite Hst1.
    + now rewrite Hst1.
    + exists jd'. split; [exact Hj'|]. split; [congruence|exact Hc].
Qed.

Lemma terminal_states_absorbing_witness :
  jobs Scenario.runner0 = [] /\
  dict_get "J1"
    (jobs (sys_runner (run_ops Scenario.run_J1 (mkSystem Scenario.runner0 []))))
    = Some Scenario.completed_J1 /\
  terminal (jd_status Scenario.completed_J1) = true /\
  exists jd',
    dict_get "J1"
      (jobs (sys_runner
               (run_ops Scenario.later_operations
                  (run_ops Scenario.run_J1 (mkSystem Scenario.runner0 [])))))
      = Some jd' /\
    jd_status jd' = jd_status Scenario.completed_J1 /\
    JobState_eqb (jd_status Scenario.completed_J1) CANCELLED = false.
Proof.
  split; [reflexivity|].
  split; [vm_compute; reflexivity|].
  split; [reflexivity|].
  apply (terminal_states_absorbing Scenario.runner0 Scenario.run_J1
           Scenario.later_operations "J1" Scenario.completed_J1).
  - reflexivity.
  - vm_compute; reflexivity.
  - reflexivity.
Defined.


(** The exception of a failed executor: the text names the timeout, or
    wraps the text of the first exception, which holds [stderr]. *)
Lemma executor_failure_message (env : Env) (r : LocalRunner)
  (yaml_path id : string) :
  (subprocess_run env (pipeline_cmd env r yaml_path id) = ProcTimeout ->
   fst (_run_yaml_pipeline env yaml_path id r) =
   Raise (Exc.JobExecutionError_
            ("Pipeline execution timed out after "
             +++ Str.of_Z (timeout r) +++ " seconds"))) /\
  (forall returncode stdout stderr,
     subprocess_run env (pipeline_cmd env r yaml_path id) =
       ProcDone returncode stdout stderr ->
     returncode <> 0%Z ->
     fst (_run_yaml_pipeline env yaml_path id r) =
     Raise (Exc.JobExecutionError_
              ("Failed to execute pipeline: [JOB_EXECUTION_ERROR] Pipeline execution failed: "
               +++ stderr))).
Proof.
  split.
  - intros H. unfold _run_yaml_pipeline, run_pipeline_try. now rewrite H.
  - intros rc so se H Hne. unfold _run_yaml_pipeline, run_pipeline_try.
    rewrite H. apply Z.eqb_neq in Hne. now rewrite Hne.
Qed.



(** ** Cancellation *)

(** C2. [cancel_job] on a job that is in the table returns neither true
    nor false: it raises [AttributeError] when it reads [is_terminal] on the
    stored [JobState], before any write, whatever the state of the job; the
    handle's [cancel] turns this into a [QETLError] and leaves the handle
    and the table as they were. *)
Theorem cancel_existing_job_raises (r : LocalRunner) (j : Job) (jd : JobData)
  (events : list Event) (sleeps polls : nat) :
  dict_get (job_id j) (jobs r) = Some jd ->
  cancel_job (job_id j) r = (Raise no_is_terminal, r) /\
  cancel (mkWorld j r events sleeps polls) =
  (Exn (Exc.QETLError_
          "Failed to cancel job: 'JobState' object has no attribute 'is_terminal'"),
   mkWorld j r events sleeps polls).
Proof.
  intros Hj.
  assert (Hc : cancel_job (job_id j) r = (Raise no_is_terminal, r)).
  { unfold cancel_job. now rewrite Hj. }
  split; [exact Hc|].
  unfold cancel, jtry, jbind, get_self, backend_call. cbn [w_job w_backend].
  rewrite Hc. destruct r; reflexivity.
Qed.

Lemma cancel_existing_job_raises_witness :
  dict_get "J1" (jobs Scenario.runner_completed) =
    Some (mkJobData "J1" "good.yaml" COMPLETED 0 13 (Some 100%Z)
            "Job completed successfully" []
            (Some (mkJobResults "J1" [("status", "completed")] 4
                     ["Processing complete"]
                     [("return_code", "0");
                      ("execution_command",
                       "python3 /opt/qetl/yaml_pipeline_runner/main.py --config good.yaml --job-id J1")]))
            None) /\
  cancel_job "J1" Scenario.runner_completed =
    (Raise no_is_terminal, Scenario.runner_completed) /\
  cancel (mkWorld (Job_init "J1" None) Scenario.runner_completed [] 0 0) =
  (Exn (Exc.QETLError_
          "Failed to cancel job: 'JobState' object has no attribute 'is_terminal'"),
   mkWorld (Job_init "J1" None) Scenario.runner_completed [] 0 0).
Proof.
  split; [vm_compute; reflexivity|].
  apply (cancel_existing_job_raises Scenario.runner_completed (Job_init "J1" None)
           (mkJobData "J1" "good.yaml" COMPLETED 0 13 (Some 100%Z)
              "Job completed successfully" []
              (Some (mkJobResults "J1" [("status", "completed")] 4
                       ["Processing complete"]
                       [("return_code", "0");
                        ("execution_command",
                         "python3 /opt/qetl/yaml_pipeline_runner/main.py --config good.yaml --job-id J1")]))
              None) [] 0 0).
  vm_compute; reflexivity.
Defined.

(** ** Lookups on an unknown id *)

(** C9, counterexample: [J404] is not in the table, and cancelling it
    returns [False], from the runner and from a handle, without an error. *)
Lemma cancel_unknown_returns_false :
  dict_get "J404" (jobs Scenario.runner1) = None /\
  cancel_job "J404" Scenario.runner1 = (Ok false, Scenario.runner1) /\
  fst (cancel (mkWorld (Job_init "J404" None) Scenario.runner1 [] 0 0)) = Ret false.
Proof.
  vm_compute. repeat split.
Qed.

(** C9 (as amended). For an id that is not in the table, the status,
    results, logs and job lookups raise an error whose message is
    "Job not found: <id>", and [cancel_job] returns [False] and leaves the
    runner as it was. *)
Theorem unknown_id_lookups (r : LocalRunner) (id : string) (follow : bool) :
  dict_get id (jobs r) = None ->
  (exists e, get_job_status id r = Raise e /\
             Exc.message e = "Job not found: " +++ id) /\
  (exists e, get_job_results id r = Raise e /\
             Exc.message e = "Job not found: " +++ id) /\
  (exists e, get_job_logs id follow r = Raise e /\
             Exc.message e = "Job not found: " +++ id) /\
  (exists e, get_job id r = Raise e /\
             Exc.message e = "Job not found: " +++ id) /\
  cancel_job id r = (Ok false, r).
Proof.
  intros H.
  unfold get_job, get_job_status, get_job_results, get_job_logs, cancel_job.
  rewrite H.
  repeat split; try (exists (not_found id); split; reflexivity).
Qed.

Lemma unknown_id_lookups_witness :
  dict_get "J404" (jobs Scenario.runner1) = None /\
  (exists e, get_job_status "J404" Scenario.runner1 = Raise e /\
             Exc.message e = "Job not found: J404") /\
  (exists e, get_job_results "J404" Scenario.runner1 = Raise e /\
             Exc.message e = "Job not found: J404") /\
  (exists e, get_job_logs "J404" false Scenario.runner1 = Raise e /\
             Exc.message e = "Job not found: J404") /\
  (exists e, get_job "J404" Scenario.runner1 = Raise e /\
             Exc.message e = "Job not found: J404") /\
  cancel_job "J404" Scenario.runner1 = (Ok false, Scenario.runner1).
Proof.
  split; [reflexivity|].
  apply (unknown_id_lookups Scenario.runner1 "J404" false). reflexivity.
Defined.

(** ** Listing *)

Lemma list_jobs_loop_spec (status : option string) (limit : Z)
  (items : list (string * JobData)) :
  forall acc : list Job,
    (Z.of_nat (List.length acc) < limit)%Z ->
    list_jobs_loop status limit items acc =
    acc ++ firstn (Z.to_nat limit - List.length acc)
                  (map job_of (filter (status_filter status) items)).
Proof.
  induction items as [|[id jd] rest IH]; intros acc Hlt.
  - cbn. now rewrite firstn_nil, app_nil_r.
  - cbn [list_jobs_loop filter].
    assert (Hskip :
      match status with
      | None => false
      | Some s => negb (String.eqb s "")
                  && negb (String.eqb (JobState_value (jd_status jd)) s)
      end = negb (status_filter status (id, jd))).
    { unfold status_filter. destruct status as [s|]; [|reflexivity].
      cbn. now rewrite negb_orb. }
    rewrite Hskip.
    destruct (status_filter status (id, jd)); cbn [negb].
    + assert (Hlen : List.length (acc ++ [Job_init id (Some (status_of id jd))])
                     = S (List.length acc)).
      { rewrite length_app. cbn. lia. }
      destruct (Z.of_nat (List.length (acc ++ [Job_init id (Some (status_of id jd))]))
                >=? limit)%Z eqn:E.
      * rewrite Hlen in E. apply Z.geb_le in E.
        replace (Z.to_nat limit - List.length acc) with 1 by lia.
        cbn. reflexivity.
      * rewrite Hlen in E. rewrite Z.geb_leb in E. apply Z.leb_gt in E.
        rewrite IH by (rewrite Hlen; lia).
        rewrite Hlen, <- app_assoc.
        replace (Z.to_nat limit - List.length acc)
          with (S (Z.to_nat limit - S (List.length acc))) by lia.
        reflexivity.
    + now apply IH.
Qed.

(** For a limit of at least one, [list_jobs] is the specification's
    [list]: insertion order, filter first, then the cap. *)
Lemma list_jobs_positive_limit (status : option string) (limit : Z)
  (r : LocalRunner) :
  (1 <= limit)%Z -> list_jobs status limit r = list_spec status limit r.
Proof.
  intros H. unfold list_jobs, list_spec.
  rewrite list_jobs_loop_spec by (cbn; lia).
  cbn. now rewrite Nat.sub_0_r.
Qed.

(** Scenario E of the specification. *)
Example list_limit_two_of_five :
  map job_id (list_jobs None 2 Scenario.runner5) = ["J1"; "J2"].
Proof. vm_compute. reflexivity. Qed.

(** C10. With a limit of zero, [list_jobs] on a table of five jobs returns
    one job, where the specification's [list] returns none: the loop tests
    [len(jobs) >= limit] only after it has appended a job. *)
Theorem list_limit_zero_returns_a_job :
  map job_id (list_jobs None 0 Scenario.runner5) = ["J1"] /\
  list_spec None 0 Scenario.runner5 = [] /\
  (Z.of_nat (List.length (list_jobs None 0 Scenario.runner5)) > 0)%Z.
Proof.
  vm_compute. repeat split.
Qed.

(** ** Submission of an invalid file *)

(** When validation raises, [LocalRunner.submit_job] raises the same
    exception and leaves the runner as it was: no entry, no status write,
    no thread. *)
Lemma submit_job_invalid (env : Env) (yaml_path id : string)
  (kwargs : dict string) (r : LocalRunner) (e : Exc.t) :
  validate_yaml env yaml_path = Raise e ->
  submit_job env yaml_path id kwargs r = (Raise e, r).
Proof.
  intros H. unfold submit_job. now rewrite H.
Qed.

(** [QETLClient.submit_job] then raises a plain [QETLError] and leaves the
    runner as it was. *)
Lemma client_submit_job_invalid (env : Env) (yaml_file id : string)
  (kwargs : dict string) (r : LocalRunner) (e : Exc.t) :
  validate_yaml env yaml_file = Raise e ->
  exists e',
    client_submit_job env yaml_file id kwargs r = (Raise e', r) /\
    Exc.klass e' = Exc.QETLError.
Proof.
  intros H. unfold client_submit_job.
  destruct (path_exists env yaml_file); cbn [negb].
  - unfold try_except. rewrite (submit_job_invalid _ _ _ _ _ _ H).
    eexists. split; reflexivity.
  - eexists. split; reflexivity.
Qed.

(** C6. For the file without a [transformations] section, validation
    raises [ValidationError]; [QETLClient.submit_job] raises, with the
    runner unchanged, an exception of class [QETLError] that is not a
    [ValidationError]. *)
Theorem client_submit_invalid_raises_base_error :
  validate_yaml Scenario.env_ok "bad.yaml" =
    Raise (Exc.ValidationError_ "YAML validation failed"
             ["Missing required field: transformations"]) /\
  submit_job Scenario.env_ok "bad.yaml" "J9" [] Scenario.runner0 =
    (Raise (Exc.ValidationError_ "YAML validation failed"
              ["Missing required field: transformations"]),
     Scenario.runner0) /\
  client_submit_job Scenario.env_ok "bad.yaml" "J9" [] Scenario.runner0 =
    (Raise (Exc.QETLError_
              "Job submission failed: [VALIDATION_ERROR] YAML validation failed"),
     Scenario.runner0) /\
  Exc.isinstance
    (Exc.QETLError_ "Job submission failed: [VALIDATION_ERROR] YAML validation failed")
    Exc.ValidationError = false.
Proof.
  vm_compute. repeat split.
Qed.

(** ** The job handle: waiting for results *)

Lemma get_results_unfold (others : nat -> LocalRunner -> LocalRunner) (n : nat) :
  get_results others (S n) =
  get_results_body others (status others (S n)) (get_results others n).
Proof. reflexivity. Qed.

(** The property [status] returns the cached snapshot when there is one,
    without a call to the backend. *)
Lemma status_cached (others : nat -> LocalRunner -> LocalRunner) (n : nat)
  (w : World) (st : JobStatus) :
  _status (w_job w) = Some st ->
  status others (S n) w = (Ret st, w).
Proof.
  intros H. unfold status. cbn.
  unfold status_body, jbind, get_self. now rewrite H.
Qed.

(** C4. When the snapshot cached in a handle is not terminal,
    [Job.get_results] does not return: however many times its wait loop is
    unfolded and whatever the other threads do to the runner while it
    sleeps, the call is still waiting, the handle is unchanged (so is its
    cached snapshot), no callback has been called and the backend has not
    been asked for the status. *)
Theorem get_results_never_returns (others : nat -> LocalRunner -> LocalRunner)
  (n : nat) :
  forall (w : World) (st : JobStatus),
    _status (w_job w) = Some st ->
    is_terminal st = false ->
    exists w',
      get_results others n w = (Fuel, w') /\
      w_job w' = w_job w /\
      w_events w' = w_events w /\
      w_polls w' = w_polls w.
Proof.
  induction n as [|n IH]; intros w st Hc Hnt.
  - exists w. repeat split.
  - rewrite get_results_unfold. unfold get_results_body, jbind.
    rewrite (status_cached others n w st Hc). rewrite Hnt. cbn [negb].
    unfold sleep.
    set (w1 := mkWorld (w_job w) (others (w_sleeps w) (w_backend w))
                       (w_events w) (S (w_sleeps w)) (w_polls w)).
    destruct (IH w1 st Hc Hnt) as (w' & Hrun & Hj & He & Hp).
    exists w'. rewrite Hrun. repeat split; assumption.
Qed.

Lemma get_results_never_returns_witness :
  _status (w_job (Scenario.handle Scenario.runner1)) =
    Some (mkJobStatus "J1" SUBMITTED (Some 0%Z) "Job submitted" 0 1) /\
  is_terminal (mkJobStatus "J1" SUBMITTED (Some 0%Z) "Job submitted" 0 1) = false /\
  exists w',
    get_results (fun _ _ => Scenario.runner_completed) 1000
                (Scenario.handle Scenario.runner1) = (Fuel, w') /\
    w_job w' = w_job (Scenario.handle Scenario.runner1) /\
    w_events w' = w_events (Scenario.handle Scenario.runner1) /\
    w_polls w' = w_polls (Scenario.handle Scenario.runner1).
Proof.
  split; [reflexivity|]. split; [reflexivity|].
  apply (get_results_never_returns (fun _ _ => Scenario.runner_completed) 1000
           (Scenario.handle Scenario.runner1)
           (mkJobStatus "J1" SUBMITTED (Some 0%Z) "Job submitted" 0 1));
    reflexivity.
Defined.

(** With a terminal snapshot that is not COMPLETED, [get_results] returns
    at once by raising a plain [QETLError] built from the message of the
    snapshot. *)
Lemma get_results_unsuccessful (others : nat -> LocalRunner -> LocalRunner)
  (n : nat) (w : World) (st : JobStatus) :
  _status (w_job w) = Some st ->
  is_terminal st = true ->
  is_successful st = false ->
  get_results others (S n) w =
  (Exn (Exc.QETLError_
          ("Job " +++ job_id (w_job w) +++ " failed: " +++ st_message st)), w).
Proof.
  intros Hc Ht Hs.
  rewrite get_results_unfold. unfold get_results_body, get_results_tail, jbind.
  rewrite !(status_cached others n w st Hc). rewrite Ht. cbn [negb].
  rewrite !(status_cached others n w st Hc). rewrite Hs. cbn [negb].
  rewrite !(status_cached others n w st Hc). reflexivity.
Qed.

(** C7. For the job whose executor failed, and for a job whose record is
    CANCELLED, [get_results] raises an exception of class [QETLError],
    which is not a [JobExecutionError]; its text is built from the message
    of the status. *)
Theorem get_results_raises_base_error :
  get_job_status "J1" Scenario.runner_failed =
    Ok (mkJobStatus "J1" FAILED None
          "[JOB_EXECUTION_ERROR] Failed to execute pipeline: [JOB_EXECUTION_ERROR] Pipeline execution failed: boom"
          0 11) /\
  fst (get_results Scenario.quiet 5 (Scenario.handle Scenario.runner_failed)) =
    Exn (Exc.mk Exc.QETLError
           "Job J1 failed: [JOB_EXECUTION_ERROR] Failed to execute pipeline: [JOB_EXECUTION_ERROR] Pipeline execution failed: boom"
           None []) /\
  fst (get_results Scenario.quiet 5 (Scenario.handle Scenario.runner_cancelled)) =
    Exn (Exc.mk Exc.QETLError "Job J1 failed: Job cancelled by user" None []) /\
  Exc.issubclass Exc.QETLError Exc.JobExecutionError = false.
Proof.
  vm_compute. repeat split.
Qed.

(** ** The job handle: completion callbacks *)

(** C5. On the handle of a COMPLETED job, registering callback 1 calls it
    once; registering callback 2 afterwards calls callback 1 a second
    time; a later [get_status] calls it a third time.  On a handle with no
    cached snapshot, the registration alone calls the callback twice. *)
Theorem completion_callback_called_again :
  let w0 := Scenario.handle Scenario.runner_completed in
  let w1 := snd (on_completion Scenario.quiet 5 1 w0) in
  let w2 := snd (on_completion Scenario.quiet 5 2 w1) in
  let w3 := snd (get_status Scenario.quiet 5 w2) in
  let fresh := mkWorld (Job_init "J1" None) Scenario.runner_completed [] 0 0 in
  fst (on_completion Scenario.quiet 5 1 w0) = Ret tt /\
  completion_calls 1 (w_events w1) = 1 /\
  fst (on_completion Scenario.quiet 5 2 w1) = Ret tt /\
  completion_calls 1 (w_events w2) = 2 /\
  completion_calls 1 (w_events w3) = 3 /\
  fst (on_completion Scenario.quiet 5 1 fresh) = Ret tt /\
  completion_calls 1 (w_events (snd (on_completion Scenario.quiet 5 1 fresh))) = 2.
Proof.
  vm_compute. repeat split.
Qed.

(** * Further properties of the code *)

(** ** Every run of the background thread *)

Ltac finish_run :=
  do 2 eexists; split; [reflexivity|]; cbn [jobs qetl_home timeout history];
  split; [reflexivity|]; split; [reflexivity|]; split; [reflexivity|];
  rewrite <- ?app_assoc; cbn [app].

Lemma execute_job_shape (env : Env) (r : LocalRunner) (id : string) (jd : JobData) :
  dict_get id (jobs r) = Some jd ->
  exists r2 jd2,
    _execute_job env id r = (Ok tt, r2) /\
    jobs r2 = dict_set id jd2 (jobs r) /\
    qetl_home r2 = qetl_home r /\
    timeout r2 = timeout r /\
    ((history r2 = history r ++ writes_load_failure id /\ failed_record jd jd2) \/
     (history r2 = history r ++ writes_executor_failure id /\ failed_record jd jd2) \/
     (history r2 = history r ++ writes_success id /\ completed_record jd jd2)).
Proof.
  intros Hj. run_thread. rewrite Hj. run_step. rewrite Hj.
  destruct (read_yaml env (jd_yaml_path jd)) as [|msg|msg|config];
    repeat run_step.
  1-3: finish_run; left; split; [reflexivity|];
       repeat split; eexists; split; reflexivity.
  match goal with
  | |- context [subprocess_run env ?cmd] => destruct (subprocess_run env cmd) as [|e0|rc so se]
  end.
  - repeat run_step. finish_run. right; left. split; [reflexivity|].
    repeat split; eexists; split; reflexivity.
  - destruct (Exc.isinstance e0 Exc.TimeoutExpired); repeat run_step;
      finish_run; right; left; (split; [reflexivity|]);
      repeat split; eexists; split; reflexivity.
  - destruct (rc =? 0)%Z; repeat run_step; finish_run.
    + right; right. split; [reflexivity|]. repeat split. eexists; reflexivity.
    + right; left. split; [reflexivity|].
      repeat split; eexists; split; reflexivity.
Qed.

(** X1. Whatever the file system and the executor do, a run of
    [_execute_job] for a job that is in the table returns normally and
    leaves the job in a terminal state, with one of three status
    histories: VALIDATING then FAILED (the file could not be loaded);
    VALIDATING, QUEUED, INITIALIZING, RUNNING then FAILED (the executor
    failed); or the six writes up to COMPLETED.  A FAILED record has no
    progress, has [error] set with the text of its message, and keeps
    [results] as it was; a COMPLETED record has [results] set and keeps
    [error] as it was. *)
Theorem execute_job_outcomes (env : Env) (r : LocalRunner) (id : string)
  (jd : JobData) :
  dict_get id (jobs r) = Some jd ->
  exists r2 jd2,
    _execute_job env id r = (Ok tt, r2) /\
    dict_get id (jobs r2) = Some jd2 /\
    terminal (jd_status jd2) = true /\
    ((history r2 = history r ++ writes_load_failure id /\ failed_record jd jd2) \/
     (history r2 = history r ++ writes_executor_failure id /\ failed_record jd jd2) \/
     (history r2 = history r ++ writes_success id /\ completed_record jd jd2)).
Proof.
  intros Hj.
  destruct (execute_job_shape env r id jd Hj)
    as (r2 & jd2 & Hrun & Hjobs & _ & _ & Hcases).
  exists r2, jd2. split; [exact Hrun|].
  split. { rewrite Hjobs. apply dict_get_set_same. }
  split; [|exact Hcases].
  destruct Hcases as [[_ (Hs & _)]|[[_ (Hs & _)]|[_ (Hs & _)]]];
    now rewrite Hs.
Qed.

Lemma execute_job_outcomes_witness :
  dict_get "J1" (jobs Scenario.runner1) =
    Some (mkJobData "J1" "good.yaml" SUBMITTED 0 1 (Some 0%Z) "Job submitted"
                    [] None None) /\
  exists r2 jd2,
    _execute_job Scenario.env_timeout "J1" Scenario.runner1 = (Ok tt, r2) /\
    dict_get "J1" (jobs r2) = Some jd2 /\
    terminal (jd_status jd2) = true /\
    ((history r2 = history Scenario.runner1 ++ writes_load_failure "J1" /\
      failed_record (mkJobData "J1" "good.yaml" SUBMITTED 0 1 (Some 0%Z)
                       "Job submitted" [] None None) jd2) \/
     (history r2 = history Scenario.runner1 ++ writes_executor_failure "J1" /\
      failed_record (mkJobData "J1" "good.yaml" SUBMITTED 0 1 (Some 0%Z)
                       "Job submitted" [] None None) jd2) \/
     (history r2 = history Scenario.runner1 ++ writes_success "J1" /\
      completed_record (mkJobData "J1" "good.yaml" SUBMITTED 0 1 (Some 0%Z)
                          "Job submitted" [] None None) jd2)).
Proof.
  split; [reflexivity|].
  apply (execute_job_outcomes Scenario.env_timeout Scenario.runner1 "J1"
           (mkJobData "J1" "good.yaml" SUBMITTED 0 1 (Some 0%Z) "Job submitted"
                      [] None None)).
  reflexivity.
Defined.

(** X2. A run of [_execute_job] touches nothing but the entry of its own
    job: whatever happens, the table has the same ids in the same order
    afterwards, every other entry is unchanged, and so are [qetl_home] and
    [timeout].  This holds also when the id is not in the table. *)
Theorem execute_job_frame (env : Env) (r : LocalRunner) (id : string) :
  dict_keys (jobs (snd (_execute_job env id r))) = dict_keys (jobs r) /\
  (forall id', id' <> id ->
     dict_get id' (jobs (snd (_execute_job env id r))) = dict_get id' (jobs r)) /\
  qetl_home (snd (_execute_job env id r)) = qetl_home r /\
  timeout (snd (_execute_job env id r)) = timeout r.
Proof.
  destruct (dict_get id (jobs r)) as [jd|] eqn:Hj.
  - destruct (execute_job_shape env r id jd Hj)
      as (r2 & jd2 & Hrun & Hjobs & Hh & Ht & _).
    rewrite Hrun. cbn [snd]. rewrite Hjobs.
    split. { apply dict_keys_set_present. unfold dict_mem. now rewrite Hj. }
    split. { intros id' Hne. apply dict_get_set_other. congruence. }
    split; assumption.
  - run_thread. rewrite Hj. cbn. rewrite Hj. cbn. rewrite Hj. cbn.
    repeat split.
Qed.

Lemma thread_stops_on_missing_file (env : Env) (r : LocalRunner) (id : string)
  (jd : JobData) :
  dict_get id (jobs r) = Some jd ->
  read_yaml env (jd_yaml_path jd) = FileMissing ->
  exists r2 jd2 timestamp,
    _execute_job env id r = (Ok tt, r2) /\
    history r2 = history r ++ writes_load_failure id /\
    dict_get id (jobs r2) = Some jd2 /\
    jd_status jd2 = FAILED /\
    jd_progress jd2 = None /\
    jd_results jd2 = jd_results jd /\
    jd_error jd2 =
      Some (mkErrorInfo "FileNotFoundError"
              ("[Errno 2] No such file or directory: "
               +++ path_repr env (jd_yaml_path jd))
              timestamp).
Proof.
  intros Hj Hr. run_thread. rewrite Hj. run_step. rewrite Hj, Hr.
  repeat run_step.
  do 3 eexists. split; [reflexivity|]. cbn [history jobs].
  rewrite dict_get_set_same, <- !app_assoc. repeat split; reflexivity.
Qed.

(** X3. When the YAML file of a job is no longer there by the time the
    background thread opens it, the job ends FAILED right after
    VALIDATING: the executor is never started, and [error] records a
    [FileNotFoundError] whose text is "[Errno 2] No such file or
    directory: " followed by the [repr] of the file name. *)
Theorem execute_job_missing_file (env : Env) (r : LocalRunner) (id : string)
  (jd : JobData) :
  dict_get id (jobs r) = Some jd ->
  read_yaml env (jd_yaml_path jd) = FileMissing ->
  exists r2 jd2 timestamp,
    _execute_job env id r = (Ok tt, r2) /\
    history r2 = history r ++ writes_load_failure id /\
    dict_get id (jobs r2) = Some jd2 /\
    jd_status jd2 = FAILED /\
    jd_progress jd2 = None /\
    jd_results jd2 = jd_results jd /\
    jd_error jd2 =
      Some (mkErrorInfo "FileNotFoundError"
              ("[Errno 2] No such file or directory: "
               +++ path_repr env (jd_yaml_path jd))
              timestamp).
Proof.
  intros Hj Hr. run_thread. rewrite Hj. run_step. rewrite Hj, Hr.
  repeat run_step.
  do 3 eexists. split; [reflexivity|]. cbn [history jobs].
  rewrite dict_get_set_same, <- !app_assoc. repeat split; reflexivity.
Qed.

Lemma execute_job_missing_file_witness :
  dict_get "J1" (jobs Scenario.runner1) =
    Some (mkJobData "J1" "good.yaml" SUBMITTED 0 1 (Some 0%Z) "Job submitted"
                    [] None None) /\
  read_yaml (mkEnv (fun _ => FileMissing) Scenario.quoted "python3"
                 (fun _ => ProcTimeout) 0)
            "good.yaml" = FileMissing /\
  exists r2 jd2 timestamp,
    _execute_job (mkEnv (fun _ => FileMissing) Scenario.quoted "python3"
                 (fun _ => ProcTimeout) 0)
                 "J1" Scenario.runner1 = (Ok tt, r2) /\
    history r2 = history Scenario.runner1 ++ writes_load_failure "J1" /\
    dict_get "J1" (jobs r2) = Some jd2 /\
    jd_status jd2 = FAILED /\
    jd_progress jd2 = None /\
    jd_results jd2 = None /\
    jd_error jd2 =
      Some (mkErrorInfo "FileNotFoundError"
              "[Errno 2] No such file or directory: 'good.yaml'" timestamp).
Proof.
  split; [reflexivity|]. split; [reflexivity|].
  apply (execute_job_missing_file
           (mkEnv (fun _ => FileMissing) Scenario.quoted "python3"
                 (fun _ => ProcTimeout) 0)
           Scenario.runner1 "J1"
           (mkJobData "J1" "good.yaml" SUBMITTED 0 1 (Some 0%Z) "Job submitted"
                      [] None None)); reflexivity.
Defined.

(** ** Validation *)

Lemma validate_yaml_on_mapping (env : Env) (yaml_path : string)
  (keys : list YamlItem) :
  read_yaml env yaml_path = FileYaml (YMap keys) ->
  validate_yaml env yaml_path =
  match missing_in keys with
  | [] => Ok (YMap keys)
  | missing =>
      Raise (Exc.ValidationError_ "YAML validation failed"
               (map (fun field => "Missing required field: " +++ field) missing))
  end.
Proof.
  intros H. unfold validate_yaml, missing_in. rewrite H. cbn.
  destruct (existsb (item_is "pipeline_name") keys),
           (existsb (item_is "input_sources") keys),
           (existsb (item_is "transformations") keys); reflexivity.
Qed.

(** X4. For a file that holds a mapping, [validate_yaml] succeeds exactly
    when [pipeline_name], [input_sources] and [transformations] are all
    among its keys; otherwise it raises a [ValidationError] whose
    [validation_errors] name the missing fields, in that fixed order. *)
Theorem validate_yaml_mapping (env : Env) (yaml_path : string)
  (keys : list YamlItem) :
  read_yaml env yaml_path = FileYaml (YMap keys) ->
  validate_yaml env yaml_path =
  match missing_in keys with
  | [] => Ok (YMap keys)
  | missing =>
      Raise (Exc.ValidationError_ "YAML validation failed"
               (map (fun field => "Missing required field: " +++ field) missing))
  end.
Proof.
  intros H. unfold validate_yaml, missing_in. rewrite H. cbn.
  destruct (existsb (item_is "pipeline_name") keys),
           (existsb (item_is "input_sources") keys),
           (existsb (item_is "transformations") keys); reflexivity.
Qed.

Lemma validate_yaml_mapping_witness :
  read_yaml Scenario.env_ok "bad.yaml" =
    FileYaml (YMap [IStr "pipeline_name"; IStr "input_sources"]) /\
  validate_yaml Scenario.env_ok "bad.yaml" =
  match missing_in [IStr "pipeline_name"; IStr "input_sources"] with
  | [] => Ok (YMap [IStr "pipeline_name"; IStr "input_sources"])
  | missing =>
      Raise (Exc.ValidationError_ "YAML validation failed"
               (map (fun field => "Missing required field: " +++ field) missing))
  end.
Proof.
  split; [reflexivity|].
  apply (validate_yaml_mapping Scenario.env_ok "bad.yaml"
           [IStr "pipeline_name"; IStr "input_sources"]).
  reflexivity.
Defined.

(** X5. A file whose document is not a container (an empty file loads as
    [None]) does not fail validation with a [ValidationError]:
    [validate_yaml] raises [TypeError], [submit_job] lets it through to
    its caller, and no job is recorded. *)
Theorem non_container_document_type_error (env : Env) (yaml_path id : string)
  (kwargs : dict string) (r : LocalRunner) (config : Yaml) :
  read_yaml env yaml_path = FileYaml config ->
  not_a_container config = true ->
  exists e,
    validate_yaml env yaml_path = Raise e /\
    Exc.klass e = Exc.TypeError /\
    Exc.isinstance e Exc.ValidationError = false /\
    submit_job env yaml_path id kwargs r = (Raise e, r).
Proof.
  intros Hr Hc. unfold submit_job, validate_yaml. rewrite Hr.
  destruct config; try discriminate Hc; cbn;
    (eexists; repeat split; reflexivity).
Qed.

Lemma non_container_document_type_error_witness :
  read_yaml Scenario.env_ok "empty.yaml" = FileYaml YNull /\
  not_a_container YNull = true /\
  exists e,
    validate_yaml Scenario.env_ok "empty.yaml" = Raise e /\
    Exc.klass e = Exc.TypeError /\
    Exc.isinstance e Exc.ValidationError = false /\
    submit_job Scenario.env_ok "empty.yaml" "J9" [] Scenario.runner0 =
      (Raise e, Scenario.runner0).
Proof.
  split; [reflexivity|]. split; [reflexivity|].
  apply (non_container_document_type_error Scenario.env_ok "empty.yaml" "J9" []
           Scenario.runner0 YNull); reflexivity.
Defined.

(** X6. The client does not report which fields are missing: for every
    mapping that lacks a required field, [QETLClient.validate_yaml] raises
    one and the same [ValidationError], with an empty [validation_errors]
    and a text without field names, and [QETLClient.submit_job] raises one
    and the same [QETLError]. *)
Theorem client_drops_missing_fields (env : Env) (yaml_file id : string)
  (kwargs : dict string) (r : LocalRunner) (keys : list YamlItem) :
  read_yaml env yaml_file = FileYaml (YMap keys) ->
  missing_in keys <> [] ->
  client_validate_yaml env yaml_file =
    Raise (Exc.ValidationError_
             "YAML validation failed: [VALIDATION_ERROR] YAML validation failed" []) /\
  client_submit_job env yaml_file id kwargs r =
    (Raise (Exc.QETLError_
              "Job submission failed: [VALIDATION_ERROR] YAML validation failed"), r).
Proof.
  intros Hr Hm.
  pose proof (validate_yaml_on_mapping env yaml_file keys Hr) as Hv.
  unfold client_validate_yaml, client_submit_job, try_except, submit_job, path_exists.
  rewrite Hr. cbn [negb]. rewrite Hv.
  destruct (missing_in keys) as [|f rest]; [congruence|].
  split; reflexivity.
Qed.

Lemma client_drops_missing_fields_witness :
  read_yaml Scenario.env_ok "bad.yaml" =
    FileYaml (YMap [IStr "pipeline_name"; IStr "input_sources"]) /\
  missing_in [IStr "pipeline_name"; IStr "input_sources"] <> [] /\
  client_validate_yaml Scenario.env_ok "bad.yaml" =
    Raise (Exc.ValidationError_
             "YAML validation failed: [VALIDATION_ERROR] YAML validation failed" []) /\
  client_submit_job Scenario.env_ok "bad.yaml" "J9" [] Scenario.runner0 =
    (Raise (Exc.QETLError_
              "Job submission failed: [VALIDATION_ERROR] YAML validation failed"),
     Scenario.runner0).
Proof.
  split; [reflexivity|]. split; [discriminate|].
  apply (client_drops_missing_fields Scenario.env_ok "bad.yaml" "J9" []
           Scenario.runner0 [IStr "pipeline_name"; IStr "input_sources"]);
    [reflexivity | discriminate].
Defined.

(** ** Submission and lookup *)




(** ** Listing, for every limit *)

Lemma list_jobs_loop_nonpositive (status : option string) (limit : Z)
  (items : list (string * JobData)) :
  (limit <= 0)%Z ->
  list_jobs_loop status limit items [] =
  firstn 1 (map job_of (filter (status_filter status) items)).
Proof.
  intros Hl. induction items as [|[id jd] rest IH]; [reflexivity|].
  cbn [list_jobs_loop filter].
  assert (Hskip :
    match status with
    | None => false
    | Some s => negb (String.eqb s "")
                && negb (String.eqb (JobState_value (jd_status jd)) s)
    end = negb (status_filter status (id, jd))).
  { unfold status_filter. destruct status as [s|]; [|reflexivity].
    cbn. now rewrite negb_orb. }
  rewrite Hskip.
  destruct (status_filter status (id, jd)); cbn [negb]; [|exact IH].
  cbn [app List.length].
  destruct (Z.of_nat 1 >=? limit)%Z eqn:E; [reflexivity|].
  rewrite Z.geb_leb in E. apply Z.leb_gt in E. lia.
Qed.

Lemma list_jobs_firstn (status : option string) (limit : Z)
  (r : LocalRunner) :
  list_jobs status limit r =
  firstn (Z.to_nat (Z.max 1 limit))
         (map job_of (filter (status_filter status) (jobs r))).
Proof.
  destruct (Z.le_gt_cases 1 limit) as [H|H].
  - rewrite list_jobs_positive_limit by exact H. unfold list_spec.
    now rewrite Z.max_r by lia.
  - unfold list_jobs. rewrite list_jobs_loop_nonpositive by lia.
    now rewrite Z.max_l by lia.
Qed.

(** X8. What [list_jobs] returns, for every table, filter and limit: the
    jobs in insertion order, restricted to the requested state when a
    non-empty filter is given, and cut after [max(limit, 1)] jobs; each
    handle caches the status built from its entry. *)
Theorem list_jobs_all_limits (status : option string) (limit : Z)
  (r : LocalRunner) :
  list_jobs status limit r =
  firstn (Z.to_nat (Z.max 1 limit))
         (map job_of (filter (status_filter status) (jobs r))).
Proof.
  destruct (Z.le_gt_cases 1 limit) as [H|H].
  - rewrite list_jobs_positive_limit by exact H. unfold list_spec.
    now rewrite Z.max_r by lia.
  - unfold list_jobs. rewrite list_jobs_loop_nonpositive by lia.
    now rewrite Z.max_l by lia.
Qed.

Lemma in_firstn {A} (n : nat) (l : list A) (x : A) :
  In x (firstn n l) -> In x l.
Proof.
  revert l. induction n as [|n IH]; intros [|a l]; simpl; try contradiction.
  intros [H|H]; [now left | right; now apply IH].
Qed.

Lemma dict_get_in {V} (k : string) (v : V) (d : dict V) :
  NoDup (dict_keys d) -> In (k, v) d -> dict_get k d = Some v.
Proof.
  unfold dict_keys.
  induction d as [|[k' v'] rest IH]; simpl; intros Hnd Hin; [contradiction|].
  inversion Hnd as [|? ? Hnotin Hnd']; subst.
  destruct Hin as [Heq|Hin].
  - inversion Heq; subst. now rewrite String.eqb_refl.
  - destruct (String.eqb k k') eqn:E.
    + apply String.eqb_eq in E. subst k'.
      exfalso. apply Hnotin. apply in_map_iff. now exists (k, v).
    + now apply IH.
Qed.

(** X9. Every job that [list_jobs] returns is in the table, its cached
    snapshot is the status the runner reports for its id at that moment,
    and with a non-empty filter its state is the requested one. *)
Theorem list_jobs_sound (status : option string) (limit : Z) (r : LocalRunner)
  (j : Job) :
  NoDup (dict_keys (jobs r)) ->
  In j (list_jobs status limit r) ->
  exists st,
    _status j = Some st /\
    get_job_status (job_id j) r = Ok st /\
    _results j = None /\
    (forall s, status = Some s -> s <> "" -> JobState_value (st_state st) = s).
Proof.
  intros Hnd Hin. rewrite list_jobs_firstn in Hin.
  apply in_firstn in Hin. apply in_map_iff in Hin.
  destruct Hin as ([id jd] & Hj & Hin). apply filter_In in Hin.
  destruct Hin as [Hin Hf]. subst j. unfold job_of. cbn.
  exists (status_of id jd). split; [reflexivity|].
  split. { unfold get_job_status. now rewrite (dict_get_in id jd (jobs r) Hnd Hin). }
  split; [reflexivity|].
  intros s Hs Hne. subst status. unfold status_filter in Hf. cbn in Hf.
  apply orb_true_iff in Hf. destruct Hf as [Hf|Hf].
  - apply String.eqb_eq in Hf. congruence.
  - now apply String.eqb_eq in Hf.
Qed.

Lemma list_jobs_sound_witness :
  NoDup (dict_keys (jobs Scenario.runner5)) /\
  In (Job_init "J2"
        (Some (mkJobStatus "J2" SUBMITTED (Some 0%Z) "Job submitted" 3 4)))
     (list_jobs (Some "submitted") 3 Scenario.runner5) /\
  exists st,
    _status (Job_init "J2"
               (Some (mkJobStatus "J2" SUBMITTED (Some 0%Z) "Job submitted" 3 4)))
      = Some st /\
    get_job_status "J2" Scenario.runner5 = Ok st /\
    _results (Job_init "J2"
                (Some (mkJobStatus "J2" SUBMITTED (Some 0%Z) "Job submitted" 3 4)))
      = None /\
    (forall s, Some "submitted" = Some s -> s <> "" ->
               JobState_value (st_state st) = s).
Proof.
  assert (Hnd : NoDup (dict_keys (jobs Scenario.runner5))).
  { vm_compute. repeat constructor; cbn; intuition discriminate. }
  assert (Hin : In (Job_init "J2"
        (Some (mkJobStatus "J2" SUBMITTED (Some 0%Z) "Job submitted" 3 4)))
     (list_jobs (Some "submitted") 3 Scenario.runner5)).
  { vm_compute. right. left. reflexivity. }
  split; [exact Hnd|]. split; [exact Hin|].
  exact (list_jobs_sound (Some "submitted") 3 Scenario.runner5 _ Hnd Hin).
Defined.

(** ** Instance information *)

Lemma active_jobs_nonempty (items : list (string * JobData)) :
  items <> [] -> active_jobs items = Raise no_is_terminal.
Proof.
  destruct items as [|[id jd] rest]; [congruence|]. reflexivity.
Qed.

(** X10. [get_instance_info] answers only while the table is empty (no
    active job, no job); as soon as one job has been submitted it raises
    [AttributeError], because it reads [is_terminal] on the stored
    [JobState], and the client reports a [QETLError]. *)
Theorem instance_info_only_when_empty (python_version : string) (r : LocalRunner) :
  get_instance_info python_version r =
    match jobs r with
    | [] => Ok (mkInstanceInfo "local" (qetl_home r) python_version 0 0)
    | _ :: _ => Raise no_is_terminal
    end /\
  client_get_instance_info python_version r =
    match jobs r with
    | [] => Ok (mkInstanceInfo "local" (qetl_home r) python_version 0 0)
    | _ :: _ =>
        Raise (Exc.QETLError_
                 "Failed to get instance info: 'JobState' object has no attribute 'is_terminal'")
    end.
Proof.
  unfold client_get_instance_info, get_instance_info.
  destruct (jobs r) as [|item rest] eqn:E; [split; reflexivity|].
  rewrite active_jobs_nonempty by discriminate. split; reflexivity.
Qed.

(** ** Relations kept by the operations of a handle *)

Section Preservation.

Context (P : World -> World -> Prop).
Hypothesis P_refl : forall w, P w w.
Hypothesis P_trans : forall w1 w2 w3, P w1 w2 -> P w2 w3 -> P w1 w3.

Lemma preserves_jret {A} (a : A) : preserves P (jret a).
Proof. intros w o w' [= <- <-]. apply P_refl. Qed.

Lemma preserves_jraise {A} (e : Exc.t) : preserves P (@jraise A e).
Proof. intros w o w' [= <- <-]. apply P_refl. Qed.

Lemma preserves_jdiverge {A} : preserves P (@jdiverge A).
Proof. intros w o w' [= <- <-]. apply P_refl. Qed.

Lemma preserves_get_self : preserves P get_self.
Proof. intros w o w' [= <- <-]. apply P_refl. Qed.

Lemma preserves_backend_read {A} (f : LocalRunner -> result A) :
  preserves P (backend_read f).
Proof.
  intros w o w'. unfold backend_read.
  destruct (f (w_backend w)); intros [= <- <-]; apply P_refl.
Qed.

Lemma preserves_jbind {A B} (m : JM A) (k : A -> JM B) :
  preserves P m -> (forall a, preserves P (k a)) -> preserves P (jbind m k).
Proof.
  intros Hm Hk w o w'. unfold jbind.
  destruct (m w) as [[a|e|] w1] eqn:E; intros H.
  - eapply P_trans; [exact (Hm _ _ _ E) | exact (Hk a _ _ _ H)].
  - inversion H; subst. exact (Hm _ _ _ E).
  - inversion H; subst. exact (Hm _ _ _ E).
Qed.

Lemma preserves_jtry {A} (m : JM A) (h : Exc.t -> JM A) :
  preserves P m -> (forall e, preserves P (h e)) -> preserves P (jtry m h).
Proof.
  intros Hm Hh w o w'. unfold jtry.
  destruct (m w) as [[a|e|] w1] eqn:E; intros H.
  - inversion H; subst. exact (Hm _ _ _ E).
  - eapply P_trans; [exact (Hm _ _ _ E) | exact (Hh e _ _ _ H)].
  - inversion H; subst. exact (Hm _ _ _ E).
Qed.

Lemma preserves_if {A} (b : bool) (m1 m2 : JM A) :
  preserves P m1 -> preserves P m2 -> preserves P (if b then m1 else m2).
Proof. now destruct b. Qed.

End Preservation.

(** ** The job handle: how its operations compute *)

Section HandleRules.

Variable others : nat -> LocalRunner -> LocalRunner.

(** [get_results] with a cached snapshot. *)
Lemma get_results_cached (n : nat) (w : World) (s : JobStatus) :
  _status (w_job w) = Some s ->
  get_results others (S n) w =
  if negb (is_terminal s) then
    jbind (sleep others) (fun _ => get_results others n) w
  else if negb (is_successful s) then
    (Exn (Exc.QETLError_
            ("Job " +++ job_id (w_job w) +++ " failed: " +++ st_message s)), w)
  else
    match _results (w_job w) with
    | Some results => (Ret results, w)
    | None =>
        match get_job_results (job_id (w_job w)) (w_backend w) with
        | Ok results => (Ret results, cache_results results w)
        | Raise e =>
            (Exn (Exc.QETLError_ ("Failed to get job results: " +++ Exc.str e)), w)
        end
    end.
Proof.
  intros Hc. rewrite get_results_unfold.
  unfold get_results_body, get_results_tail, jbind.
  rewrite !(status_cached others n w s Hc).
  destruct (is_terminal s); cbn [negb]; [|reflexivity].
  rewrite !(status_cached others n w s Hc).
  destruct (is_successful s); cbn [negb].
  - unfold get_self. destruct (_results (w_job w)) as [res|] eqn:Er.
    + reflexivity.
    + unfold jtry, backend_read, assign_results, jret, jraise.
      destruct (get_job_results (job_id (w_job w)) (w_backend w)) as [res|e];
        [|reflexivity].
      reflexivity.
  - rewrite !(status_cached others n w s Hc). reflexivity.
Qed.

Lemma trigger_unfold (n : nat) :
  _trigger_completion_callbacks others (S n) =
  trigger_body (status others (S n)) (get_results others (S n)).
Proof. reflexivity. Qed.

(** [_trigger_completion_callbacks] with a cached snapshot. *)
Lemma trigger_cached (n : nat) (w : World) (s : JobStatus) :
  _status (w_job w) = Some s ->
  _trigger_completion_callbacks others (S n) w =
  match _completion_callbacks (w_job w) with
  | [] => (Ret tt, w)
  | _ =>
      if is_successful s then
        match get_results others (S n) w with
        | (Ret results, w1) => (Ret tt, completion_called (Some results) w1)
        | (Exn _, w1) => (Ret tt, completion_called None w1)
        | (Fuel, w1) => (Fuel, w1)
        end
      else (Ret tt, completion_called None w)
  end.
Proof.
  intros Hc. rewrite trigger_unfold. unfold trigger_body, jbind at 1, get_self.
  destruct (_completion_callbacks (w_job w)) as [|cb cbs] eqn:Ecb; [reflexivity|].
  unfold jtry, jbind. rewrite (status_cached others n w s Hc).
  destruct (is_successful s).
  - destruct (get_results others (S n) w) as [[res|e|] w1]; reflexivity.
  - unfold jret, get_self, call_all, completion_called. reflexivity.
Qed.

Lemma get_status_unfold (n : nat) :
  get_status others (S n) =
  get_status_body (_trigger_completion_callbacks others n).
Proof. reflexivity. Qed.

(** [get_status], by what the runner answers. *)
Lemma get_status_rule (n : nat) (w : World) :
  get_status others (S n) w =
  match get_job_status (job_id (w_job w)) (w_backend w) with
  | Raise e =>
      (Exn (Exc.QETLError_ ("Failed to get job status: " +++ Exc.str e)),
       mkWorld (w_job w) (w_backend w) (w_events w) (w_sleeps w) (S (w_polls w)))
  | Ok s =>
      if is_terminal s
         && negb (Nat.eqb (List.length (_completion_callbacks (w_job w))) 0)
      then
        match _trigger_completion_callbacks others n (refreshed s w) with
        | (Ret _, w2) => (Ret s, w2)
        | (Exn e, w2) =>
            (Exn (Exc.QETLError_ ("Failed to get job status: " +++ Exc.str e)), w2)
        | (Fuel, w2) => (Fuel, w2)
        end
      else (Ret s, refreshed s w)
  end.
Proof.
  rewrite get_status_unfold.
  unfold get_status_body, jtry, jbind, get_self, poll_status, backend_read.
  cbn [w_job w_backend].
  destruct (get_job_status (job_id (w_job w)) (w_backend w)) as [s|e];
    [|reflexivity].
  unfold assign_status, call_all, set_job. cbn.
  fold (refreshed s w).
  destruct (is_terminal s
            && negb (Nat.eqb (List.length (_completion_callbacks (w_job w))) 0)).
  - destruct (_trigger_completion_callbacks others n (refreshed s w))
      as [[u|e|] w2]; reflexivity.
  - reflexivity.
Qed.

End HandleRules.

(** ** The job handle: cached snapshot *)

Lemma successful_is_terminal (s : JobStatus) :
  is_successful s = true -> is_terminal s = true.
Proof.
  unfold is_successful, is_terminal. now destruct (st_state s).
Qed.

Lemma handle_kept_refl (w : World) : handle_kept w w.
Proof. repeat split. Qed.

Lemma handle_kept_trans (w1 w2 w3 : World) :
  handle_kept w1 w2 -> handle_kept w2 w3 -> handle_kept w1 w3.
Proof.
  intros (A1 & A2 & A3 & A4 & A5) (B1 & B2 & B3 & B4 & B5).
  repeat split; congruence.
Qed.

Section CachedSnapshot.

Variable others : nat -> LocalRunner -> LocalRunner.

(** With a cached snapshot, [get_results] keeps the handle and does not
    ask the runner for the status, however it ends. *)
Lemma get_results_keeps_handle (n : nat) :
  forall (w : World) (s : JobStatus) (o : outcome JobResults) (w' : World),
    _status (w_job w) = Some s ->
    get_results others n w = (o, w') ->
    handle_kept w w'.
Proof.
  induction n as [|n IH]; intros w s o w' Hc H.
  - inversion H; subst. apply handle_kept_refl.
  - rewrite (get_results_cached others n w s Hc) in H.
    destruct (is_terminal s); cbn [negb] in H.
    + destruct (is_successful s); cbn [negb] in H.
      * destruct (_results (w_job w)) as [res|].
        -- inversion H; subst. apply handle_kept_refl.
        -- destruct (get_job_results (job_id (w_job w)) (w_backend w));
             inversion H; subst; repeat split.
      * inversion H; subst. apply handle_kept_refl.
    + unfold jbind, sleep in H.
      eapply handle_kept_trans; [|eapply IH; [|exact H]].
      * repeat split.
      * exact Hc.
Qed.

(** With a cached COMPLETED snapshot, [get_results] returns or raises at
    once: it neither sleeps nor changes the runner, and it returns exactly
    when the results are in the handle's cache or in the runner. *)
Lemma get_results_successful_ends (n : nat) (w : World) (s : JobStatus) :
  _status (w_job w) = Some s ->
  is_successful s = true ->
  exists o w',
    get_results others (S n) w = (o, w') /\
    match o with
    | Ret r => completion_arg s w = Some r
    | Exn _ => completion_arg s w = None
    | Fuel => False
    end /\
    w_backend w' = w_backend w /\ w_sleeps w' = w_sleeps w /\
    w_events w' = w_events w.
Proof.
  intros Hc Hs. rewrite (get_results_cached others n w s Hc).
  rewrite (successful_is_terminal s Hs), Hs. cbn [negb].
  unfold completion_arg. rewrite Hs.
  destruct (_results (w_job w)) as [res|].
  - do 2 eexists. split; [reflexivity|]. repeat split.
  - destruct (get_job_results (job_id (w_job w)) (w_backend w)) as [res|e];
      do 2 eexists; (split; [reflexivity|]); repeat split.
Qed.

(** With a cached terminal snapshot, [_trigger_completion_callbacks]
    always returns, having called each completion callback once, in
    registration order, with the results of a COMPLETED job or [None]. *)
Lemma trigger_terminal (n : nat) (w : World) (s : JobStatus) :
  _status (w_job w) = Some s ->
  is_terminal s = true ->
  exists w',
    _trigger_completion_callbacks others (S n) w = (Ret tt, w') /\
    handle_kept w w' /\
    w_backend w' = w_backend w /\ w_sleeps w' = w_sleeps w /\
    w_events w' =
      w_events w ++ map (fun cb => CompletionCall cb (completion_arg s w))
                        (_completion_callbacks (w_job w)).
Proof.
  intros Hc Ht. rewrite (trigger_cached others n w s Hc).
  destruct (_completion_callbacks (w_job w)) as [|cb cbs] eqn:Ecb.
  - exists w. split; [reflexivity|]. split; [apply handle_kept_refl|].
    cbn. now rewrite app_nil_r.
  - destruct (is_successful s) eqn:Es.
    + destruct (get_results_successful_ends n w s Hc Es)
        as (o & w1 & Hrun & Harg & Hb & Hsl & Hev).
      pose proof (get_results_keeps_handle (S n) w s o w1 Hc Hrun) as Hk.
      rewrite Hrun.
      assert (Hcb1 : _completion_callbacks (w_job w1) = cb :: cbs).
      { destruct Hk as (_ & _ & Hk & _). congruence. }
      destruct Hk as (K1 & K2 & K3 & K4 & K5).
      destruct o as [res|e|]; [| |contradiction];
        (eexists; split; [reflexivity|]; unfold completion_called;
         split; [repeat split; assumption|];
         cbn; repeat split; try assumption;
         rewrite Hev, Hcb1, Harg; reflexivity).
    + eexists. split; [reflexivity|]. unfold completion_called.
      split; [repeat split|]. cbn. repeat split.
      unfold completion_arg. rewrite Es, Ecb. reflexivity.
Qed.

End CachedSnapshot.

(** ** The job handle: refreshing the snapshot *)

Section Refresh.

Variable others : nat -> LocalRunner -> LocalRunner.

Lemma completion_arg_refreshed (s : JobStatus) (w : World) :
  completion_arg s (refreshed s w) = completion_arg s w.
Proof. reflexivity. Qed.

Lemma get_status_known_job (n : nat) (w : World) (s : JobStatus) :
  get_job_status (job_id (w_job w)) (w_backend w) = Ok s ->
  exists w',
    get_status others (S (S n)) w = (Ret s, w') /\
    _status (w_job w') = Some s /\
    job_id (w_job w') = job_id (w_job w) /\
    _completion_callbacks (w_job w') = _completion_callbacks (w_job w) /\
    _status_callbacks (w_job w') = _status_callbacks (w_job w) /\
    w_backend w' = w_backend w /\
    w_sleeps w' = w_sleeps w /\
    w_polls w' = S (w_polls w) /\
    w_events w' = w_events w ++ refresh_calls s w.
Proof.
  intros Hs. rewrite get_status_rule, Hs. unfold refresh_calls.
  destruct (is_terminal s) eqn:Et; cbn [andb].
  - destruct (_completion_callbacks (w_job w)) as [|cb cbs] eqn:Ecb.
    + cbn. eexists. split; [reflexivity|]. cbn. rewrite Ecb.
      repeat split; try reflexivity. now rewrite app_nil_r.
    + cbn [List.length Nat.eqb negb].
      destruct (trigger_terminal others n (refreshed s w) s eq_refl Et)
        as (w' & Hrun & (K1 & K2 & K3 & K4 & K5) & Hb & Hsl & Hev).
      rewrite Hrun. exists w'. split; [reflexivity|].
      cbn in K1, K2, K3, K4, K5, Hb, Hsl, Hev.
      rewrite completion_arg_refreshed in Hev.
      repeat split; try assumption; try congruence.
      rewrite Hev, Ecb, <- app_assoc. reflexivity.
  - eexists. split; [reflexivity|]. cbn. repeat split.
    now rewrite app_nil_r.
Qed.

(** X11. [get_status] on a job the runner knows never raises and never
    waits: it returns the status the runner reports, caches it, counts one
    poll, leaves the runner as it is, and calls every status callback once
    with the new snapshot, in registration order, followed, when the
    snapshot is terminal, by every completion callback once, in
    registration order, with the results of a COMPLETED job (from the
    cache or the runner) and [None] otherwise. *)
Theorem get_status_refreshes (n : nat) (w : World) (s : JobStatus) :
  get_job_status (job_id (w_job w)) (w_backend w) = Ok s ->
  exists w',
    get_status others (S (S n)) w = (Ret s, w') /\
    _status (w_job w') = Some s /\
    job_id (w_job w') = job_id (w_job w) /\
    _completion_callbacks (w_job w') = _completion_callbacks (w_job w) /\
    _status_callbacks (w_job w') = _status_callbacks (w_job w) /\
    w_backend w' = w_backend w /\
    w_sleeps w' = w_sleeps w /\
    w_polls w' = S (w_polls w) /\
    w_events w' = w_events w ++ refresh_calls s w.
Proof.
  intros Hs. rewrite get_status_rule, Hs. unfold refresh_calls.
  destruct (is_terminal s) eqn:Et; cbn [andb].
  - destruct (_completion_callbacks (w_job w)) as [|cb cbs] eqn:Ecb.
    + cbn. eexists. split; [reflexivity|]. cbn. rewrite Ecb.
      repeat split; try reflexivity. now rewrite app_nil_r.
    + cbn [List.length Nat.eqb negb].
      destruct (trigger_terminal others n (refreshed s w) s eq_refl Et)
        as (w' & Hrun & (K1 & K2 & K3 & K4 & K5) & Hb & Hsl & Hev).
      rewrite Hrun. exists w'. split; [reflexivity|].
      cbn in K1, K2, K3, K4, K5, Hb, Hsl, Hev.
      rewrite completion_arg_refreshed in Hev.
      repeat split; try assumption; try congruence.
      rewrite Hev, Ecb, <- app_assoc. reflexivity.
  - eexists. split; [reflexivity|]. cbn. repeat split.
    now rewrite app_nil_r.
Qed.

(** X12. [get_status] on a handle whose job the runner does not know
    raises a [QETLError] that quotes the runner's "Job not found"; the
    handle keeps its snapshot, however stale, and no callback is called. *)
Theorem get_status_unknown_job (n : nat) (w : World) :
  dict_get (job_id (w_job w)) (jobs (w_backend w)) = None ->
  get_status others (S n) w =
  (Exn (Exc.QETLError_
          ("Failed to get job status: Job not found: " +++ job_id (w_job w))),
   mkWorld (w_job w) (w_backend w) (w_events w) (w_sleeps w) (S (w_polls w))).
Proof.
  intros H. rewrite get_status_rule. unfold get_job_status. now rewrite H.
Qed.

(** X13. Results are fetched once: on a handle with a COMPLETED snapshot
    and no cached results, [get_results] returns the results the runner
    holds and caches them; from then on it returns the cached results
    without consulting the runner, whatever the runner has become. *)
Theorem get_results_fetched_once (n : nat) (w : World) (s : JobStatus)
  (results : JobResults) :
  _status (w_job w) = Some s ->
  is_successful s = true ->
  _results (w_job w) = None ->
  get_job_results (job_id (w_job w)) (w_backend w) = Ok results ->
  get_results others (S n) w = (Ret results, cache_results results w) /\
  forall (m : nat) (r' : LocalRunner) (events : list Event) (sleeps polls : nat),
    get_results others (S m)
      (mkWorld (w_job (cache_results results w)) r' events sleeps polls) =
    (Ret results,
     mkWorld (w_job (cache_results results w)) r' events sleeps polls).
Proof.
  intros Hc Hs Hr Hb. split.
  - rewrite (get_results_cached others n w s Hc).
    rewrite (successful_is_terminal s Hs), Hs, Hr, Hb. reflexivity.
  - intros m r' ev sl po.
    rewrite (get_results_cached others m _ s) by exact Hc.
    rewrite (successful_is_terminal s Hs), Hs. reflexivity.
Qed.

End Refresh.

(** ** The job handle: waiting *)

Section WaitingProperties.

Variable others : nat -> LocalRunner -> LocalRunner.

Lemma trigger_keeps_handle (n : nat) (w : World) (s : JobStatus)
  (o : outcome unit) (w' : World) :
  _status (w_job w) = Some s ->
  _trigger_completion_callbacks others n w = (o, w') ->
  handle_kept w w'.
Proof.
  intros Hc H. destruct n as [|n].
  - inversion H; subst. apply handle_kept_refl.
  - rewrite (trigger_cached others n w s Hc) in H.
    destruct (_completion_callbacks (w_job w)) as [|cb cbs] eqn:Ecb.
    + inversion H; subst. apply handle_kept_refl.
    + destruct (is_successful s).
      * destruct (get_results others (S n) w) as [o1 w1] eqn:Hrun.
        pose proof (get_results_keeps_handle others (S n) w s o1 w1 Hc Hrun)
          as (K1 & K2 & K3 & K4 & K5).
        destruct o1; inversion H; subst; unfold completion_called;
          repeat split; assumption.
      * inversion H; subst. repeat split.
Qed.

Lemma status_unfold (n : nat) :
  status others (S n) = status_body (get_status others (S n)).
Proof. reflexivity. Qed.

(** A snapshot that the property [status] returns is the one cached in
    the handle afterwards. *)
Lemma status_returns_cached (n : nat) (w w' : World) (s : JobStatus) :
  status others (S n) w = (Ret s, w') -> _status (w_job w') = Some s.
Proof.
  rewrite status_unfold. unfold status_body, jbind, get_self.
  destruct (_status (w_job w)) as [s0|] eqn:Hc.
  - intros [= <- <-]. exact Hc.
  - rewrite get_status_rule.
    destruct (get_job_status (job_id (w_job w)) (w_backend w)) as [s1|e];
      [|discriminate].
    destruct (is_terminal s1
              && negb (Nat.eqb (List.length (_completion_callbacks (w_job w))) 0)).
    + destruct (_trigger_completion_callbacks others n (refreshed s1 w))
        as [o w2] eqn:Ht.
      pose proof (trigger_keeps_handle n (refreshed s1 w) s1 o w2 eq_refl Ht)
        as (_ & K2 & _).
      destruct o; intros [= <- <-]. exact K2.
    + intros [= <- <-]. reflexivity.
Qed.

Lemma wait_loop_returns_terminal (n : nat) (start_time : nat) (timeout : option Z) :
  forall (w w' : World) (st : JobStatus),
    wait_loop others n start_time timeout w = (Ret st, w') ->
    is_terminal st = true /\ _status (w_job w') = Some st.
Proof.
  induction n as [|n IH]; intros w w' st H; [discriminate|].
  cbn [wait_loop] in H. unfold jbind at 1 in H.
  destruct (status others (S n) w) as [[s| |] w1] eqn:Hs1; try discriminate.
  pose proof (status_returns_cached n w w1 s Hs1) as Hc1.
  destruct (is_terminal s) eqn:Et; cbn [negb] in H.
  - rewrite (status_cached others n w1 s Hc1) in H.
    inversion H; subst. now split.
  - unfold jbind in H.
    destruct (check_timeout start_time timeout w1) as [[u| |] w2]; try discriminate.
    destruct (sleep others w2) as [[u'| |] w3]; try discriminate.
    destruct (get_status others (S n) w3) as [[s3| |] w4]; try discriminate.
    exact (IH w4 w' st H).
Qed.

(** X14. Whatever the other threads do and whatever the timeout, a
    status that [wait_until_complete] returns is terminal, and it is the
    snapshot left in the handle's cache. *)
Theorem wait_returns_terminal (n : nat) (timeout : option Z) (w w' : World)
  (st : JobStatus) :
  wait_until_complete others n timeout w = (Ret st, w') ->
  is_terminal st = true /\ _status (w_job w') = Some st.
Proof.
  unfold wait_until_complete, jbind.
  destruct (time_time w) as [[start_time| |] w1]; try discriminate.
  apply wait_loop_returns_terminal.
Qed.

(** X15. Unlike [get_results], [wait_until_complete] refreshes the
    snapshot in its loop: with a cached snapshot that is not terminal and
    no timeout ([None] or [0]), if the runner reports a terminal status
    after the first sleep, the call returns that status after exactly one
    sleep and one poll. *)
Theorem wait_returns_after_refresh (n : nat) (timeout : option Z) (w : World)
  (s0 st : JobStatus) :
  _status (w_job w) = Some s0 ->
  is_terminal s0 = false ->
  timeout_set timeout = false ->
  get_job_status (job_id (w_job w))
    (others (w_sleeps w) (with_clock (S (clock (w_backend w))) (w_backend w)))
    = Ok st ->
  is_terminal st = true ->
  exists w',
    wait_until_complete others (S (S n)) timeout w = (Ret st, w') /\
    _status (w_job w') = Some st /\
    w_sleeps w' = S (w_sleeps w) /\
    w_polls w' = S (w_polls w).
Proof.
  intros Hc Hnt Hto Hst Ht.
  unfold wait_until_complete, jbind at 1, time_time, backend_call, datetime_now.
  cbn [fst snd].
  set (w1 := set_backend (with_clock (S (clock (w_backend w))) (w_backend w)) w).
  cbn [wait_loop]. unfold jbind at 1.
  rewrite (status_cached others (S n) w1 s0) by exact Hc.
  rewrite Hnt. cbn [negb]. unfold jbind at 1.
  assert (Hchk : check_timeout (clock (w_backend w)) timeout w1 = (Ret tt, w1)).
  { unfold check_timeout. destruct timeout as [t|]; [|reflexivity].
    cbn in Hto. now rewrite Hto. }
  rewrite Hchk. unfold jbind at 1, sleep at 1.
  set (w2 := mkWorld (w_job w1) (others (w_sleeps w1) (w_backend w1))
                     (w_events w1) (S (w_sleeps w1)) (w_polls w1)).
  unfold jbind at 1.
  destruct (get_status_known_job others n w2 st Hst)
    as (w3 & Hrun & Hc3 & _ & _ & _ & _ & Hsl & Hpo & _).
  rewrite Hrun. unfold jbind at 1.
  rewrite (status_cached others n w3 st Hc3). rewrite Ht. cbn [negb].
  rewrite (status_cached others n w3 st Hc3).
  exists w3. repeat split; assumption.
Qed.

End WaitingProperties.

(** ** The job handle: it only reads the runner *)

Lemma table_kept_refl (w : World) : table_kept w w.
Proof. repeat split. Qed.

Lemma table_kept_trans (w1 w2 w3 : World) :
  table_kept w1 w2 -> table_kept w2 w3 -> table_kept w1 w3.
Proof.
  intros (A1 & A2 & A3 & A4) (B1 & B2 & B3 & B4). repeat split; congruence.
Qed.

Ltac table_step :=
  first
    [ apply (preserves_jbind table_kept table_kept_trans)
    | apply (preserves_jtry table_kept table_kept_trans)
    | apply (preserves_if table_kept)
    | apply (preserves_jret table_kept table_kept_refl)
    | apply (preserves_jraise table_kept table_kept_refl)
    | apply (preserves_jdiverge table_kept table_kept_refl)
    | apply (preserves_get_self table_kept table_kept_refl)
    | apply (preserves_backend_read table_kept table_kept_refl)
    | assumption ];
  intros.

(** In what follows the other threads leave the runner as it is
    ([Scenario.quiet]). *)

Lemma sleep_keeps_table : preserves table_kept (sleep Scenario.quiet).
Proof. intros w o w' [= <- <-]. repeat split. Qed.

Lemma call_all_keeps_table (mk : Callback -> Event) (cbs : list Callback) :
  preserves table_kept (call_all mk cbs).
Proof. intros w o w' [= <- <-]. repeat split. Qed.

Lemma assign_results_keeps_table (v : option JobResults) :
  preserves table_kept (assign_results v).
Proof. intros w o w' [= <- <-]. repeat split. Qed.

Lemma assign_status_keeps_table (v : option JobStatus) :
  preserves table_kept (assign_status v).
Proof. intros w o w' [= <- <-]. repeat split. Qed.

Lemma poll_status_keeps_table : preserves table_kept poll_status.
Proof.
  intros w o w'. unfold poll_status, backend_read. cbn.
  destruct (get_job_status (job_id (w_job w)) (w_backend w));
    intros [= <- <-]; repeat split.
Qed.

Lemma time_time_keeps_table : preserves table_kept time_time.
Proof. intros w o w' [= <- <-]. repeat split. Qed.

Lemma get_status_body_keeps_table (trigger : JM unit) :
  preserves table_kept trigger ->
  preserves table_kept (get_status_body trigger).
Proof.
  intros Ht. unfold get_status_body.
  table_step. 2: table_step.
  table_step; [table_step|].
  table_step; [apply poll_status_keeps_table|].
  table_step; [apply assign_status_keeps_table|].
  table_step; [apply call_all_keeps_table|].
  table_step; [|table_step].
  table_step; [assumption | table_step].
Qed.

Lemma status_body_keeps_table (gs : JM JobStatus) :
  preserves table_kept gs -> preserves table_kept (status_body gs).
Proof.
  intros Hg. unfold status_body. table_step; [table_step|].
  destruct (_status a); [table_step | assumption].
Qed.

Lemma get_results_tail_keeps_table (st : JM JobStatus) :
  preserves table_kept st -> preserves table_kept (get_results_tail st).
Proof.
  intros Hs. unfold get_results_tail. table_step; [assumption|].
  table_step.
  - table_step; [assumption|]. table_step; [table_step|]. table_step.
  - table_step; [table_step|].
    destruct (_results a0); [table_step|].
    table_step.
    + table_step; [table_step | table_step].
    + table_step; [apply assign_results_keeps_table | table_step].
Qed.

Lemma get_results_body_keeps_table (st : JM JobStatus) (again : JM JobResults) :
  preserves table_kept st -> preserves table_kept again ->
  preserves table_kept (get_results_body Scenario.quiet st again).
Proof.
  intros Hs Ha. unfold get_results_body. table_step; [assumption|].
  table_step.
  - table_step; [apply sleep_keeps_table | assumption].
  - now apply get_results_tail_keeps_table.
Qed.

Lemma trigger_body_keeps_table (st : JM JobStatus) (gr : JM JobResults) :
  preserves table_kept st -> preserves table_kept gr ->
  preserves table_kept (trigger_body st gr).
Proof.
  intros Hs Hg. unfold trigger_body. table_step; [table_step|].
  destruct (_completion_callbacks a); [table_step|].
  table_step.
  - table_step; [assumption|].
    table_step.
    + table_step; [table_step; [assumption | table_step]|table_step].
    + table_step; [table_step | apply call_all_keeps_table].
  - table_step; [table_step | apply call_all_keeps_table].
Qed.

Lemma job_ops_keep_table (n : nat) :
  preserves table_kept (get_status Scenario.quiet n) /\
  preserves table_kept (status Scenario.quiet n) /\
  preserves table_kept (get_results Scenario.quiet n) /\
  preserves table_kept (_trigger_completion_callbacks Scenario.quiet n).
Proof.
  induction n as [|n (IH1 & IH2 & IH3 & IH4)].
  - split; [|split; [|split]];
      apply (preserves_jdiverge table_kept table_kept_refl).
  - assert (H1 : preserves table_kept (get_status Scenario.quiet (S n)))
      by (apply get_status_body_keeps_table; exact IH4).
    assert (H2 : preserves table_kept (status Scenario.quiet (S n)))
      by (apply status_body_keeps_table; exact H1).
    assert (H3 : preserves table_kept (get_results Scenario.quiet (S n)))
      by (apply get_results_body_keeps_table; [exact H2 | exact IH3]).
    assert (H4 : preserves table_kept (_trigger_completion_callbacks Scenario.quiet (S n)))
      by (apply trigger_body_keeps_table; [exact H2 | exact H3]).
    split; [|split; [|split]]; assumption.
Qed.

Lemma wait_loop_keeps_table (n : nat) (start_time : nat) (timeout : option Z) :
  preserves table_kept (wait_loop Scenario.quiet n start_time timeout).
Proof.
  induction n as [|n IH]; [apply (preserves_jdiverge table_kept table_kept_refl)|].
  destruct (job_ops_keep_table (S n)) as (H1 & H2 & _).
  cbn [wait_loop]. table_step; [assumption|].
  table_step; [|assumption].
  table_step.
  - unfold check_timeout. destruct timeout as [t|]; [|table_step].
    table_step; [|table_step].
    table_step; [apply time_time_keeps_table|].
    table_step; [|table_step].
    table_step; [table_step | table_step].
  - table_step; [apply sleep_keeps_table|].
    table_step; assumption.
Qed.

(** X16. No reading operation of a handle writes to the runner: however
    [get_status], [get_results], [on_completion], [get_logs] and
    [wait_until_complete] end (returning, raising, in particular on a
    timeout, or still waiting), the runner's table of jobs, its write log,
    [qetl_home] and [timeout] are as they were before the call. *)
Theorem handle_only_reads (n : nat) (w : World) (callback : Callback)
  (follow : bool) (timeout : option Z) :
  table_kept w (snd (get_status Scenario.quiet n w)) /\
  table_kept w (snd (get_results Scenario.quiet n w)) /\
  table_kept w (snd (on_completion Scenario.quiet n callback w)) /\
  table_kept w (snd (get_logs follow w)) /\
  table_kept w (snd (wait_until_complete Scenario.quiet n timeout w)).
Proof.
  destruct (job_ops_keep_table n) as (H1 & H2 & H3 & H4).
  assert (Hsnd : forall A (m : JM A), preserves table_kept m ->
                   table_kept w (snd (m w))).
  { intros A m Hm. destruct (m w) as [o w'] eqn:E. exact (Hm w o w' E). }
  split; [|split; [|split; [|split]]]; apply Hsnd.
  - exact H1.
  - exact H3.
  - unfold on_completion. table_step.
    + intros w0 o w' [= <- <-]. repeat split.
    + table_step; [assumption|]. table_step; [assumption | table_step].
  - unfold get_logs. table_step; [|table_step].
    table_step; [table_step | table_step].
  - unfold wait_until_complete. table_step; [apply time_time_keeps_table|].
    apply wait_loop_keeps_table.
Qed.


(** ** The job handle: instances *)

Lemma get_status_refreshes_witness :
  get_job_status
    (job_id (w_job (mkWorld (mkJob "J1" None None [1; 2] [7]) Scenario.runner_completed [] 0 0)))
    (w_backend (mkWorld (mkJob "J1" None None [1; 2] [7]) Scenario.runner_completed [] 0 0)) =
    Ok (mkJobStatus "J1" COMPLETED (Some 100%Z) "Job completed successfully" 0 13) /\
  exists w',
    get_status Scenario.quiet 2
      (mkWorld (mkJob "J1" None None [1; 2] [7]) Scenario.runner_completed [] 0 0)
    = (Ret (mkJobStatus "J1" COMPLETED (Some 100%Z) "Job completed successfully" 0 13),
       w') /\
    _status (w_job w') =
      Some (mkJobStatus "J1" COMPLETED (Some 100%Z) "Job completed successfully" 0 13) /\
    job_id (w_job w') =
      job_id (w_job (mkWorld (mkJob "J1" None None [1; 2] [7]) Scenario.runner_completed [] 0 0)) /\
    _completion_callbacks (w_job w') =
      _completion_callbacks (w_job (mkWorld (mkJob "J1" None None [1; 2] [7]) Scenario.runner_completed [] 0 0)) /\
    _status_callbacks (w_job w') =
      _status_callbacks (w_job (mkWorld (mkJob "J1" None None [1; 2] [7]) Scenario.runner_completed [] 0 0)) /\
    w_backend w' =
      w_backend (mkWorld (mkJob "J1" None None [1; 2] [7]) Scenario.runner_completed [] 0 0) /\
    w_sleeps w' =
      w_sleeps (mkWorld (mkJob "J1" None None [1; 2] [7]) Scenario.runner_completed [] 0 0) /\
    w_polls w' =
      S (w_polls (mkWorld (mkJob "J1" None None [1; 2] [7]) Scenario.runner_completed [] 0 0)) /\
    w_events w' =
      w_events (mkWorld (mkJob "J1" None None [1; 2] [7]) Scenario.runner_completed [] 0 0) ++
      refresh_calls
        (mkJobStatus "J1" COMPLETED (Some 100%Z) "Job completed successfully" 0 13)
        (mkWorld (mkJob "J1" None None [1; 2] [7]) Scenario.runner_completed [] 0 0).
Proof.
  split; [vm_compute; reflexivity|].
  apply (get_status_refreshes Scenario.quiet 0
           (mkWorld (mkJob "J1" None None [1; 2] [7]) Scenario.runner_completed [] 0 0)
           (mkJobStatus "J1" COMPLETED (Some 100%Z) "Job completed successfully" 0 13)).
  vm_compute; reflexivity.
Defined.

Lemma get_status_unknown_job_witness :
  dict_get "J404" (jobs Scenario.runner1) = None /\
  get_status Scenario.quiet 1
    (mkWorld (mkJob "J404"
                (Some (mkJobStatus "J404" RUNNING (Some 40%Z) "Executing pipeline" 0 5))
                None [1] [7])
             Scenario.runner1 [] 0 0) =
  (Exn (Exc.QETLError_ "Failed to get job status: Job not found: J404"),
   mkWorld (mkJob "J404"
              (Some (mkJobStatus "J404" RUNNING (Some 40%Z) "Executing pipeline" 0 5))
              None [1] [7])
           Scenario.runner1 [] 0 1).
Proof.
  split; [reflexivity|].
  apply (get_status_unknown_job Scenario.quiet 0
           (mkWorld (mkJob "J404"
                       (Some (mkJobStatus "J404" RUNNING (Some 40%Z)
                                          "Executing pipeline" 0 5))
                       None [1] [7])
                    Scenario.runner1 [] 0 0)).
  reflexivity.
Defined.

Lemma get_results_fetched_once_witness :
  _status (w_job (Scenario.handle Scenario.runner_completed)) =
    Some (mkJobStatus "J1" COMPLETED (Some 100%Z) "Job completed successfully" 0 13) /\
  is_successful
    (mkJobStatus "J1" COMPLETED (Some 100%Z) "Job completed successfully" 0 13) = true /\
  _results (w_job (Scenario.handle Scenario.runner_completed)) = None /\
  get_job_results "J1" Scenario.runner_completed =
    Ok (mkJobResults "J1" [("status", "completed")] 4 ["Processing complete"]
          [("return_code", "0");
           ("execution_command",
            "python3 /opt/qetl/yaml_pipeline_runner/main.py --config good.yaml --job-id J1")]) /\
  get_results Scenario.quiet 1 (Scenario.handle Scenario.runner_completed) =
    (Ret (mkJobResults "J1" [("status", "completed")] 4 ["Processing complete"]
            [("return_code", "0");
             ("execution_command",
              "python3 /opt/qetl/yaml_pipeline_runner/main.py --config good.yaml --job-id J1")]),
     cache_results
       (mkJobResults "J1" [("status", "completed")] 4 ["Processing complete"]
          [("return_code", "0");
           ("execution_command",
            "python3 /opt/qetl/yaml_pipeline_runner/main.py --config good.yaml --job-id J1")])
       (Scenario.handle Scenario.runner_completed)) /\
  forall (m : nat) (r' : LocalRunner) (events : list Event) (sleeps polls : nat),
    get_results Scenario.quiet (S m)
      (mkWorld
         (w_job (cache_results
            (mkJobResults "J1" [("status", "completed")] 4 ["Processing complete"]
               [("return_code", "0");
                ("execution_command",
                 "python3 /opt/qetl/yaml_pipeline_runner/main.py --config good.yaml --job-id J1")])
            (Scenario.handle Scenario.runner_completed)))
         r' events sleeps polls) =
    (Ret (mkJobResults "J1" [("status", "completed")] 4 ["Processing complete"]
            [("return_code", "0");
             ("execution_command",
              "python3 /opt/qetl/yaml_pipeline_runner/main.py --config good.yaml --job-id J1")]),
     mkWorld
       (w_job (cache_results
          (mkJobResults "J1" [("status", "completed")] 4 ["Processing complete"]
             [("return_code", "0");
              ("execution_command",
               "python3 /opt/qetl/yaml_pipeline_runner/main.py --config good.yaml --job-id J1")])
          (Scenario.handle Scenario.runner_completed)))
       r' events sleeps polls).
Proof.
  split; [vm_compute; reflexivity|]. split; [reflexivity|].
  split; [vm_compute; reflexivity|]. split; [vm_compute; reflexivity|].
  apply (get_results_fetched_once Scenario.quiet 0
           (Scenario.handle Scenario.runner_completed)
           (mkJobStatus "J1" COMPLETED (Some 100%Z) "Job completed successfully" 0 13));
    vm_compute; reflexivity.
Defined.

Lemma wait_returns_terminal_witness :
  wait_until_complete (fun _ _ => Scenario.runner_failed) 3 (Some 60%Z)
    (Scenario.handle Scenario.runner1) =
  (Ret (mkJobStatus "J1" FAILED None
          "[JOB_EXECUTION_ERROR] Failed to execute pipeline: [JOB_EXECUTION_ERROR] Pipeline execution failed: boom"
          0 11),
   snd (wait_until_complete (fun _ _ => Scenario.runner_failed) 3 (Some 60%Z)
          (Scenario.handle Scenario.runner1))) /\
  is_terminal
    (mkJobStatus "J1" FAILED None
       "[JOB_EXECUTION_ERROR] Failed to execute pipeline: [JOB_EXECUTION_ERROR] Pipeline execution failed: boom"
       0 11) = true /\
  _status (w_job (snd (wait_until_complete (fun _ _ => Scenario.runner_failed) 3
                         (Some 60%Z) (Scenario.handle Scenario.runner1)))) =
  Some (mkJobStatus "J1" FAILED None
          "[JOB_EXECUTION_ERROR] Failed to execute pipeline: [JOB_EXECUTION_ERROR] Pipeline execution failed: boom"
          0 11).
Proof.
  assert (H : wait_until_complete (fun _ _ => Scenario.runner_failed) 3 (Some 60%Z)
    (Scenario.handle Scenario.runner1) =
  (Ret (mkJobStatus "J1" FAILED None
          "[JOB_EXECUTION_ERROR] Failed to execute pipeline: [JOB_EXECUTION_ERROR] Pipeline execution failed: boom"
          0 11),
   snd (wait_until_complete (fun _ _ => Scenario.runner_failed) 3 (Some 60%Z)
          (Scenario.handle Scenario.runner1)))) by (vm_compute; reflexivity).
  split; [exact H|].
  exact (wait_returns_terminal (fun _ _ => Scenario.runner_failed) 3 (Some 60%Z)
           _ _ _ H).
Defined.

Lemma wait_returns_after_refresh_witness :
  _status (w_job (Scenario.handle Scenario.runner1)) =
    Some (mkJobStatus "J1" SUBMITTED (Some 0%Z) "Job submitted" 0 1) /\
  is_terminal (mkJobStatus "J1" SUBMITTED (Some 0%Z) "Job submitted" 0 1) = false /\
  timeout_set (Some 0%Z) = false /\
  get_job_status (job_id (w_job (Scenario.handle Scenario.runner1)))
    ((fun _ _ => Scenario.runner_completed)
       (w_sleeps (Scenario.handle Scenario.runner1))
       (with_clock (S (clock (w_backend (Scenario.handle Scenario.runner1))))
                   (w_backend (Scenario.handle Scenario.runner1))))
    = Ok (mkJobStatus "J1" COMPLETED (Some 100%Z) "Job completed successfully" 0 13) /\
  is_terminal
    (mkJobStatus "J1" COMPLETED (Some 100%Z) "Job completed successfully" 0 13) = true /\
  exists w',
    wait_until_complete (fun _ _ => Scenario.runner_completed) 2 (Some 0%Z)
      (Scenario.handle Scenario.runner1) =
    (Ret (mkJobStatus "J1" COMPLETED (Some 100%Z) "Job completed successfully" 0 13),
     w') /\
    _status (w_job w') =
      Some (mkJobStatus "J1" COMPLETED (Some 100%Z) "Job completed successfully" 0 13) /\
    w_sleeps w' = S (w_sleeps (Scenario.handle Scenario.runner1)) /\
    w_polls w' = S (w_polls (Scenario.handle Scenario.runner1)).
Proof.
  split; [vm_compute; reflexivity|]. split; [reflexivity|]. split; [reflexivity|].
  split; [vm_compute; reflexivity|]. split; [reflexivity|].
  apply (wait_returns_after_refresh (fun _ _ => Scenario.runner_completed) 0
           (Some 0%Z) (Scenario.handle Scenario.runner1)
           (mkJobStatus "J1" SUBMITTED (Some 0%Z) "Job submitted" 0 1)
           (mkJobStatus "J1" COMPLETED (Some 100%Z) "Job completed successfully" 0 13));
    vm_compute; reflexivity.
Defined.

(** ** The output parser *)

Lemma prefix_app (p s t : string) :
  String.prefix p s = true -> String.prefix p (s +++ t) = true.
Proof.
  revert p. induction s as [|a s IH]; intros [|b p]; cbn; try reflexivity;
    try discriminate.
  - now destruct t.
  - destruct (ascii_dec b a); [apply IH | discriminate].
Qed.

Lemma contains_empty_subject (p : string) :
  Str.contains p "" = true -> p = "".
Proof. destruct p; [reflexivity | cbn; discriminate]. Qed.

Lemma contains_app (p s t : string) :
  Str.contains p s = true -> Str.contains p (s +++ t) = true.
Proof.
  induction s as [|a s IH].
  - intros H. apply contains_empty_subject in H. subst p. now destruct t.
  - cbn [Str.contains]. destruct (String.prefix p (String a s)) eqn:E.
    + intros _. change (String a s +++ t) with (String a (s +++ t)).
      cbn [Str.contains].
      change (String a (s +++ t)) with (String a s +++ t).
      now rewrite (prefix_app _ _ t E).
    + intros H. change (String a s +++ t) with (String a (s +++ t)).
      cbn [Str.contains].
      destruct (String.prefix p (String a (s +++ t))); [reflexivity|].
      now apply IH.
Qed.

Lemma contains_cons (p : string) (a : ascii) (s : string) :
  Str.contains p s = true -> Str.contains p (String a s) = true.
Proof.
  intros H. cbn [Str.contains].
  destruct (String.prefix p (String a s)); [reflexivity | exact H].
Qed.

(** The first piece of a split is a prefix of the text. *)
Lemma split_char_head (c : ascii) (s : string) :
  exists hd tl t, Str.split_char c s = hd :: tl /\ s = hd +++ t.
Proof.
  induction s as [|a s (hd & tl & t & Hs & Ht)].
  - exists "", [], "". split; reflexivity.
  - cbn [Str.split_char]. destruct (Ascii.eqb a c).
    + exists "", (Str.split_char c s), (String a s). split; reflexivity.
    + rewrite Hs. exists (String a hd), tl, t. split; [reflexivity|].
      cbn. now rewrite <- Ht.
Qed.

(** What a line of the output contains, the output contains. *)
Lemma contains_line (p : string) (c : ascii) (s line : string) :
  In line (Str.split_char c s) ->
  Str.contains p line = true ->
  Str.contains p s = true.
Proof.
  revert line. induction s as [|a s IH]; intros line Hin Hc.
  - cbn in Hin. destruct Hin as [<-|[]]. exact Hc.
  - cbn [Str.split_char] in Hin. destruct (Ascii.eqb a c).
    + destruct Hin as [<-|Hin].
      * apply contains_empty_subject in Hc. subst p. reflexivity.
      * apply contains_cons. now apply (IH line).
    + destruct (split_char_head c s) as (hd & tl & t & Hs & Ht).
      rewrite Hs in Hin, IH. destruct Hin as [<-|Hin].
      * rewrite Ht. change (String a (hd +++ t)) with (String a hd +++ t).
        now apply contains_app.
      * apply contains_cons. apply (IH line); [now right | exact Hc].
Qed.

Lemma parse_lines_no_marker (lines : list string) (outputs : dict string) :
  (forall line, In line lines ->
     Str.contains "Processing complete" line = false /\
     Str.contains "Results saved to" line = false) ->
  parse_lines lines outputs = outputs.
Proof.
  revert outputs. induction lines as [|line rest IH]; intros outputs H.
  - reflexivity.
  - cbn [parse_lines].
    destruct (H line (or_introl eq_refl)) as [H1 H2]. rewrite H1, H2.
    apply IH. intros l Hl. apply H. now right.
Qed.

(** X17. When the output of the pipeline is not empty and mentions
    neither "Processing complete" nor "Results saved to",
    [_parse_pipeline_outputs] returns its default dictionary: status
    "completed", the fixed message, and the whole output under "stdout". *)
Theorem parse_outputs_default (stdout : string) :
  stdout <> "" ->
  Str.contains "Processing complete" stdout = false ->
  Str.contains "Results saved to" stdout = false ->
  _parse_pipeline_outputs stdout = default_outputs stdout.
Proof.
  intros Hne H1 H2. unfold _parse_pipeline_outputs.
  destruct (String.eqb stdout "") eqn:E; [apply String.eqb_eq in E; congruence|].
  rewrite parse_lines_no_marker; [reflexivity|].
  intros line Hin. split.
  - destruct (Str.contains "Processing complete" line) eqn:Ec; [|reflexivity].
    now rewrite (contains_line _ _ _ _ Hin Ec) in H1.
  - destruct (Str.contains "Results saved to" line) eqn:Ec; [|reflexivity].
    now rewrite (contains_line _ _ _ _ Hin Ec) in H2.
Qed.

Lemma parse_outputs_default_witness :
  "all good" <> "" /\
  Str.contains "Processing complete" "all good" = false /\
  Str.contains "Results saved to" "all good" = false /\
  _parse_pipeline_outputs "all good" = default_outputs "all good".
Proof.
  split; [discriminate|]. split; [reflexivity|]. split; [reflexivity|].
  apply (parse_outputs_default "all good"); [discriminate | reflexivity | reflexivity].
Defined.

(** The entries that the loop of the parser can leave in [outputs]. *)
Lemma parse_lines_entries (lines : list string) :
  forall outputs : dict string,
    (forall k v, dict_get k outputs = Some v ->
       (k = "status" /\ v = "completed") \/ k = "result_path") ->
    forall k v, dict_get k (parse_lines lines outputs) = Some v ->
      (k = "status" /\ v = "completed") \/ k = "result_path".
Proof.
  induction lines as [|line rest IH]; intros outputs Hinv; [exact Hinv|].
  cbn [parse_lines]. apply IH.
  assert (Hset : forall key val,
            ((key = "status" /\ val = "completed") \/ key = "result_path") ->
            forall k v, dict_get k (dict_set key val outputs) = Some v ->
              (k = "status" /\ v = "completed") \/ k = "result_path").
  { intros key val Hkv k v Hg. destruct (String.eqb key k) eqn:E.
    - apply String.eqb_eq in E. subst k. rewrite dict_get_set_same in Hg.
      inversion Hg; subst. exact Hkv.
    - apply String.eqb_neq in E. rewrite dict_get_set_other in Hg by exact E.
      now apply Hinv. }
  destruct (Str.contains "Processing complete" line).
  - apply Hset. left. now split.
  - destruct (Str.contains "Results saved to" line); [|exact Hinv].
    destruct (Str.split_second "Results saved to" line); [|exact Hinv].
    apply Hset. now right.
Qed.

(** X18. The shape of the outputs: they are empty exactly when the output
    of the pipeline is empty; an entry "status" is always "completed";
    "message" and "stdout" hold the fixed message and the whole output;
    the only other key is "result_path". *)
Theorem parse_outputs_shape (stdout : string) :
  (_parse_pipeline_outputs stdout = [] <-> stdout = "") /\
  forall k v, dict_get k (_parse_pipeline_outputs stdout) = Some v ->
    (k = "status" /\ v = "completed") \/
    k = "result_path" \/
    (k = "message" /\ v = "Pipeline execution completed") \/
    (k = "stdout" /\ v = stdout).
Proof.
  unfold _parse_pipeline_outputs. split.
  - split.
    + destruct (String.eqb stdout "") eqn:E; [now apply String.eqb_eq in E|].
      destruct (parse_lines (Str.split_char newline stdout) []); discriminate.
    + intros ->. reflexivity.
  - intros k v. destruct (String.eqb stdout "") eqn:E; [discriminate|].
    destruct (parse_lines (Str.split_char newline stdout) []) as [|item rest] eqn:Ep.
    + cbn [dict_get].
      destruct (String.eqb k "status") eqn:E1.
      { apply String.eqb_eq in E1. intros [= <-]. left. now split. }
      destruct (String.eqb k "message") eqn:E2.
      { apply String.eqb_eq in E2. intros [= <-]. right; right; left. now split. }
      destruct (String.eqb k "stdout") eqn:E3; [|discriminate].
      apply String.eqb_eq in E3. intros [= <-]. right; right; right. now split.
    + intros Hg. rewrite <- Ep in Hg.
      assert (Hempty : forall k0 v0, dict_get k0 (@nil (string * string)) = Some v0 ->
                (k0 = "status" /\ v0 = "completed") \/ k0 = "result_path")
        by (intros k0 v0 H0; discriminate H0).
      destruct (parse_lines_entries (Str.split_char newline stdout) []
                  Hempty k v Hg) as [H|H].
      * now left.
      * right; now left.
Qed.

(** ** The job builder *)

Module BuilderFacts.
Import Builder.

Lemma mem_In (x : string) (l : list string) : mem x l = true <-> In x l.
Proof.
  unfold mem. rewrite existsb_exists. split.
  - intros (y & Hy & E). apply String.eqb_eq in E. now subst.
  - intros H. exists x. split; [exact H | apply String.eqb_refl].
Qed.

Lemma dependency_errors_nil (names deps : list string) :
  dependency_errors names deps = [] <-> (forall d, In d deps -> In d names).
Proof.
  unfold dependency_errors. induction deps as [|d deps IH]; cbn.
  - split; [intros _ d [] | reflexivity].
  - destruct (mem d names) eqn:E; cbn.
    + rewrite IH. apply mem_In in E. split.
      * intros H x [<-|Hx]; [exact E | now apply H].
      * intros H x Hx. apply H. now right.
    + split; [discriminate|].
      intros H. assert (Hd : In d names) by (apply H; now left).
      apply mem_In in Hd. congruence.
Qed.

Lemma flat_map_nil {A B} (f : A -> list B) (l : list A) :
  flat_map f l = [] <-> (forall x, In x l -> f x = []).
Proof.
  induction l as [|a l IH]; cbn.
  - split; [intros _ x [] | reflexivity].
  - split.
    + intros H. apply app_eq_nil in H. destruct H as [Ha Hl].
      intros x [<-|Hx]; [exact Ha | now apply IH].
    + intros H. rewrite (H a (or_introl eq_refl)). cbn. apply IH.
      intros x Hx. apply H. now right.
Qed.

(** X19. What the builder's [validate] accepts: it returns [True] exactly
    when the pipeline name is not empty, there is at least one input
    source and one transformation, and every dependency, whether given to
    the transformation or inside its [config], is the name of some
    transformation of the pipeline, in whatever position (a later one, or
    the transformation itself); otherwise it raises a [ValidationError]. *)
Theorem validate_accepts (h : Heap) (b : JobBuilder) :
  (validate h b = Ok true <->
   (pipeline_name b <> "" /\
    deref (h_sources h) (input_sources b) <> [] /\
    deref (h_transformations h) (transformations b) <> [] /\
    forall t d,
      In t (deref (h_transformations h) (transformations b)) ->
      In d (own_dependencies t ++ config_dependencies t) ->
      In d (transformation_names
              (deref (h_transformations h) (transformations b))))) /\
  (validate h b <> Ok true ->
   validate h b =
   Raise (Exc.ValidationError_ (Str.join "; " (validation_errors h b)) [])).
Proof.
  assert (Hv : validate h b = Ok true <-> validation_errors h b = []).
  { unfold validate. destruct (validation_errors h b); split; try discriminate;
      reflexivity. }
  split.
  - rewrite Hv. unfold validation_errors.
    remember (deref (h_transformations h) (transformations b)) as ts eqn:Ets0.
    remember (transformation_names ts) as names eqn:Enames.
    split.
    + intros H. apply app_eq_nil in H. destruct H as [H1 H].
      apply app_eq_nil in H. destruct H as [H2 H].
      apply app_eq_nil in H. destruct H as [H3 H4].
      split. { destruct (String.eqb (pipeline_name b) "") eqn:E; [discriminate|].
               now apply String.eqb_neq in E. }
      split. { destruct (deref (h_sources h) (input_sources b)); [discriminate|].
               discriminate. }
      split. { destruct ts; [discriminate H3 | discriminate]. }
      intros t d Ht Hd. rewrite flat_map_nil in H4. specialize (H4 t Ht).
      apply app_eq_nil in H4. destruct H4 as [Ho Hc].
      rewrite dependency_errors_nil in Ho, Hc.
      apply in_app_or in Hd. destruct Hd; [now apply Ho | now apply Hc].
    + intros (Hn & Hs & Ht & Hd).
      apply String.eqb_neq in Hn. rewrite Hn.
      destruct (deref (h_sources h) (input_sources b)); [congruence|].
      assert (E3 : match ts with
                   | [] => ["At least one transformation is required"]
                   | _ :: _ => []
                   end = []) by (destruct ts; [congruence | reflexivity]).
      rewrite E3. cbn [app].
      apply flat_map_nil. intros t Hin.
      assert (Ho : dependency_errors names (own_dependencies t) = []).
      { apply dependency_errors_nil. intros d Hdd. apply (Hd t d Hin).
        apply in_or_app. now left. }
      assert (Hc : dependency_errors names (config_dependencies t) = []).
      { apply dependency_errors_nil. intros d Hdd. apply (Hd t d Hin).
        apply in_or_app. now right. }
      now rewrite Ho, Hc.
  - unfold validate. destruct (validation_errors h b); [congruence | reflexivity].
Qed.

Lemma nth_append_new {A} (cells : list (list A)) :
  deref (cells ++ [[]]) (List.length cells) = [].
Proof.
  unfold deref. rewrite app_nth2 by lia. now rewrite Nat.sub_diag.
Qed.

Lemma deref_append_same {A} (cells : list (list A)) (ref : nat) (x : A) :
  ref < List.length cells ->
  deref (append_at cells ref x) ref = deref cells ref ++ [x].
Proof.
  unfold deref. revert ref. induction cells as [|l cells IH]; intros ref H.
  - cbn in H. lia.
  - destruct ref as [|ref]; cbn; [reflexivity|]. apply IH. cbn in H. lia.
Qed.

Lemma deref_append_other {A} (cells : list (list A)) (ref ref' : nat) (x : A) :
  ref' <> ref ->
  deref (append_at cells ref x) ref' = deref cells ref'.
Proof.
  unfold deref. revert ref ref'.
  induction cells as [|l cells IH]; intros ref ref' H.
  - reflexivity.
  - destruct ref as [|ref], ref' as [|ref']; cbn; try reflexivity; try congruence.
    apply IH. congruence.
Qed.

Lemma append_at_length {A} (cells : list (list A)) (ref : nat) (x : A) :
  List.length (append_at cells ref x) = List.length cells.
Proof.
  revert ref. induction cells as [|l cells IH]; intros [|ref]; cbn; try reflexivity.
  now rewrite IH.
Qed.

(** X20. [clone()] is shallow: a source, a transformation or an output
    added through the clone is appended to the very lists the original
    builder uses, so the original's configuration shows it too; a builder
    made anew shares no list with an existing one. *)
Theorem clone_shares_lists (h : Heap) (b : JobBuilder)
  (name path kind component : string) (config : option Config)
  (tname : option string) (deps : option (list string)) :
  well_formed h b ->
  cv_input_sources (get_config (add_input_source name path kind config h (clone b)) b)
    = cv_input_sources (get_config h b)
      ++ [mkSource name path
                   (if String.eqb kind "auto" then None else Some kind)
                   (nonempty_list config)] /\
  cv_transformations
    (get_config (add_transformation component config tname deps h (clone b)) b)
    = cv_transformations (get_config h b)
      ++ [mkTransformation component (nonempty_str tname) (nonempty_list config)
                           (nonempty_list deps)] /\
  cv_outputs (get_config (add_output name path kind config h (clone b)) b)
    = cv_outputs (get_config h b)
      ++ [mkOutput name path kind (nonempty_list config)] /\
  get_config
    (add_output name path kind config
       (add_transformation component config tname deps
          (add_input_source name path kind config (fst (init h)) (snd (init h)))
          (snd (init h)))
       (snd (init h)))
    b
  = get_config h b.
Proof.
  intros (H1 & H2 & H3).
  unfold get_config, clone, add_input_source, add_transformation, add_output, init.
  cbn [fst snd h_sources h_transformations h_outputs input_sources transformations
       outputs cv_input_sources cv_transformations cv_outputs pipeline_name version
       description _execution_params].
  rewrite !deref_append_same by assumption.
  split; [reflexivity|]. split; [reflexivity|]. split; [reflexivity|].
  rewrite !deref_append_other by lia.
  unfold deref. rewrite !app_nth1 by assumption. reflexivity.
Qed.

Lemma clone_shares_lists_witness :
  well_formed (fst (init empty_heap)) (snd (init empty_heap)) /\
  cv_input_sources
    (get_config (add_input_source "in" "/data.csv" "csv" None (fst (init empty_heap))
                   (clone (snd (init empty_heap))))
                (snd (init empty_heap)))
    = cv_input_sources (get_config (fst (init empty_heap)) (snd (init empty_heap)))
      ++ [mkSource "in" "/data.csv"
                   (if String.eqb "csv" "auto" then None else Some "csv")
                   (nonempty_list None)] /\
  cv_transformations
    (get_config (add_transformation "wave_encoder" None (Some "enc") None
                   (fst (init empty_heap)) (clone (snd (init empty_heap))))
                (snd (init empty_heap)))
    = cv_transformations (get_config (fst (init empty_heap)) (snd (init empty_heap)))
      ++ [mkTransformation "wave_encoder" (nonempty_str (Some "enc"))
                           (nonempty_list None) (nonempty_list None)] /\
  cv_outputs
    (get_config (add_output "in" "/data.csv" "csv" None (fst (init empty_heap))
                   (clone (snd (init empty_heap))))
                (snd (init empty_heap)))
    = cv_outputs (get_config (fst (init empty_heap)) (snd (init empty_heap)))
      ++ [mkOutput "in" "/data.csv" "csv" (nonempty_list None)] /\
  get_config
    (add_output "in" "/data.csv" "csv" None
       (add_transformation "wave_encoder" None (Some "enc") None
          (add_input_source "in" "/data.csv" "csv" None
             (fst (init (fst (init empty_heap))))
             (snd (init (fst (init empty_heap)))))
          (snd (init (fst (init empty_heap)))))
       (snd (init (fst (init empty_heap)))))
    (snd (init empty_heap))
  = get_config (fst (init empty_heap)) (snd (init empty_heap)).
Proof.
  assert (Hwf : well_formed (fst (init empty_heap)) (snd (init empty_heap)))
    by (unfold well_formed; cbn; lia).
  split; [exact Hwf|].
  exact (clone_shares_lists (fst (init empty_heap)) (snd (init empty_heap))
           "in" "/data.csv" "csv" "wave_encoder" None (Some "enc") None Hwf).
Defined.

Lemma config_keys_complete (config : ConfigView) :
  missing_in (config_keys config) = [].
Proof.
  unfold config_keys.
  destruct (cv_description config), (cv_execution config); reflexivity.
Qed.

Lemma read_written (path : string) (doc : Yaml) (env : Env) :
  read_yaml (write_file path (Loads doc) env) path = FileYaml doc.
Proof. cbn. now rewrite String.eqb_refl. Qed.

Lemma read_unlinked (path : string) (env : Env) :
  read_yaml (unlink path env) path = FileMissing.
Proof. cbn. now rewrite String.eqb_refl. Qed.

(** The client accepts every file that holds a mapping with the three
    required keys, whatever is under them. *)
Lemma client_accepts_mapping (keys : list YamlItem) (path id : string)
  (kwargs : dict string) (env : Env) (r : LocalRunner) :
  read_yaml env path = FileYaml (YMap keys) ->
  missing_in keys = [] ->
  exists sub r1,
    client_submit_job env path id kwargs r = (Ok sub, r1) /\
    sub_thread sub = id /\
    history r1 = history r ++ [(id, SUBMITTED, Some (Some 0%Z))] /\
    dict_get id (jobs r1) =
      Some (mkJobData id path SUBMITTED (clock r) (S (clock r)) (Some 0%Z)
                      "Job submitted" kwargs None None).
Proof.
  intros Hr Hm.
  pose proof (validate_yaml_on_mapping env path keys Hr) as Hv.
  rewrite Hm in Hv.
  unfold client_submit_job, path_exists, try_except, submit_job.
  rewrite Hr, Hv. cbn [negb].
  unfold bind, datetime_now, ret, with_jobs, with_clock, record_write. cbn.
  do 2 eexists. split; [reflexivity|]. cbn.
  rewrite dict_get_set_same. repeat split.
Qed.

(** X21. [submit()] removes the temporary YAML file as soon as the client
    has returned, but the job it has just started reads that file in its
    background thread.  For a builder that passes [validate] and whose
    dumped configuration [safe_load] reads back: when the thread opens the
    file only after [submit()] has returned, the job, accepted and
    recorded as SUBMITTED, ends FAILED right after VALIDATING with a
    [FileNotFoundError], and the executor is never started. *)
Theorem submit_deletes_file_before_thread (dump : Dumper) (h : Heap)
  (b : JobBuilder) (temp_path id : string) (env : Env) (r : LocalRunner) :
  validate h b = Ok true ->
  round_trips dump h b ->
  exists sub env' r1 r2 jd2 timestamp,
    submit dump h b temp_path id env r = (Ok sub, env', r1) /\
    sub_thread sub = id /\
    read_yaml env' temp_path = FileMissing /\
    _execute_job env' id r1 = (Ok tt, r2) /\
    history r2 =
      history r ++
      [(id, SUBMITTED, Some (Some 0%Z)); (id, VALIDATING, Some (Some 10%Z));
       (id, FAILED, Some None)] /\
    dict_get id (jobs r2) = Some jd2 /\
    jd_status jd2 = FAILED /\
    jd_results jd2 = None /\
    jd_error jd2 =
      Some (mkErrorInfo "FileNotFoundError"
              ("[Errno 2] No such file or directory: "
               +++ path_repr env temp_path)
              timestamp).
Proof.
  intros Hv Hd. unfold submit. rewrite Hv, Hd.
  set (text := Loads (YMap (config_keys (get_config h b)))).
  destruct (client_accepts_mapping (config_keys (get_config h b)) temp_path id
              (submit_kwargs b) (write_file temp_path text env) r)
    as (sub & r1 & Hsub & Hth & Hh & Hj).
  { apply read_written. }
  { apply config_keys_complete. }
  rewrite Hsub.
  destruct (thread_stops_on_missing_file
              (unlink temp_path (write_file temp_path text env)) r1 id _ Hj)
    as (r2 & jd2 & ts & Hrun & Hh2 & Hj2 & Hs2 & _ & Hr2 & He2).
  { apply read_unlinked. }
  exists sub, (unlink temp_path (write_file temp_path text env)), r1, r2, jd2, ts.
  split; [reflexivity|]. split; [exact Hth|]. split; [apply read_unlinked|].
  split; [exact Hrun|].
  split. { rewrite Hh2, Hh. unfold writes_load_failure. now rewrite <- app_assoc. }
  repeat split; assumption.
Qed.

Lemma submit_deletes_file_before_thread_witness :
  validate demo_heap demo = Ok true /\
  round_trips plain_dumper demo_heap demo /\
  exists sub env' r1 r2 jd2 timestamp,
    submit plain_dumper demo_heap demo "/tmp/tmpq1.yaml" "J7" Scenario.env_ok
           Scenario.runner0
      = (Ok sub, env', r1) /\
    sub_thread sub = "J7" /\
    read_yaml env' "/tmp/tmpq1.yaml" = FileMissing /\
    _execute_job env' "J7" r1 = (Ok tt, r2) /\
    history r2 =
      history Scenario.runner0 ++
      [("J7", SUBMITTED, Some (Some 0%Z)); ("J7", VALIDATING, Some (Some 10%Z));
       ("J7", FAILED, Some None)] /\
    dict_get "J7" (jobs r2) = Some jd2 /\
    jd_status jd2 = FAILED /\
    jd_results jd2 = None /\
    jd_error jd2 =
      Some (mkErrorInfo "FileNotFoundError"
              ("[Errno 2] No such file or directory: "
               +++ path_repr Scenario.env_ok "/tmp/tmpq1.yaml")
              timestamp).
Proof.
  split; [vm_compute; reflexivity|].
  split; [reflexivity|].
  apply (submit_deletes_file_before_thread plain_dumper demo_heap demo
           "/tmp/tmpq1.yaml" "J7" Scenario.env_ok Scenario.runner0).
  - vm_compute; reflexivity.
  - reflexivity.
Defined.

(** A builder with no transformation has an error to report. *)
Lemma no_transformation_rejected (h : Heap) (b : JobBuilder) :
  deref (h_transformations h) (transformations b) = [] ->
  exists errors,
    validate h b = Raise (Exc.ValidationError_ (Str.join "; " errors) []) /\
    In "At least one transformation is required" errors.
Proof.
  intros Ht. unfold validate, validation_errors. rewrite Ht. cbn [flat_map].
  rewrite app_nil_r.
  destruct (String.eqb (pipeline_name b) ""),
           (deref (h_sources h) (input_sources b));
    cbn [app]; eexists; (split; [reflexivity|]); cbn [In]; tauto.
Qed.

(** X22. The runner's validation is weaker than the builder's.  A builder
    with no transformation (a builder just made, say) is rejected by its
    own [validate]; yet, when its dumped configuration is one [safe_load]
    reads back, the file [save_yaml] writes for it is accepted by
    [QETLClient.submit_job], which records a SUBMITTED job for it: the
    runner looks for the three keys and not at what is under them. *)
Theorem runner_accepts_what_builder_rejects (dump : Dumper) (h : Heap)
  (b : JobBuilder) (path id : string) (kwargs : dict string) (env : Env)
  (r : LocalRunner) :
  deref (h_transformations h) (transformations b) = [] ->
  round_trips dump h b ->
  (exists errors,
     validate h b = Raise (Exc.ValidationError_ (Str.join "; " errors) []) /\
     In "At least one transformation is required" errors) /\
  exists env1 sub r1,
    save_yaml dump path h b env = (Ok tt, env1) /\
    client_submit_job env1 path id kwargs r = (Ok sub, r1) /\
    sub_thread sub = id /\
    get_job_status id r1 =
      Ok (mkJobStatus id SUBMITTED (Some 0%Z) "Job submitted" (clock r) (S (clock r))).
Proof.
  intros Ht Hd. split; [now apply no_transformation_rejected|].
  unfold save_yaml. rewrite Hd.
  set (text := Loads (YMap (config_keys (get_config h b)))).
  destruct (client_accepts_mapping (config_keys (get_config h b)) path id kwargs
              (write_file path text env) r)
    as (sub & r1 & Hsub & Hth & _ & Hj).
  { apply read_written. }
  { apply config_keys_complete. }
  exists (write_file path text env), sub, r1.
  split; [reflexivity|]. split; [exact Hsub|]. split; [exact Hth|].
  unfold get_job_status. now rewrite Hj.
Qed.

Lemma runner_accepts_what_builder_rejects_witness :
  deref (h_transformations (fst (init empty_heap)))
        (transformations (snd (init empty_heap))) = [] /\
  round_trips plain_dumper (fst (init empty_heap)) (snd (init empty_heap)) /\
  (exists errors,
     validate (fst (init empty_heap)) (snd (init empty_heap)) =
       Raise (Exc.ValidationError_ (Str.join "; " errors) []) /\
     In "At least one transformation is required" errors) /\
  exists env1 sub r1,
    save_yaml plain_dumper "job.yaml" (fst (init empty_heap))
              (snd (init empty_heap)) Scenario.env_ok = (Ok tt, env1) /\
    client_submit_job env1 "job.yaml" "J8" [] Scenario.runner0 = (Ok sub, r1) /\
    sub_thread sub = "J8" /\
    get_job_status "J8" r1 =
      Ok (mkJobStatus "J8" SUBMITTED (Some 0%Z) "Job submitted"
            (clock Scenario.runner0) (S (clock Scenario.runner0))).
Proof.
  split; [reflexivity|]. split; [reflexivity|].
  apply (runner_accepts_what_builder_rejects plain_dumper
           (fst (init empty_heap)) (snd (init empty_heap)) "job.yaml" "J8" []
           Scenario.env_ok Scenario.runner0); reflexivity.
Defined.

End BuilderFacts.

(** ** The command line *)

Lemma with_job_unknown (r : LocalRunner) (job_id : string)
  (body : Job -> JM Cli.Ended) :
  dict_get job_id (jobs r) = None ->
  Cli.with_job (Ok r) job_id body = Cli.job_not_found job_id.
Proof.
  intros H. unfold Cli.with_job, client_get_job, get_job, get_job_status.
  rewrite H. reflexivity.
Qed.

Lemma with_job_no_client (e : Exc.t) (job_id : string)
  (body : Job -> JM Cli.Ended) :
  Cli.with_job (Raise e) job_id body = Cli.except_QETLError e.
Proof. reflexivity. Qed.

Lemma except_QETLError_not_zero (e : Exc.t) :
  Cli.succeeded (Cli.except_QETLError e) = false.
Proof.
  unfold Cli.except_QETLError.
  destruct (Exc.isinstance e Exc.QETLError); reflexivity.
Qed.

(** X23. Every command starts by building a client of its own, and the
    job table of a new local runner is empty; in cloud mode the command
    line never passes an instance id.  So [status], [results], [cancel]
    and [logs] cannot succeed from the command line, whatever job id they
    are given: in cloud mode they print the [AuthenticationError] and
    return 1; in local mode, on a complete installation, all four print
    "Failed to get job ...: Job not found: ..." and return 1; otherwise
    they end with what the construction of the runner raised.  None of
    them returns 0. *)
Theorem job_commands_fail_in_new_process (p : Cli.Process) (mode : Cli.Mode)
  (api_key : option string) (job_id : string) (json follow : bool)
  (output_file : option string) :
  let client := Cli.QETLClient_init p mode api_key in
  let expected :=
    match mode with
    | Cli.mode_cloud =>
        Cli.Returned 1 []
          [if Cli.falsy api_key then
             "Error: [AUTH_ERROR] API key is required for cloud mode"
           else "Error: [AUTH_ERROR] Instance ID is required for cloud mode"]
    | Cli.mode_local =>
        match Cli.home p, Cli.installation p with
        | Raise e, _ => Cli.except_QETLError e
        | Ok _, Raise e => Cli.except_QETLError e
        | Ok _, Ok _ => Cli.job_not_found job_id
        end
    end in
  Cli.cmd_status p client job_id json = expected /\
  Cli.cmd_results p client job_id output_file = expected /\
  Cli.cmd_cancel client job_id = expected /\
  Cli.cmd_logs client job_id follow = expected /\
  Cli.succeeded expected = false.
Proof.
  intros client expected. subst client expected.
  unfold Cli.cmd_status, Cli.cmd_results, Cli.cmd_cancel, Cli.cmd_logs.
  destruct mode; cbn [Cli.QETLClient_init].
  - unfold Cli.LocalRunner_init.
    destruct (Cli.home p) as [h|e].
    + destruct (Cli.installation p) as [u|e].
      * rewrite !with_job_unknown by reflexivity.
        repeat split.
      * rewrite !with_job_no_client.
        repeat split; apply except_QETLError_not_zero.
    + rewrite !with_job_no_client.
      repeat split; apply except_QETLError_not_zero.
  - destruct (Cli.falsy api_key); rewrite !with_job_no_client;
      repeat split.
Qed.

(** X24. [cancel] cannot succeed on any client either, whatever its job
    table holds: for a job the runner knows, [cancel_job] reads
    [is_terminal] on the stored [JobState], and the [AttributeError]
    reaches the command wrapped in a [QETLError]; for any other id the
    look-up fails.  The command prints the error and returns 1. *)
Theorem cancel_command_never_succeeds (r : LocalRunner) (id : string) :
  Cli.cmd_cancel (Ok r) id =
  match dict_get id (jobs r) with
  | Some _ =>
      Cli.Returned 1 []
        ["Error: Failed to cancel job: 'JobState' object has no attribute 'is_terminal'"]
  | None => Cli.job_not_found id
  end.
Proof.
  unfold Cli.cmd_cancel.
  destruct (dict_get id (jobs r)) as [jd|] eqn:Hj.
  - unfold Cli.with_job, client_get_job, get_job, get_job_status.
    rewrite Hj. unfold Cli.ended, Cli.handle_of, Job_init.
    unfold cancel, jtry, jbind, get_self, backend_call, cancel_job.
    cbn [w_job w_backend job_id]. rewrite Hj. reflexivity.
  - now apply with_job_unknown.
Qed.

(** The [status] command does succeed on a client whose runner knows the
    job: it prints the snapshot [client.get_job] cached, without another
    look-up. *)
Lemma status_command_known_job (p : Cli.Process) (r : LocalRunner)
  (id : string) (jd : JobData) (json : bool) (n : nat) :
  Cli.fuel p = S n ->
  dict_get id (jobs r) = Some jd ->
  Cli.cmd_status p (Ok r) id json =
  Cli.Returned 0
    (Cli.show_status p (Job_init id (Some (status_of id jd))) (status_of id jd) json)
    [].
Proof.
  intros Hf Hj. unfold Cli.cmd_status, Cli.with_job, client_get_job, get_job,
    get_job_status. rewrite Hj, Hf. reflexivity.
Qed.

(** ** The executor *)

(** X25. [_run_yaml_pipeline] returns only when the executor exits with
    status 0, and then with the outputs parsed from its standard output;
    whatever else happens (a non-zero exit status, the timeout, or an
    exception of [subprocess.run] itself) leaves it as a
    [JobExecutionError].  In every case the job table and the status
    history are as they were. *)
Theorem run_yaml_pipeline_outcomes (env : Env) (yaml_path id : string)
  (r : LocalRunner) :
  jobs (snd (_run_yaml_pipeline env yaml_path id r)) = jobs r /\
  history (snd (_run_yaml_pipeline env yaml_path id r)) = history r /\
  match subprocess_run env (pipeline_cmd env r yaml_path id) with
  | ProcDone 0 stdout _ =>
      exists pr,
        fst (_run_yaml_pipeline env yaml_path id r) = Ok pr /\
        pr_outputs pr = _parse_pipeline_outputs stdout /\
        dict_get "return_code" (pr_metrics pr) = Some "0"
  | _ =>
      exists msg,
        fst (_run_yaml_pipeline env yaml_path id r) =
        Raise (Exc.JobExecutionError_ msg)
  end.
Proof.
  unfold _run_yaml_pipeline, run_pipeline_try.
  destruct (subprocess_run env (pipeline_cmd env r yaml_path id))
    as [|e|rc so se].
  - repeat split. eexists. reflexivity.
  - destruct (Exc.isinstance e Exc.TimeoutExpired);
      repeat split; eexists; reflexivity.
  - destruct rc as [|q|q]; cbn [Z.eqb negb].
    + repeat split. eexists. repeat split.
    + repeat split. eexists. reflexivity.
    + repeat split. eexists. reflexivity.
Qed.
